(** * Agent framework of the route optimizer: a shallow embedding

    The development follows [src/agents/base_agent.py] (messages, session
    contexts, the agent runtime, the message bus and the orchestrator) and
    the agents of [src/agents/route_agents.py]: the planner (the
    scatter/gather decomposer), the weather, fuel and network agents, the
    optimizer and the critic's event handler.

    Python objects that are shared and mutated live in an explicit store
    ([World]): the bus registry with the agents' run-time fields, the
    message log, the orchestrator's session table, and a heap of
    [AgentContext] objects that agents and the orchestrator reference by
    location, so that a write through one reference is seen through all.
    Coroutines are embedded as state transformers that may raise. The
    [await]s on the bus and on [queue.put] never suspend (the inbox is
    unbounded); [queue.get()] on an empty inbox does, which is the [None]
    result of [loop_iteration]; [asyncio.sleep] does, and what the other
    coroutines make of the store meanwhile is a parameter of the agents
    that pause.

    Dictionaries are finite maps, so the order of their entries is not
    kept; payloads are values, not shared objects; floats are rationals;
    [uuid4()] and [datetime.now()] read from sequences that the store
    carries. The loop is stated for any table of handlers;
    [route_vtable] is the table of route_agents.py. *)

From Stdlib Require Import ZArith QArith Ascii String List Lia.
From stdpp Require Import gmap strings list fin_maps.

Local Open Scope string_scope.
Local Open Scope list_scope.
Local Open Scope Z_scope.

(** ** Python values *)

(** The dynamically typed values that travel in payloads and on the
    blackboard. Floats are idealised as rationals. *)
#[warnings="-register-all"]
Inductive pyval : Type :=
  | VNone
  | VBool (b : bool)
  | VInt (z : Z)
  | VFloat (q : Q)
  | VStr (s : string)
  | VList (l : list pyval)
  | VDict (d : gmap string pyval).

(** The exceptions the modelled code can raise; all of them derive from
    Python's [Exception]. [UserError] stands for any other such class. *)
Inductive Exception : Type :=
  | RuntimeError (msg : string)
  | ValueError (msg : string)
  | KeyError (key : string)
  | TypeError (msg : string)
  | AttributeError (msg : string)
  | UserError (name msg : string).

(** A printed line: literal text with interpolated values, whose [str()]
    rendering is left symbolic. *)
Inductive fragment : Type :=
  | Lit (s : string)
  | Fmt (v : pyval)
  | FmtExn (e : Exception).

(** [v == s] for a string literal [s]. *)
Definition py_eq_str (v : pyval) (s : string) : bool :=
  match v with
  | VStr t => String.eqb t s
  | _ => false
  end.

(** [x in s] on strings is the substring test. *)
Fixpoint str_contains (x s : string) : bool :=
  String.prefix x s ||
  match s with
  | EmptyString => false
  | String _ s' => str_contains x s'
  end.

(** [l.remove(x)] for a string [x]: drops the first element equal to it. *)
Fixpoint list_remove (x : string) (l : list pyval) : list pyval :=
  match l with
  | [] => []
  | v :: l' => if py_eq_str v x then l' else v :: list_remove x l'
  end.

(** ** Enumerations and records of base_agent.py *)

Inductive AgentStatus : Type := IDLE | WORKING | WAITING | ERROR | COMPLETED.

Definition AgentStatus_value (s : AgentStatus) : string :=
  match s with
  | IDLE => "idle"
  | WORKING => "working"
  | WAITING => "waiting"
  | ERROR => "error"
  | COMPLETED => "completed"
  end.

Inductive MessageType : Type := REQUEST | RESPONSE | EVENT | COMMAND.

Definition MessageType_value (t : MessageType) : string :=
  match t with
  | REQUEST => "request"
  | RESPONSE => "response"
  | EVENT => "event"
  | COMMAND => "command"
  end.

(** [timestamp] counts microseconds, the resolution of [datetime].
    [correlation_id] is whatever value the sender passed ([None] by
    default). *)
Record AgentMessage : Type := {
  id : string;
  from_agent : string;
  to_agent : string;
  type : MessageType;
  payload : gmap string pyval;
  timestamp : Z;
  correlation_id : pyval
}.

Record AgentContext : Type := {
  session_id : string;
  goal : string;
  data : gmap string pyval
}.

Definition AgentContext_get (key : string) (default_ : pyval)
    (c : AgentContext) : pyval :=
  default default_ (data c !! key).

Definition AgentContext_set (key : string) (value : pyval)
    (c : AgentContext) : AgentContext :=
  {| session_id := session_id c; goal := goal c;
     data := <[key := value]> (data c) |}.

(** [dict.update]: the entries of [updates] win. *)
Definition AgentContext_update (updates : gmap string pyval)
    (c : AgentContext) : AgentContext :=
  {| session_id := session_id c; goal := goal c;
     data := updates ∪ data c |}.

(** The concrete agent classes of route_agents.py; the class of an object
    selects its handlers. *)
Inductive AgentClass : Type :=
  | PlannerAgent | WeatherAgent | FuelAgent
  | NetworkAgent | OptimizerAgent | CriticAgent.

(** Heap locations of [AgentContext] objects. *)
Definition loc : Type := nat.

(** The instance fields of [BaseAgent]. [message_queue] is the content of
    the asyncio queue, oldest first; [message_bus] tells whether the bus
    reference is set. *)
Record BaseAgent : Type := {
  cls : AgentClass;
  agent_id : string;
  capabilities : list string;
  status : AgentStatus;
  message_queue : list AgentMessage;
  context : option loc;
  message_bus : bool;
  tasks_completed : Z;
  tasks_failed : Z;
  total_time : Q
}.

(** [BaseAgent.__init__] *)
Definition BaseAgent_init (c : AgentClass) (agent_id_ : string)
    (capabilities_ : list string) : BaseAgent :=
  {| cls := c; agent_id := agent_id_; capabilities := capabilities_;
     status := IDLE; message_queue := []; context := None;
     message_bus := false;
     tasks_completed := 0; tasks_failed := 0; total_time := 0%Q |}.

Definition set_status (s : AgentStatus) (a : BaseAgent) : BaseAgent :=
  {| cls := cls a; agent_id := agent_id a; capabilities := capabilities a;
     status := s; message_queue := message_queue a; context := context a;
     message_bus := message_bus a; tasks_completed := tasks_completed a;
     tasks_failed := tasks_failed a; total_time := total_time a |}.

Definition set_message_queue (q : list AgentMessage) (a : BaseAgent)
    : BaseAgent :=
  {| cls := cls a; agent_id := agent_id a; capabilities := capabilities a;
     status := status a; message_queue := q; context := context a;
     message_bus := message_bus a; tasks_completed := tasks_completed a;
     tasks_failed := tasks_failed a; total_time := total_time a |}.

(** [BaseAgent.set_context] *)
Definition set_context (c : option loc) (a : BaseAgent) : BaseAgent :=
  {| cls := cls a; agent_id := agent_id a; capabilities := capabilities a;
     status := status a; message_queue := message_queue a; context := c;
     message_bus := message_bus a; tasks_completed := tasks_completed a;
     tasks_failed := tasks_failed a; total_time := total_time a |}.

(** [BaseAgent.set_message_bus] *)
Definition set_message_bus (b : bool) (a : BaseAgent) : BaseAgent :=
  {| cls := cls a; agent_id := agent_id a; capabilities := capabilities a;
     status := status a; message_queue := message_queue a;
     context := context a; message_bus := b;
     tasks_completed := tasks_completed a; tasks_failed := tasks_failed a;
     total_time := total_time a |}.

Definition set_tasks_completed (n : Z) (a : BaseAgent) : BaseAgent :=
  {| cls := cls a; agent_id := agent_id a; capabilities := capabilities a;
     status := status a; message_queue := message_queue a;
     context := context a; message_bus := message_bus a;
     tasks_completed := n; tasks_failed := tasks_failed a;
     total_time := total_time a |}.

Definition set_tasks_failed (n : Z) (a : BaseAgent) : BaseAgent :=
  {| cls := cls a; agent_id := agent_id a; capabilities := capabilities a;
     status := status a; message_queue := message_queue a;
     context := context a; message_bus := message_bus a;
     tasks_completed := tasks_completed a; tasks_failed := n;
     total_time := total_time a |}.

Definition set_total_time (t : Q) (a : BaseAgent) : BaseAgent :=
  {| cls := cls a; agent_id := agent_id a; capabilities := capabilities a;
     status := status a; message_queue := message_queue a;
     context := context a; message_bus := message_bus a;
     tasks_completed := tasks_completed a; tasks_failed := tasks_failed a;
     total_time := t |}.

(** [BaseAgent.get_stats] *)
Definition get_stats (a : BaseAgent) : gmap string pyval :=
  {[ "agent_id" := VStr (agent_id a);
     "status" := VStr (AgentStatus_value (status a));
     "capabilities" := VList (VStr <$> capabilities a);
     "tasks_completed" := VInt (tasks_completed a);
     "tasks_failed" := VInt (tasks_failed a);
     "avg_time_per_task" :=
       VFloat (total_time a / inject_Z (Z.max (tasks_completed a) 1))%Q;
     "success_rate" :=
       VFloat (inject_Z (tasks_completed a) /
               inject_Z (Z.max (tasks_completed a + tasks_failed a) 1))%Q ]}.

(** ** The store *)

(** [agents] and [message_log] are the fields of the one [MessageBus];
    [active_goals] is the orchestrator's table, whose entries reference
    contexts in [heap]. [uuid_source] and [clock_source] are the readings
    that [uuid4()] and [datetime.now()] will return, consumed through
    their cursors. *)
Record World : Type := {
  agents : gmap string BaseAgent;
  message_log : list AgentMessage;
  active_goals : gmap string loc;
  heap : gmap loc AgentContext;
  stdout : list (list fragment);
  uuid_source : nat -> string;
  uuid_cursor : nat;
  clock_source : nat -> Z;
  clock_cursor : nat
}.

Definition set_agents (f : gmap string BaseAgent -> gmap string BaseAgent)
    (w : World) : World :=
  {| agents := f (agents w); message_log := message_log w;
     active_goals := active_goals w; heap := heap w; stdout := stdout w;
     uuid_source := uuid_source w; uuid_cursor := uuid_cursor w;
     clock_source := clock_source w; clock_cursor := clock_cursor w |}.

Definition set_message_log (f : list AgentMessage -> list AgentMessage)
    (w : World) : World :=
  {| agents := agents w; message_log := f (message_log w);
     active_goals := active_goals w; heap := heap w; stdout := stdout w;
     uuid_source := uuid_source w; uuid_cursor := uuid_cursor w;
     clock_source := clock_source w; clock_cursor := clock_cursor w |}.

Definition set_active_goals (f : gmap string loc -> gmap string loc)
    (w : World) : World :=
  {| agents := agents w; message_log := message_log w;
     active_goals := f (active_goals w); heap := heap w; stdout := stdout w;
     uuid_source := uuid_source w; uuid_cursor := uuid_cursor w;
     clock_source := clock_source w; clock_cursor := clock_cursor w |}.

Definition set_heap (f : gmap loc AgentContext -> gmap loc AgentContext)
    (w : World) : World :=
  {| agents := agents w; message_log := message_log w;
     active_goals := active_goals w; heap := f (heap w); stdout := stdout w;
     uuid_source := uuid_source w; uuid_cursor := uuid_cursor w;
     clock_source := clock_source w; clock_cursor := clock_cursor w |}.

Definition set_stdout (f : list (list fragment) -> list (list fragment))
    (w : World) : World :=
  {| agents := agents w; message_log := message_log w;
     active_goals := active_goals w; heap := heap w; stdout := f (stdout w);
     uuid_source := uuid_source w; uuid_cursor := uuid_cursor w;
     clock_source := clock_source w; clock_cursor := clock_cursor w |}.

Definition set_uuid_cursor (n : nat) (w : World) : World :=
  {| agents := agents w; message_log := message_log w;
     active_goals := active_goals w; heap := heap w; stdout := stdout w;
     uuid_source := uuid_source w; uuid_cursor := n;
     clock_source := clock_source w; clock_cursor := clock_cursor w |}.

Definition set_clock_cursor (n : nat) (w : World) : World :=
  {| agents := agents w; message_log := message_log w;
     active_goals := active_goals w; heap := heap w; stdout := stdout w;
     uuid_source := uuid_source w; uuid_cursor := uuid_cursor w;
     clock_source := clock_source w; clock_cursor := n |}.

(** ** Coroutines as state transformers that may raise *)

(** [Fault] is the result of following a reference that is not in the
    store; it is not a Python exception and no [except] clause sees it. *)
Inductive outcome (A : Type) : Type :=
  | Ok (a : A)
  | Raise (e : Exception)
  | Fault.
Arguments Ok {A} a.
Arguments Raise {A} e.
Arguments Fault {A}.

Definition M (A : Type) : Type := World -> World * outcome A.

Definition ret {A} (a : A) : M A := fun w => (w, Ok a).

Definition bind {A B} (c : M A) (k : A -> M B) : M B := fun w =>
  match c w with
  | (w', Ok a) => k a w'
  | (w', Raise e) => (w', Raise e)
  | (w', Fault) => (w', Fault)
  end.

Definition raise {A} (e : Exception) : M A := fun w => (w, Raise e).

Definition gets {A} (f : World -> A) : M A := fun w => (w, Ok (f w)).

Definition modify (f : World -> World) : M unit := fun w => (f w, Ok tt).

(** [try: c except Exception as e: h e] *)
Definition try_except {A} (c : M A) (h : Exception -> M A) : M A := fun w =>
  match c w with
  | (w', Raise e) => h e w'
  | r => r
  end.

Notation "'let*' x ':=' c 'in' k" := (bind c (fun x => k))
  (at level 10, x name, c at level 100, k at level 200).

Definition print (line : list fragment) : M unit :=
  modify (set_stdout (fun out => out ++ [line])).

(** [str(uuid4())] *)
Definition uuid4 : M string := fun w =>
  (set_uuid_cursor (S (uuid_cursor w)) w, Ok (uuid_source w (uuid_cursor w))).

(** [datetime.now()] *)
Definition datetime_now : M Z := fun w =>
  (set_clock_cursor (S (clock_cursor w)) w,
   Ok (clock_source w (clock_cursor w))).

(** [timedelta.total_seconds()] of a difference in microseconds *)
Definition total_seconds (dt : Z) : Q := Qmake dt 1000000.

(** Reading and writing a field of the agent object [self]. *)
Definition self_get {A} (self : string) (f : BaseAgent -> A) : M A :=
  fun w =>
    match agents w !! self with
    | Some a => (w, Ok (f a))
    | None => (w, Fault)
    end.

Definition self_set (self : string) (f : BaseAgent -> BaseAgent) : M unit :=
  fun w =>
    match agents w !! self with
    | Some a => (set_agents (<[self := f a]>) w, Ok tt)
    | None => (w, Fault)
    end.

(** Calling [get] and [set] on the context object at [l]. *)
Definition context_get (l : loc) (key : string) (default_ : pyval)
    : M pyval := fun w =>
  match heap w !! l with
  | Some c => (w, Ok (AgentContext_get key default_ c))
  | None => (w, Fault)
  end.

Definition context_set (l : loc) (key : string) (value : pyval) : M unit :=
  fun w =>
    match heap w !! l with
    | Some c => (set_heap (<[l := AgentContext_set key value c]>) w, Ok tt)
    | None => (w, Fault)
    end.

Definition context_update (l : loc) (updates : gmap string pyval)
    : M unit := fun w =>
  match heap w !! l with
  | Some c => (set_heap (<[l := AgentContext_update updates c]>) w, Ok tt)
  | None => (w, Fault)
  end.

Definition context_field {A} (l : loc) (f : AgentContext -> A) : M A :=
  fun w =>
    match heap w !! l with
    | Some c => (w, Ok (f c))
    | None => (w, Fault)
    end.

(** ** Python built-ins on dynamically typed values *)

(** [d[key]] *)
Definition dict_getitem (d : gmap string pyval) (key : string) : M pyval :=
  match d !! key with
  | Some v => ret v
  | None => raise (KeyError key)
  end.

(** [x in c] for a string [x] *)
Definition py_in (x : string) (c : pyval) : M bool :=
  match c with
  | VList l => ret (existsb (fun v => py_eq_str v x) l)
  | VStr s => ret (str_contains x s)
  | VDict d => ret (bool_decide (is_Some (d !! x)))
  | _ => raise (TypeError "argument is not iterable")
  end.

(** [c.remove(x)], called only after [x in c] held *)
Definition py_remove (c : pyval) (x : string) : M pyval :=
  match c with
  | VList l => ret (VList (list_remove x l))
  | _ => raise (AttributeError "object has no attribute 'remove'")
  end.

(** [len(c)] *)
Definition py_len (c : pyval) : M Z :=
  match c with
  | VList l => ret (Z.of_nat (length l))
  | VStr s => ret (Z.of_nat (String.length s))
  | VDict d => ret (Z.of_nat (size d))
  | _ => raise (TypeError "object has no len()")
  end.

(** [l[start:]] *)
Definition py_slice_from {A} (start : Z) (l : list A) : list A :=
  let n := Z.of_nat (length l) in
  let s := if start <? 0 then Z.max (start + n) 0 else Z.min start n in
  drop (Z.to_nat s) l.

(** ** Messages *)

(** The dataclass constructor: the default factories draw the identifier,
    then the timestamp. *)
Definition AgentMessage_new (from_agent_ to_agent_ : string)
    (type_ : MessageType) (payload_ : gmap string pyval)
    (correlation_id_ : pyval) : M AgentMessage :=
  let* id_ := uuid4 in
  let* timestamp_ := datetime_now in
  ret {| id := id_; from_agent := from_agent_; to_agent := to_agent_;
         type := type_; payload := payload_; timestamp := timestamp_;
         correlation_id := correlation_id_ |}.

(** ** MessageBus *)

(** [BaseAgent.receive_message]: [queue.put] on the unbounded inbox. *)
Definition receive_message (message : AgentMessage) (agent : BaseAgent)
    : BaseAgent :=
  set_message_queue (message_queue agent ++ [message]) agent.

(** [MessageBus.register_agent] *)
Definition register_agent (agent : BaseAgent) : M unit :=
  modify (set_agents (<[agent_id agent := set_message_bus true agent]>)).

(** [MessageBus.send]. The broadcast loop visits every entry of the
    registry once; the inboxes are independent, so the visiting order does
    not show in the resulting store. *)
Definition MessageBus_send (message : AgentMessage) : M unit :=
  let* _ := modify (set_message_log (fun log => log ++ [message])) in
  if String.eqb (to_agent message) "broadcast" then
    modify (set_agents (map_imap (fun agent_id_ agent =>
      Some (if negb (String.eqb agent_id_ (from_agent message))
            then receive_message message agent
            else agent))))
  else
    let* registry := gets agents in
    match registry !! to_agent message with
    | Some agent =>
        modify (set_agents
                  (<[to_agent message := receive_message message agent]>))
    | None =>
        print [Lit "Warning: Agent "; Lit (to_agent message);
               Lit " not found"]
    end.

(** [MessageBus.get_system_stats]. The per-agent list is enumerated in the
    registry's canonical order rather than in registration order. *)
Definition get_system_stats (w : World) : gmap string pyval :=
  {[ "total_agents" := VInt (Z.of_nat (size (agents w)));
     "agents" := VList ((fun kv => VDict (get_stats kv.2)) <$>
                        map_to_list (agents w));
     "total_messages" := VInt (Z.of_nat (length (message_log w))) ]}.

Section Wire.
(** [datetime.isoformat], of the standard library *)
Variable isoformat : Z -> string.

(** [AgentMessage.to_dict] *)
Definition to_dict (m : AgentMessage) : gmap string pyval :=
  {[ "id" := VStr (id m);
     "from" := VStr (from_agent m);
     "to" := VStr (to_agent m);
     "type" := VStr (MessageType_value (type m));
     "payload" := VDict (payload m);
     "timestamp" := VStr (isoformat (timestamp m));
     "correlation_id" := correlation_id m ]}.

(** [MessageBus.get_message_history]: [message_log[-limit:]] *)
Definition get_message_history (limit : Z) (w : World)
    : list (gmap string pyval) :=
  to_dict <$> py_slice_from (- limit) (message_log w).
End Wire.

(** ** BaseAgent: sending *)

(** [BaseAgent.send_message] *)
Definition send_message (self to_agent_ : string)
    (message_type : MessageType) (payload_ : gmap string pyval)
    (correlation_id_ : pyval) : M unit :=
  let* bus := self_get self message_bus in
  if negb bus then raise (RuntimeError "Message bus not configured")
  else
    let* sender := self_get self agent_id in
    let* message :=
      AgentMessage_new sender to_agent_ message_type payload_
                       correlation_id_ in
    MessageBus_send message.

(** [BaseAgent.broadcast_event] *)
Definition broadcast_event (self event_type : string)
    (data_ : gmap string pyval) : M unit :=
  send_message self "broadcast" EVENT
    {[ "event" := VStr event_type; "data" := VDict data_ ]} VNone.

(** [BaseAgent.handle_error] *)
Definition handle_error (self : string) (error : Exception) : M unit :=
  let* name := self_get self agent_id in
  print [Lit "["; Lit name; Lit "] ERROR: "; FmtExn error].

(** ** Orchestrator *)

(** [Orchestrator.set_goal]. [initial_data or {}] is the given dictionary,
    or a new empty one. *)
Definition set_goal (goal_ : string)
    (initial_data : option (gmap string pyval)) : M string :=
  let* session_id_ := uuid4 in
  let* l := gets (fun w => fresh (dom (heap w))) in
  let context_ := {| session_id := session_id_; goal := goal_;
                     data := default ∅ initial_data |} in
  let* _ := modify (set_heap (<[l := context_]>)) in
  let* _ := modify (set_active_goals (<[session_id_ := l]>)) in
  let* _ := modify (set_agents (fmap (set_context (Some l)))) in
  let* _ := print [Lit "[Orchestrator] New goal set: "; Lit goal_;
                   Lit " (session: "; Lit session_id_; Lit ")"] in
  ret session_id_.

(** [Orchestrator.start_optimization] *)
Definition start_optimization (session_id_ : string) : M unit :=
  let* goals := gets active_goals in
  match goals !! session_id_ with
  | None => raise (ValueError ("Unknown session: " +:+ session_id_))
  | Some l =>
      let* goal_ := context_field l goal in
      let* planner_message :=
        AgentMessage_new "orchestrator" "planner" COMMAND
          {[ "action" := VStr "start_optimization";
             "session_id" := VStr session_id_;
             "goal" := VStr goal_ ]}
          VNone in
      MessageBus_send planner_message
  end.

(** [Orchestrator.get_progress] *)
Definition get_progress (session_id_ : string) : M (gmap string pyval) :=
  let* goals := gets active_goals in
  match goals !! session_id_ with
  | None => ret {[ "error" := VStr "Unknown session" ]}
  | Some l =>
      let* goal_ := context_field l goal in
      let* data_ := context_field l data in
      let* stats := gets get_system_stats in
      ret {[ "session_id" := VStr session_id_;
             "goal" := VStr goal_;
             "data" := VDict data_;
             "system_stats" := VDict stats ]}
  end.

(** ** Handlers and the processing loop *)

(** The four handler slots of an agent class; [self] is the identifier
    under which the object is registered. *)
Record Handlers : Type := {
  handle_request : string -> AgentMessage -> M unit;
  handle_response : string -> AgentMessage -> M unit;
  handle_event : string -> AgentMessage -> M unit;
  handle_command : string -> AgentMessage -> M unit
}.

(** The bodies of the base class are all [pass]. *)
Definition BaseAgent_pass (self : string) (message : AgentMessage)
    : M unit := ret tt.

Definition BaseAgent_methods : Handlers :=
  {| handle_request := BaseAgent_pass; handle_response := BaseAgent_pass;
     handle_event := BaseAgent_pass; handle_command := BaseAgent_pass |}.

(** What a loop that has run for a while is doing. *)
Inductive LoopState : Type :=
  | Running
  | Suspended
  | Propagated (e : Exception)
  | Faulted.

Section Runtime.
(** The handlers of each class: any implementation of the interface. *)
Variable vtable : AgentClass -> Handlers.

(** The [if]/[elif] chain on [message.type] *)
Definition dispatch (self : string) (message : AgentMessage) : M unit :=
  let* c := self_get self cls in
  match type message with
  | REQUEST => handle_request (vtable c) self message
  | RESPONSE => handle_response (vtable c) self message
  | EVENT => handle_event (vtable c) self message
  | COMMAND => handle_command (vtable c) self message
  end.

(** The store in which the handler is called: the message is off the
    queue, the agent is working and the start time has been read. *)
Definition at_dispatch (self : string) (a : BaseAgent)
    (rest : list AgentMessage) (w : World) : World :=
  set_clock_cursor (S (clock_cursor w))
    (set_agents
       (<[self := set_status WORKING (set_message_queue rest a)]>) w).

(** The store that the [except] clause makes of [w1], where the agent
    is [a1]. *)
Definition after_exception (self : string) (a1 : BaseAgent)
    (e : Exception) (w1 : World) : World :=
  set_stdout
    (fun out => out ++ [[Lit "["; Lit (agent_id a1); Lit "] ERROR: ";
                         FmtExn e]])
    (set_agents
       (<[self := set_tasks_failed (tasks_failed a1 + 1)
                    (set_status ERROR a1)]>) w1).

(** The [try] block once the message is dequeued *)
Definition process_one (self : string) (message : AgentMessage)
    : M unit :=
  let* _ := self_set self (set_status WORKING) in
  let* start_time := datetime_now in
  let* _ := dispatch self message in
  let* end_time := datetime_now in
  let elapsed := total_seconds (end_time - start_time) in
  let* _ := self_set self
              (fun a => set_total_time (total_time a + elapsed)%Q a) in
  let* _ := self_set self
              (fun a => set_tasks_completed (tasks_completed a + 1) a) in
  self_set self (set_status IDLE).

(** The [except Exception] clause *)
Definition on_exception (self : string) (e : Exception) : M unit :=
  let* _ := self_set self (set_status ERROR) in
  let* _ := self_set self
              (fun a => set_tasks_failed (tasks_failed a + 1) a) in
  handle_error self e.

(** One turn of [while True]. [None]: the inbox is empty and
    [queue.get()] suspends the coroutine. *)
Definition loop_iteration (self : string) (w : World)
    : option (World * outcome unit) :=
  match agents w !! self with
  | None => Some (w, Fault)
  | Some a =>
      match message_queue a with
      | [] => None
      | message :: rest =>
          Some (try_except
                  (let* _ := self_set self (set_message_queue rest) in
                   process_one self message)
                  (on_exception self) w)
      end
  end.

(** [BaseAgent.process_messages], for at most [fuel] turns *)
Fixpoint process_messages (fuel : nat) (self : string) (w : World)
    : World * LoopState :=
  match fuel with
  | O => (w, Running)
  | S fuel' =>
      match loop_iteration self w with
      | None => (w, Suspended)
      | Some (w', Ok _) => process_messages fuel' self w'
      | Some (w', Raise e) => (w', Propagated e)
      | Some (w', Fault) => (w', Faulted)
      end
  end.
End Runtime.

(** ** PlannerAgent (route_agents.py) *)

(** [PlannerAgent.__init__] *)
Definition PlannerAgent_init : BaseAgent :=
  BaseAgent_init PlannerAgent "planner"
    ["goal_decomposition"; "task_assignment"; "workflow_management"].

Definition newline : string := String (Ascii.ascii_of_nat 10) "".

(** [PlannerAgent.trigger_optimization] *)
Definition trigger_optimization (self : string) : M unit :=
  let* _ :=
    print [Lit newline;
           Lit "[Planner] All data collected. Triggering optimization..."] in
  let* ctx := self_get self context in
  match ctx with
  | None => raise (AttributeError "'NoneType' object has no attribute 'get'")
  | Some l =>
      let* weather_data := context_get l "weather_data" VNone in
      let* fuel_data := context_get l "fuel_data" VNone in
      let* network_data := context_get l "network_data" VNone in
      let* sid := context_field l session_id in
      let* _ := send_message self "optimizer" REQUEST
                  {[ "action" := VStr "optimize_route";
                     "weather_data" := weather_data;
                     "fuel_data" := fuel_data;
                     "network_data" := network_data ]}
                  (VStr sid) in
      let* ctx' := self_get self context in
      match ctx' with
      | None =>
          raise (AttributeError "'NoneType' object has no attribute 'set'")
      | Some l' => context_set l' "planning_status" (VStr "optimizing")
      end
  end.

(** [PlannerAgent.handle_response]. [pending] is the list object stored on
    the blackboard, so [remove] already changes the stored list; writing
    the result back into the store gives the same blackboard. *)
Definition PlannerAgent_handle_response (self : string)
    (message : AgentMessage) : M unit :=
  let* ctx := self_get self context in
  match ctx with
  | None => ret tt
  | Some l =>
      let* pending := context_get l "pending_responses" (VList []) in
      let* found := py_in (from_agent message) pending in
      let* pending :=
        (if found : bool then
           let* pending' := py_remove pending (from_agent message) in
           let* _ := context_set l "pending_responses" pending' in
           let* _ := context_set l (from_agent message +:+ "_data")
                       (VDict (payload message)) in
           let* _ := print [Lit "[Planner] Received data from ";
                            Lit (from_agent message)] in
           ret pending'
         else ret pending) in
      let* n := py_len pending in
      if n =? 0 then
        let* planning_status := context_get l "planning_status" VNone in
        if py_eq_str planning_status "waiting_for_data"
        then trigger_optimization self
        else ret tt
      else ret tt
  end.

(** [PlannerAgent.decompose_and_delegate] *)
Definition decompose_and_delegate (self : string)
    (payload_ : gmap string pyval) : M unit :=
  let* goal_ := dict_getitem payload_ "goal" in
  let* session_id_ := dict_getitem payload_ "session_id" in
  let* _ := print [Lit newline; Lit "[Planner] Decomposing goal: ";
                   Fmt goal_] in
  let* _ := print [Lit "[Planner] Session: "; Fmt session_id_] in
  let* _ := send_message self "weather" REQUEST
              {[ "action" := VStr "get_forecast";
                 "origin" := VStr "PTY";
                 "destination" := VStr "BOG";
                 "time_range" := VStr "next_24_hours" ]}
              session_id_ in
  let* _ := send_message self "fuel" REQUEST
              {[ "action" := VStr "get_fuel_analysis";
                 "origin" := VStr "PTY";
                 "destination" := VStr "BOG" ]}
              session_id_ in
  let* _ := send_message self "network" REQUEST
              {[ "action" := VStr "check_constraints";
                 "route" := VStr "PTY-BOG" ]}
              session_id_ in
  let* ctx := self_get self context in
  match ctx with
  | Some l =>
      let* _ := context_set l "planning_status"
                  (VStr "waiting_for_data") in
      context_set l "pending_responses"
        (VList [VStr "weather"; VStr "fuel"; VStr "network"])
  | None => ret tt
  end.

(** [PlannerAgent.handle_command] *)
Definition PlannerAgent_handle_command (self : string)
    (message : AgentMessage) : M unit :=
  if py_eq_str (default VNone (payload message !! "action"))
               "start_optimization"
  then decompose_and_delegate self (payload message)
  else ret tt.

(** The planner overrides the command and response slots and inherits the
    other two from the base class; [handle_request] is the abstract
    method, whose body is [pass]. That Python refuses to instantiate a
    class with an abstract method left is not part of the embedding:
    the methods are modelled on an object that exists. *)
Definition PlannerAgent_methods : Handlers :=
  {| handle_request := BaseAgent_pass;
     handle_response := PlannerAgent_handle_response;
     handle_event := BaseAgent_pass;
     handle_command := PlannerAgent_handle_command |}.

(** Applying a handler to a sequence of messages, one after the other. *)
Fixpoint handle_all (h : AgentMessage -> M unit)
    (messages : list AgentMessage) : M unit :=
  match messages with
  | [] => ret tt
  | m :: rest => let* _ := h m in handle_all h rest
  end.

(** ** Initial states *)

(** [MessageBus.__init__] and [Orchestrator.__init__]: nothing registered,
    nothing logged, no session. *)
Definition initial_world (uuids : nat -> string) (clock : nat -> Z)
    : World :=
  {| agents := ∅; message_log := []; active_goals := ∅; heap := ∅;
     stdout := []; uuid_source := uuids; uuid_cursor := 0%nat;
     clock_source := clock; clock_cursor := 0%nat |}.

(** A sample of readings for the closed examples below. *)
Definition sample_uuids (n : nat) : string :=
  match n with
  | O => "6f1c0d1e"
  | S O => "a2b4c6d8"
  | S (S O) => "0badcafe"
  | _ => "deadbeef"
  end.

Definition sample_clock (n : nat) : Z := 1000 * Z.of_nat n.

Definition sample_world : World := initial_world sample_uuids sample_clock.

(** The constructors of the other agent classes of route_agents.py *)
Definition WeatherAgent_init : BaseAgent :=
  BaseAgent_init WeatherAgent "weather"
    ["weather_monitoring"; "forecasting"; "turbulence_detection"].

Definition FuelAgent_init : BaseAgent :=
  BaseAgent_init FuelAgent "fuel"
    ["fuel_pricing"; "tankering_analysis"; "cost_optimization"].

Definition NetworkAgent_init : BaseAgent :=
  BaseAgent_init NetworkAgent "network"
    ["slot_management"; "connection_optimization"; "network_analysis"].

Definition OptimizerAgent_init : BaseAgent :=
  BaseAgent_init OptimizerAgent "optimizer"
    ["route_optimization"; "multi_llm_comparison"; "decision_making"].

Definition CriticAgent_init : BaseAgent :=
  BaseAgent_init CriticAgent "critic"
    ["performance_monitoring"; "anomaly_detection"; "feedback_generation"].

(** The registrations of [demo_agentic_system], steps 1 to 3 *)
Definition register_demo_agents : M unit :=
  let* _ := register_agent PlannerAgent_init in
  let* _ := register_agent WeatherAgent_init in
  let* _ := register_agent FuelAgent_init in
  let* _ := register_agent NetworkAgent_init in
  let* _ := register_agent OptimizerAgent_init in
  register_agent CriticAgent_init.

Definition demo_world : World := (register_demo_agents sample_world).1.

(** A completion event as the optimizer broadcasts it, and a request for
    an agent nobody registered. *)
Definition sample_broadcast : AgentMessage :=
  {| id := "m-1"; from_agent := "optimizer"; to_agent := "broadcast";
     type := EVENT;
     payload := {[ "event" := VStr "optimization_complete";
                   "data" := VDict ∅ ]};
     timestamp := 0; correlation_id := VNone |}.

Definition sample_message : AgentMessage :=
  {| id := "m-2"; from_agent := "planner"; to_agent := "compliance";
     type := REQUEST; payload := {[ "action" := VStr "validate" ]};
     timestamp := 0; correlation_id := VNone |}.

(** A table with the planner's handlers and, for every other class, the
    base class's: the planner on its own. *)
Definition planner_vtable (c : AgentClass) : Handlers :=
  match c with
  | PlannerAgent => PlannerAgent_methods
  | _ => BaseAgent_methods
  end.

(** [demo_agentic_system], step 5, with the goal of the spec's scenario *)
Definition scenario_world : World :=
  (set_goal "test goal" None demo_world).1.

(** A start command whose payload lacks the goal, and the store in which
    it waits in the planner's inbox. *)
Definition faulty_command : AgentMessage :=
  {| id := "m-3"; from_agent := "orchestrator"; to_agent := "planner";
     type := COMMAND;
     payload := {[ "action" := VStr "start_optimization";
                   "session_id" := VStr "6f1c0d1e" ]};
     timestamp := 0; correlation_id := VNone |}.

Definition faulty_world : World :=
  (MessageBus_send faulty_command demo_world).1.

(** The store once the scenario's session is started and the planner
    has taken its turn on the start command. *)
Definition waiting_world : World :=
  match loop_iteration planner_vtable "planner"
          (start_optimization "6f1c0d1e" scenario_world).1 with
  | Some (w, _) => w
  | None => scenario_world
  end.

(** Responses as the workers address them to the planner; fuel answers
    twice, and the optimizer's own reply comes last. *)
Definition response_from (sender : string) : AgentMessage :=
  {| id := "r-" +:+ sender; from_agent := sender; to_agent := "planner";
     type := RESPONSE; payload := {[ "source" := VStr sender ]};
     timestamp := 0; correlation_id := VStr "6f1c0d1e" |}.

Definition sample_responses : list AgentMessage :=
  [response_from "fuel"; response_from "weather"; response_from "fuel";
   response_from "network"; response_from "optimizer"].

(** ** Predicates of the statements *)

(** [b'] is [b] up to the content of its inbox. *)
Definition same_but_queue (b b' : BaseAgent) : Prop :=
  b' = set_message_queue (message_queue b') b.

(** Between [w] and [w'] messages were logged and delivered, and lines
    printed; sessions, contexts and the agents' other fields are the
    same. *)
Definition delivery_only (w w' : World) : Prop :=
  heap w' = heap w ∧
  active_goals w' = active_goals w ∧
  (forall B b, agents w !! B = Some b ->
     exists b', agents w' !! B = Some b' ∧ same_but_queue b b') ∧
  (forall B, agents w !! B = None -> agents w' !! B = None).

(** Every agent of [w] is in [w'], with at most its inbox changed. *)
Definition queue_only (w w' : World) : Prop :=
  forall B b, agents w !! B = Some b ->
    exists b', agents w' !! B = Some b' ∧ same_but_queue b b'.

(** A computation that, however it ends, changes agents in their inboxes
    only. *)
Definition keeps_agents {A} (c : M A) : Prop :=
  forall w w' r, c w = (w', r) -> queue_only w w'.

(** A computation that, however it ends, only appends to the log. *)
Definition log_grows {A} (c : M A) : Prop :=
  forall w w' r, c w = (w', r) -> message_log w `prefix_of` message_log w'.

(** [b'] is the same object as [b], bound as [b] is: class, identifier,
    capabilities, context and bus are the same. *)
Definition same_identity (b b' : BaseAgent) : Prop :=
  cls b' = cls b ∧ agent_id b' = agent_id b ∧
  capabilities b' = capabilities b ∧ context b' = context b ∧
  message_bus b' = message_bus b.

(** Every agent registered in [w] is registered in [w'], under the same
    key and with the same identity. *)
Definition registry_kept (w w' : World) : Prop :=
  forall B b, agents w !! B = Some b ->
    exists b', agents w' !! B = Some b' ∧ same_identity b b'.

(** The envelope that [send_message] builds. *)
Definition envelope (m : AgentMessage) (sender recipient : string)
    (t : MessageType) (p : gmap string pyval) (corr : pyval) : Prop :=
  from_agent m = sender ∧ to_agent m = recipient ∧ type m = t ∧
  payload m = p ∧ correlation_id m = corr.

(** Between [w] and [w'] exactly [req] was sent: logged once, and put
    once into the inbox of its recipient if that one is registered. *)
Definition sent_once (req : AgentMessage) (w w' : World) : Prop :=
  message_log w' = message_log w ++ [req] ∧
  agents w' !! to_agent req
    = receive_message req <$> agents w !! to_agent req ∧
  (forall B, B ≠ to_agent req -> agents w' !! B = agents w !! B).

(** Between [w] and [w'] nothing was sent. *)
Definition sent_nothing (w w' : World) : Prop :=
  message_log w' = message_log w ∧ agents w' = agents w.

(** The three requests of [decompose_and_delegate], in the order sent. *)
Definition fan_out (sender : string) (corr : pyval)
    (r1 r2 r3 : AgentMessage) : Prop :=
  envelope r1 sender "weather" REQUEST
    {[ "action" := VStr "get_forecast"; "origin" := VStr "PTY";
       "destination" := VStr "BOG";
       "time_range" := VStr "next_24_hours" ]} corr ∧
  envelope r2 sender "fuel" REQUEST
    {[ "action" := VStr "get_fuel_analysis"; "origin" := VStr "PTY";
       "destination" := VStr "BOG" ]} corr ∧
  envelope r3 sender "network" REQUEST
    {[ "action" := VStr "check_constraints";
       "route" := VStr "PTY-BOG" ]} corr.

(** The consolidated request as the blackboard [c] determines it. *)
Definition consolidated (req : AgentMessage) (sender sid : string)
    (c : AgentContext) : Prop :=
  envelope req sender "optimizer" REQUEST
    {[ "action" := VStr "optimize_route";
       "weather_data" := AgentContext_get "weather_data" VNone c;
       "fuel_data" := AgentContext_get "fuel_data" VNone c;
       "network_data" := AgentContext_get "network_data" VNone c ]}
    (VStr sid).

(** The planner registered as [self], bound to the context at [l] and to
    the bus, with [P] still pending and status [st] on the blackboard. *)
Definition gathering (self : string) (l : loc) (sender sid : string)
    (P : list string) (st : string) (w : World) : Prop :=
  exists a c,
    agents w !! self = Some a ∧ context a = Some l ∧
    message_bus a = true ∧ agent_id a = sender ∧
    heap w !! l = Some c ∧ session_id c = sid ∧
    data c !! "pending_responses" = Some (VList (VStr <$> P)) ∧
    data c !! "planning_status" = Some (VStr st).

(** The responders that [decompose_and_delegate] records as pending. *)
Definition responders : list string := ["weather"; "fuel"; "network"].

(** Every sender of [P] has answered somewhere in [msgs]. *)
Definition covered (P : list string) (msgs : list AgentMessage) : Prop :=
  Forall (λ x, x ∈ from_agent <$> msgs) P.

#[local] Instance covered_dec (P : list string) (msgs : list AgentMessage) :
  Decision (covered P msgs).
Proof. unfold covered. apply _. Defined.

(** The last character of a string, to tell keys apart by their ending. *)
Fixpoint last_char (s : string) : option Ascii.ascii :=
  match s with
  | EmptyString => None
  | String a s' =>
      match last_char s' with
      | None => Some a
      | r => r
      end
  end.

(** ** The other agents of route_agents.py *)

(** [v[key]] for a string [key] *)
Definition py_getitem (v : pyval) (key : string) : M pyval :=
  match v with
  | VDict d => dict_getitem d key
  | VStr _ | VList _ => raise (TypeError "indices must be integers")
  | _ => raise (TypeError "object is not subscriptable")
  end.

(** [CriticAgent.handle_event] *)
Definition CriticAgent_handle_event (self : string)
    (message : AgentMessage) : M unit :=
  let event_type := default VNone (payload message !! "event") in
  if py_eq_str event_type "optimization_complete" then
    let* prediction := dict_getitem (payload message) "data" in
    let* ctx := self_get self context in
    match ctx with
    | Some l =>
        let* _ := context_set l "last_prediction" prediction in
        print [Lit "[Critic] Stored prediction for monitoring"]
    | None => ret tt
    end
  else ret tt.

Definition CriticAgent_methods : Handlers :=
  {| handle_request := BaseAgent_pass;
     handle_response := BaseAgent_pass;
     handle_event := CriticAgent_handle_event;
     handle_command := BaseAgent_pass |}.

Section Workers.
(** [datetime.isoformat], of the standard library *)
Variable isoformat : Z -> string.

(** What the other coroutines make of the store while this one sleeps for
    the given number of seconds. *)
Variable meanwhile : Q -> World -> World.

(** [await asyncio.sleep(seconds)] *)
Definition asyncio_sleep (seconds : Q) : M unit :=
  modify (meanwhile seconds).

(** [WeatherAgent.get_weather_forecast] *)
Definition get_weather_forecast (origin destination : pyval)
    : M (gmap string pyval) :=
  let* _ := print [Lit "[Weather] Fetching forecast for "; Fmt origin;
                   Lit "-"; Fmt destination] in
  let* _ := asyncio_sleep (5 # 10) in
  let* now := datetime_now in
  ret {[ "origin_weather" :=
           VDict {[ "airport" := origin;
                    "temperature" := VInt 28;
                    "wind_speed" := VInt 12;
                    "wind_direction" := VInt 90;
                    "visibility" := VStr "10km" ]};
         "destination_weather" :=
           VDict {[ "airport" := destination;
                    "temperature" := VInt 22;
                    "wind_speed" := VInt 8;
                    "wind_direction" := VInt 180;
                    "visibility" := VStr "10km" ]};
         "route_weather" :=
           VDict {[ "turbulence_alerts" := VList [];
                    "wind_at_fl390" :=
                      VDict {[ "speed" := VInt 45;
                               "direction" := VInt 270;
                               "component" := VStr "tailwind" ]};
                    "wind_at_fl370" :=
                      VDict {[ "speed" := VInt 35;
                               "direction" := VInt 260;
                               "component" := VStr "tailwind" ]};
                    "recommended_altitude" := VInt 39000;
                    "confidence" := VFloat (85 # 100) ]};
         "timestamp" := VStr (isoformat now) ]}.

(** [WeatherAgent.handle_request] *)
Definition WeatherAgent_handle_request (self : string)
    (message : AgentMessage) : M unit :=
  let action := default VNone (payload message !! "action") in
  if py_eq_str action "get_forecast" then
    let* origin := dict_getitem (payload message) "origin" in
    let* destination := dict_getitem (payload message) "destination" in
    let* forecast_data := get_weather_forecast origin destination in
    send_message self (from_agent message) RESPONSE forecast_data
      (correlation_id message)
  else ret tt.

(** [FuelAgent.analyze_fuel_costs] *)
Definition analyze_fuel_costs (origin destination : pyval)
    : M (gmap string pyval) :=
  let* _ := print [Lit "[Fuel] Analyzing fuel costs for "; Fmt origin;
                   Lit "-"; Fmt destination] in
  let* _ := asyncio_sleep (3 # 10) in
  let* now := datetime_now in
  ret {[ "origin_price" := VFloat (345 # 100);
         "destination_price" := VFloat (410 # 100);
         "fuel_burn_estimate" := VInt 2400;
         "tankering_recommended" := VBool true;
         "tankering_savings" := VInt 450;
         "confidence" := VFloat (92 # 100);
         "timestamp" := VStr (isoformat now) ]}.

(** [FuelAgent.handle_request] *)
Definition FuelAgent_handle_request (self : string)
    (message : AgentMessage) : M unit :=
  let action := default VNone (payload message !! "action") in
  if py_eq_str action "get_fuel_analysis" then
    let* origin := dict_getitem (payload message) "origin" in
    let* destination := dict_getitem (payload message) "destination" in
    let* fuel_data := analyze_fuel_costs origin destination in
    send_message self (from_agent message) RESPONSE fuel_data
      (correlation_id message)
  else ret tt.

(** [NetworkAgent.check_network_constraints] *)
Definition check_network_constraints (route : pyval)
    : M (gmap string pyval) :=
  let* _ := print [Lit "[Network] Checking constraints for "; Fmt route] in
  let* _ := asyncio_sleep (2 # 10) in
  let* now := datetime_now in
  ret {[ "slots_available" := VBool true;
         "connecting_flights" := VInt 3;
         "network_impact" := VStr "minimal";
         "constraints" := VList [];
         "timestamp" := VStr (isoformat now) ]}.

(** [NetworkAgent.handle_request] *)
Definition NetworkAgent_handle_request (self : string)
    (message : AgentMessage) : M unit :=
  let action := default VNone (payload message !! "action") in
  if py_eq_str action "check_constraints" then
    let* route := dict_getitem (payload message) "route" in
    let* constraints := check_network_constraints route in
    send_message self (from_agent message) RESPONSE constraints
      (correlation_id message)
  else ret tt.

(** [OptimizerAgent.optimize_route]. The three subscripts of the first
    lines are evaluated, and may raise, before anything of theirs is
    printed. *)
Definition optimize_route (weather_data fuel_data network_data : pyval)
    : M (gmap string pyval) :=
  let* _ := print [Lit newline; Lit "[Optimizer] Running optimization..."] in
  let* route_weather := py_getitem weather_data "route_weather" in
  let* confidence := py_getitem route_weather "confidence" in
  let* _ := print [Lit "  - Weather confidence: "; Fmt confidence] in
  let* savings := py_getitem fuel_data "tankering_savings" in
  let* _ := print [Lit "  - Fuel savings: $"; Fmt savings] in
  let* impact := py_getitem network_data "network_impact" in
  let* _ := print [Lit "  - Network status: "; Fmt impact] in
  let* _ := asyncio_sleep (2 # 1) in
  let* now := datetime_now in
  let result : gmap string pyval :=
    {[ "recommended_altitude" := VInt 39000;
       "estimated_fuel_savings" := VInt 450;
       "estimated_time_savings" := VFloat (25 # 10);
       "route" := VStr "PTY-BOG";
       "confidence" := VFloat (89 # 100);
       "reasoning" :=
         VStr "Favorable tailwinds at FL390 combined with fuel tankering opportunity";
       "llm_consensus" :=
         VDict {[ "claude" := VDict {[ "altitude" := VInt 39000;
                                       "confidence" := VFloat (92 # 100) ]};
                  "openai" := VDict {[ "altitude" := VInt 39000;
                                       "confidence" := VFloat (88 # 100) ]};
                  "gemini" := VDict {[ "altitude" := VInt 37000;
                                       "confidence" := VFloat (85 # 100) ]} ]};
       "requires_approval" := VBool false;
       "timestamp" := VStr (isoformat now) ]} in
  let* _ := print [Lit newline;
                   Lit "[Optimizer] ✓ Optimization complete!"] in
  let* _ := print [Lit "  Recommended: FL";
                   Fmt (VFloat (inject_Z 39000 / inject_Z 100))] in
  let* _ := print [Lit "  Fuel savings: "; Fmt (VInt 450); Lit " lbs"] in
  let* _ := print [Lit "  Confidence: ";
                   Fmt (VFloat ((89 # 100) * inject_Z 100)); Lit "%"] in
  ret result.

(** [OptimizerAgent.handle_request] *)
Definition OptimizerAgent_handle_request (self : string)
    (message : AgentMessage) : M unit :=
  let action := default VNone (payload message !! "action") in
  if py_eq_str action "optimize_route" then
    let* result :=
      optimize_route (default VNone (payload message !! "weather_data"))
                     (default VNone (payload message !! "fuel_data"))
                     (default VNone (payload message !! "network_data")) in
    let* _ := send_message self (from_agent message) RESPONSE result
                (correlation_id message) in
    broadcast_event self "optimization_complete" result
  else ret tt.
End Workers.

(** Whether the bus puts [m] into the inbox of the agent registered as
    [B]: a broadcast reaches everybody but its sender, any other message
    the agent it names. *)
Definition addressed (m : AgentMessage) (B : string) : bool :=
  if String.eqb (to_agent m) "broadcast"
  then negb (String.eqb B (from_agent m))
  else String.eqb (to_agent m) B.

(** The handlers of every class of route_agents.py. The critic, like the
    planner, inherits the abstract [handle_request]. *)
Definition route_vtable (isoformat : Z -> string)
    (meanwhile : Q -> World -> World) (c : AgentClass) : Handlers :=
  match c with
  | PlannerAgent => PlannerAgent_methods
  | WeatherAgent =>
      {| handle_request := WeatherAgent_handle_request isoformat meanwhile;
         handle_response := BaseAgent_pass;
         handle_event := BaseAgent_pass;
         handle_command := BaseAgent_pass |}
  | FuelAgent =>
      {| handle_request := FuelAgent_handle_request isoformat meanwhile;
         handle_response := BaseAgent_pass;
         handle_event := BaseAgent_pass;
         handle_command := BaseAgent_pass |}
  | NetworkAgent =>
      {| handle_request := NetworkAgent_handle_request isoformat meanwhile;
         handle_response := BaseAgent_pass;
         handle_event := BaseAgent_pass;
         handle_command := BaseAgent_pass |}
  | OptimizerAgent =>
      {| handle_request := OptimizerAgent_handle_request isoformat meanwhile;
         handle_response := BaseAgent_pass;
         handle_event := BaseAgent_pass;
         handle_command := BaseAgent_pass |}
  | CriticAgent => CriticAgent_methods
  end.

(** The blackboard once the planner has recorded the response [m], with
    [rest] still pending; the response that leaves nobody pending also
    moves the status on. *)
Definition record_response (m : AgentMessage) (rest : list string)
    (c : AgentContext) : AgentContext :=
  let c2 := AgentContext_set (from_agent m +:+ "_data") (VDict (payload m))
              (AgentContext_set "pending_responses" (VList (VStr <$> rest))
                 c) in
  match rest with
  | [] => AgentContext_set "planning_status" (VStr "optimizing") c2
  | _ :: _ => c2
  end.

(** The first message of [msgs] that [x] sent. *)
Definition first_from (x : string) (msgs : list AgentMessage)
    : option AgentMessage :=
  head (filter (λ m, from_agent m = x) msgs).

(** A request that the critic addresses to the planner. *)
Definition stray_request : AgentMessage :=
  {| id := "m-4"; from_agent := "critic"; to_agent := "planner";
     type := REQUEST; payload := {[ "action" := VStr "explain" ]};
     timestamp := 0; correlation_id := VNone |}.

(** What the planner passes on as the data of responder [x] when [msgs]
    are the responses it handled: the payload of the first one from [x]. *)
Definition first_answer (x : string) (msgs : list AgentMessage) : pyval :=
  default VNone ((λ m, VDict (payload m)) <$> first_from x msgs).

Definition consolidated_payload (msgs : list AgentMessage)
    : gmap string pyval :=
  {[ "action" := VStr "optimize_route";
     "weather_data" := first_answer "weather" msgs;
     "fuel_data" := first_answer "fuel" msgs;
     "network_data" := first_answer "network" msgs ]}.

(** The action that the request handler of each class answers, and the
    payload fields that it subscripts, in that order, before it does
    anything else. The optimizer reads its fields with [get]. *)
Definition worker_action (c : AgentClass) : option string :=
  match c with
  | WeatherAgent => Some "get_forecast"
  | FuelAgent => Some "get_fuel_analysis"
  | NetworkAgent => Some "check_constraints"
  | OptimizerAgent => Some "optimize_route"
  | PlannerAgent | CriticAgent => None
  end.

Definition worker_fields (c : AgentClass) : list string :=
  match c with
  | WeatherAgent | FuelAgent => ["origin"; "destination"]
  | NetworkAgent => ["route"]
  | OptimizerAgent | PlannerAgent | CriticAgent => []
  end.

(** The lines that [optimize_route] prints before its pause. *)
Definition optimizer_report (confidence savings impact : pyval)
    : list (list fragment) :=
  [ [Lit newline; Lit "[Optimizer] Running optimization..."];
    [Lit "  - Weather confidence: "; Fmt confidence];
    [Lit "  - Fuel savings: $"; Fmt savings];
    [Lit "  - Network status: "; Fmt impact] ].

(** A rendering of timestamps and a schedule in which no other coroutine
    runs while one sleeps, for the closed examples. *)
Definition sample_isoformat (t : Z) : string :=
  if t <? 0 then "1969-12-31T23:59:59" else "1970-01-01T00:00:00".

Definition undisturbed (seconds : Q) (w : World) : World := w.

(** The three requests of the planner's fan-out as they arrive. *)
Definition forecast_request : AgentMessage :=
  {| id := "q-1"; from_agent := "planner"; to_agent := "weather";
     type := REQUEST;
     payload := {[ "action" := VStr "get_forecast";
                   "origin" := VStr "PTY"; "destination" := VStr "BOG";
                   "time_range" := VStr "next_24_hours" ]};
     timestamp := 0; correlation_id := VStr "6f1c0d1e" |}.

Definition fuel_request : AgentMessage :=
  {| id := "q-2"; from_agent := "planner"; to_agent := "fuel";
     type := REQUEST;
     payload := {[ "action" := VStr "get_fuel_analysis";
                   "origin" := VStr "PTY"; "destination" := VStr "BOG" ]};
     timestamp := 0; correlation_id := VStr "6f1c0d1e" |}.

Definition network_request : AgentMessage :=
  {| id := "q-3"; from_agent := "planner"; to_agent := "network";
     type := REQUEST;
     payload := {[ "action" := VStr "check_constraints";
                   "route" := VStr "PTY-BOG" ]};
     timestamp := 0; correlation_id := VStr "6f1c0d1e" |}.

(** A constraints request that does not say for which route. *)
Definition routeless_request : AgentMessage :=
  {| id := "q-4"; from_agent := "planner"; to_agent := "network";
     type := REQUEST;
     payload := {[ "action" := VStr "check_constraints" ]};
     timestamp := 0; correlation_id := VNone |}.

(** The consolidated request as the planner sends it once the three data
    agents have answered, cut down to what the optimizer reads. *)
Definition optimize_request : AgentMessage :=
  {| id := "q-5"; from_agent := "planner"; to_agent := "optimizer";
     type := REQUEST;
     payload :=
       {[ "action" := VStr "optimize_route";
          "weather_data" :=
            VDict {[ "route_weather" :=
                       VDict {[ "confidence" := VFloat (85 # 100) ]} ]};
          "fuel_data" := VDict {[ "tankering_savings" := VInt 450 ]};
          "network_data" :=
            VDict {[ "network_impact" := VStr "minimal" ]} ]};
     timestamp := 0; correlation_id := VStr "6f1c0d1e" |}.

(** An optimization request that carries no data. *)
Definition dataless_request : AgentMessage :=
  {| id := "q-6"; from_agent := "planner"; to_agent := "optimizer";
     type := REQUEST;
     payload := {[ "action" := VStr "optimize_route" ]};
     timestamp := 0; correlation_id := VStr "6f1c0d1e" |}.

(** The context that every agent of the scenario is bound to. *)
Definition scenario_loc : loc :=
  default 0%nat (active_goals scenario_world !! "6f1c0d1e").

Definition scenario_context : AgentContext :=
  {| session_id := "6f1c0d1e"; goal := "test goal"; data := ∅ |}.

(** The store of the demonstration after one message was routed. *)
Definition logged_world : World :=
  (MessageBus_send sample_message demo_world).1.

(** * Properties *)

(** ** Evaluating the primitives *)

Lemma bind_ok {A B} (c : M A) (k : A -> M B) (w w' : World) (a : A) :
  c w = (w', Ok a) -> bind c k w = k a w'.
Proof. intros H. unfold bind. rewrite H. reflexivity. Qed.

Lemma bind_raise {A B} (c : M A) (k : A -> M B) (w w' : World)
    (e : Exception) :
  c w = (w', Raise e) -> bind c k w = (w', Raise e).
Proof. intros H. unfold bind. rewrite H. reflexivity. Qed.

Lemma ret_ok {A} (x : A) (w : World) : ret x w = (w, Ok x).
Proof. reflexivity. Qed.

Lemma print_ok (line : list fragment) (w : World) :
  print line w = (set_stdout (fun out => out ++ [line]) w, Ok tt).
Proof. reflexivity. Qed.

Lemma datetime_now_ok (w : World) :
  datetime_now w = (set_clock_cursor (S (clock_cursor w)) w,
                    Ok (clock_source w (clock_cursor w))).
Proof. reflexivity. Qed.

Lemma self_get_ok {A} (self : string) (f : BaseAgent -> A) (w : World)
    (a : BaseAgent) :
  agents w !! self = Some a -> self_get self f w = (w, Ok (f a)).
Proof. intros H. unfold self_get. rewrite H. reflexivity. Qed.

Lemma self_set_ok (self : string) (f : BaseAgent -> BaseAgent) (w : World)
    (a : BaseAgent) :
  agents w !! self = Some a ->
  self_set self f w = (set_agents (<[self := f a]>) w, Ok tt).
Proof. intros H. unfold self_set. rewrite H. reflexivity. Qed.

Lemma set_agents_twice (self : string) (x y : BaseAgent) (w : World) :
  set_agents (<[self := x]>) (set_agents (<[self := y]>) w)
  = set_agents (<[self := x]>) w.
Proof. unfold set_agents; simpl. rewrite insert_insert_eq. reflexivity. Qed.

Lemma agents_set_agents_self (self : string) (x : BaseAgent) (w : World) :
  agents (set_agents (<[self := x]>) w) !! self = Some x.
Proof. simpl. apply lookup_insert_eq. Qed.

Lemma context_set_ok (l : loc) (key : string) (value : pyval) (w : World)
    (c : AgentContext) :
  heap w !! l = Some c ->
  context_set l key value w
    = (set_heap (<[l := AgentContext_set key value c]>) w, Ok tt).
Proof. intros H. unfold context_set. rewrite H. reflexivity. Qed.

Lemma context_get_ok (l : loc) (key : string) (d : pyval) (w : World)
    (c : AgentContext) :
  heap w !! l = Some c ->
  context_get l key d w = (w, Ok (AgentContext_get key d c)).
Proof. intros H. unfold context_get. rewrite H. reflexivity. Qed.

Lemma context_get_some (l : loc) (key : string) (d v : pyval) (w : World)
    (c : AgentContext) :
  heap w !! l = Some c -> data c !! key = Some v ->
  context_get l key d w = (w, Ok v).
Proof.
  intros H Hk. rewrite (context_get_ok _ _ _ _ _ H).
  unfold AgentContext_get. rewrite Hk. reflexivity.
Qed.

Lemma context_field_ok {A} (l : loc) (f : AgentContext -> A) (w : World)
    (c : AgentContext) :
  heap w !! l = Some c -> context_field l f w = (w, Ok (f c)).
Proof. intros H. unfold context_field. rewrite H. reflexivity. Qed.

Lemma AgentContext_get_set_ne (key key' : string) (d v : pyval)
    (c : AgentContext) :
  key' ≠ key ->
  AgentContext_get key d (AgentContext_set key' v c)
  = AgentContext_get key d c.
Proof.
  intros Hne. unfold AgentContext_get, AgentContext_set; simpl.
  rewrite lookup_insert_ne by exact Hne. reflexivity.
Qed.

(** ** Session context *)

(** C10. [AgentContext.set] and [AgentContext.update] change the [data]
    mapping only: the context keeps its [session_id] and its [goal], and
    so does every context object of the store when the call goes through
    a reference. *)
Theorem context_writes_keep_identity (c : AgentContext) (key : string)
    (value : pyval) (updates : gmap string pyval) (w : World) (l l' : loc) :
  session_id (AgentContext_set key value c) = session_id c ∧
  goal (AgentContext_set key value c) = goal c ∧
  session_id (AgentContext_update updates c) = session_id c ∧
  goal (AgentContext_update updates c) = goal c ∧
  session_id <$> heap (context_set l key value w).1 !! l'
    = session_id <$> heap w !! l' ∧
  goal <$> heap (context_set l key value w).1 !! l'
    = goal <$> heap w !! l' ∧
  session_id <$> heap (context_update l updates w).1 !! l'
    = session_id <$> heap w !! l' ∧
  goal <$> heap (context_update l updates w).1 !! l'
    = goal <$> heap w !! l'.
Proof.
  repeat split; try reflexivity;
    unfold context_set, context_update;
    destruct (heap w !! l) as [c0|] eqn:Hl; simpl; try reflexivity;
    (destruct (decide (l = l')) as [->|Hne];
     [ rewrite lookup_insert_eq, Hl; reflexivity
     | rewrite lookup_insert_ne by exact Hne; reflexivity ]).
Qed.

(** ** Statistics *)

(** C3, as the code has it. An agent that has completed and failed no task
    and has spent no time reports an average time of 0 and a success rate
    of 0: the numerator is 0 and the floor only keeps the divisor at 1. *)
Theorem get_stats_zero_tasks (a : BaseAgent) :
  tasks_completed a = 0 ->
  tasks_failed a = 0 ->
  (total_time a == 0)%Q ->
  exists avg rate : Q,
    get_stats a !! "avg_time_per_task" = Some (VFloat avg) ∧
    get_stats a !! "success_rate" = Some (VFloat rate) ∧
    (avg == 0)%Q ∧ (rate == 0)%Q.
Proof.
  intros Hc Hf Ht.
  exists (total_time a / inject_Z (Z.max (tasks_completed a) 1))%Q,
         (inject_Z (tasks_completed a) /
          inject_Z (Z.max (tasks_completed a + tasks_failed a) 1))%Q.
  split; [reflexivity|]. split; [reflexivity|].
  rewrite Hc, Hf, Ht. split; reflexivity.
Qed.

Lemma get_stats_zero_tasks_witness :
  exists avg rate : Q,
    get_stats PlannerAgent_init !! "avg_time_per_task" = Some (VFloat avg) ∧
    get_stats PlannerAgent_init !! "success_rate" = Some (VFloat rate) ∧
    (avg == 0)%Q ∧ (rate == 0)%Q.
Proof.
  apply (get_stats_zero_tasks PlannerAgent_init); reflexivity.
Defined.

(** C3, as stated, fails on a freshly constructed agent: its success rate
    is not 1. *)
Lemma get_stats_zero_tasks_rate_not_one :
  tasks_completed PlannerAgent_init = 0 ∧
  tasks_failed PlannerAgent_init = 0 ∧
  (total_time PlannerAgent_init == 0)%Q ∧
  ¬ (exists rate : Q,
       get_stats PlannerAgent_init !! "success_rate" = Some (VFloat rate) ∧
       (rate == 1)%Q).
Proof.
  repeat split. intros (rate & Hr & H1).
  assert (Hv : get_stats PlannerAgent_init !! "success_rate"
               = Some (VFloat (0 / 1)%Q)) by reflexivity.
  rewrite Hv in Hr. injection Hr as <-. discriminate H1.
Qed.

(** ** Orchestrator: unknown sessions *)

(** C4, as the code has it. For a session identifier that is not in the
    session table, [start_optimization] raises [ValueError] to its caller
    and [get_progress] returns the record [{"error": "Unknown session"}];
    neither changes the store, and no message is sent. *)
Theorem unknown_session_reported (session_id_ : string) (w : World) :
  active_goals w !! session_id_ = None ->
  start_optimization session_id_ w
    = (w, Raise (ValueError ("Unknown session: " +:+ session_id_))) ∧
  get_progress session_id_ w
    = (w, Ok {[ "error" := VStr "Unknown session" ]}).
Proof.
  intros Hn. unfold start_optimization, get_progress, bind, gets; simpl.
  rewrite Hn. split; reflexivity.
Qed.

Lemma unknown_session_reported_witness :
  start_optimization "nonexistent-id" sample_world
    = (sample_world,
       Raise (ValueError ("Unknown session: " +:+ "nonexistent-id"))) ∧
  get_progress "nonexistent-id" sample_world
    = (sample_world, Ok {[ "error" := VStr "Unknown session" ]}).
Proof.
  apply (unknown_session_reported "nonexistent-id" sample_world).
  reflexivity.
Defined.

(** C4, as stated, fails: on an unknown session [start_optimization] does
    not return a value, it raises. *)
Lemma start_optimization_unknown_raises :
  active_goals sample_world !! "nonexistent-id" = None ∧
  ¬ (exists (w' : World) (v : unit),
       start_optimization "nonexistent-id" sample_world = (w', Ok v)).
Proof.
  split; [reflexivity|]. intros (w' & v & H). discriminate H.
Qed.

(** ** Message bus *)

(** C5. A broadcast is logged and appended once to the inbox of every
    registered agent whose identifier differs from the sender's; the
    sender's own entry, and the set of registered identifiers, stay as
    they were. *)
Theorem broadcast_reaches_all_but_sender (message : AgentMessage)
    (w : World) :
  to_agent message = "broadcast" ->
  exists w',
    MessageBus_send message w = (w', Ok tt) ∧
    message_log w' = message_log w ++ [message] ∧
    (forall B b, agents w !! B = Some b -> B ≠ from_agent message ->
       agents w' !! B = Some (receive_message message b) ∧
       message_queue (receive_message message b)
         = message_queue b ++ [message]) ∧
    (forall b, agents w !! from_agent message = Some b ->
       agents w' !! from_agent message = Some b) ∧
    (forall B, agents w !! B = None -> agents w' !! B = None).
Proof.
  intros Hb. unfold MessageBus_send, bind, modify; simpl.
  rewrite Hb; simpl. eexists; split; [reflexivity|]; simpl.
  split; [reflexivity|].
  split; [|split].
  - intros B b HB Hne. rewrite map_lookup_imap, HB; simpl.
    apply String.eqb_neq in Hne. rewrite Hne; simpl.
    split; reflexivity.
  - intros b HA. rewrite map_lookup_imap, HA; simpl.
    rewrite String.eqb_refl; reflexivity.
  - intros B HB. rewrite map_lookup_imap, HB; reflexivity.
Qed.

Lemma broadcast_reaches_all_but_sender_witness :
  exists w',
    MessageBus_send sample_broadcast demo_world = (w', Ok tt) ∧
    message_log w' = message_log demo_world ++ [sample_broadcast] ∧
    (forall B b, agents demo_world !! B = Some b ->
       B ≠ from_agent sample_broadcast ->
       agents w' !! B = Some (receive_message sample_broadcast b) ∧
       message_queue (receive_message sample_broadcast b)
         = message_queue b ++ [sample_broadcast]) ∧
    (forall b, agents demo_world !! from_agent sample_broadcast = Some b ->
       agents w' !! from_agent sample_broadcast = Some b) ∧
    (forall B, agents demo_world !! B = None -> agents w' !! B = None).
Proof.
  apply (broadcast_reaches_all_but_sender sample_broadcast demo_world).
  reflexivity.
Defined.

(** C6. A message for an identifier that is neither the broadcast
    sentinel nor registered is logged, reaches no inbox, and the call
    returns normally after printing the warning. *)
Theorem send_unknown_recipient_logged (message : AgentMessage)
    (w : World) :
  to_agent message ≠ "broadcast" ->
  agents w !! to_agent message = None ->
  exists w',
    MessageBus_send message w = (w', Ok tt) ∧
    agents w' = agents w ∧
    message_log w' = message_log w ++ [message] ∧
    stdout w' = stdout w ++ [[Lit "Warning: Agent ";
                              Lit (to_agent message); Lit " not found"]] ∧
    heap w' = heap w ∧ active_goals w' = active_goals w.
Proof.
  intros Hb Hn. unfold MessageBus_send, bind, modify, gets; simpl.
  apply String.eqb_neq in Hb. rewrite Hb; simpl. rewrite Hn.
  unfold print, modify. eexists. repeat split; reflexivity.
Qed.

Lemma send_unknown_recipient_logged_witness :
  exists w',
    MessageBus_send sample_message demo_world = (w', Ok tt) ∧
    agents w' = agents demo_world ∧
    message_log w' = message_log demo_world ++ [sample_message] ∧
    stdout w' = stdout demo_world ++
                [[Lit "Warning: Agent "; Lit (to_agent sample_message);
                  Lit " not found"]] ∧
    heap w' = heap demo_world ∧ active_goals w' = active_goals demo_world.
Proof.
  apply (send_unknown_recipient_logged sample_message demo_world).
  - discriminate.
  - vm_compute. reflexivity.
Defined.

(** C7 at [limit = 0]: [message_log[-0:]] is the whole log. With one
    message logged, the call returns that one entry where the claim
    expects [min 0 1 = 0] entries. *)
Theorem get_message_history_zero_returns_log (isoformat : Z -> string)
    (w : World) :
  get_message_history isoformat 0 w = to_dict isoformat <$> message_log w ∧
  message_log logged_world = [sample_message] ∧
  get_message_history isoformat 0 logged_world
    = [to_dict isoformat sample_message] ∧
  length (get_message_history isoformat 0 logged_world)
    ≠ Z.to_nat (Z.min 0 (Z.of_nat (length (message_log logged_world)))).
Proof.
  assert (Hall : forall w0, get_message_history isoformat 0 w0
                            = to_dict isoformat <$> message_log w0).
  { intros w0. unfold get_message_history, py_slice_from.
    change (- 0 <? 0) with false; cbv iota.
    replace (Z.min (- 0) (Z.of_nat (length (message_log w0)))) with 0
      by lia.
    reflexivity. }
  split; [apply Hall|]. split; [reflexivity|].
  rewrite Hall. split; [reflexivity | discriminate].
Qed.

(** For a positive [limit] the slice is what the claim says: the last
    [min limit (length log)] entries, oldest first. *)
Lemma get_message_history_recent (isoformat : Z -> string) (limit : Z)
    (w : World) :
  0 < limit ->
  get_message_history isoformat limit w
  = to_dict isoformat <$>
      drop (length (message_log w)
            - Z.to_nat (Z.min limit (Z.of_nat (length (message_log w)))))
        (message_log w) ∧
  length (get_message_history isoformat limit w)
  = Z.to_nat (Z.min limit (Z.of_nat (length (message_log w)))).
Proof.
  intros Hpos. unfold get_message_history, py_slice_from.
  assert (Hneg : (- limit <? 0) = true) by (apply Z.ltb_lt; lia).
  rewrite Hneg.
  assert (Hk : Z.to_nat (Z.max (- limit + Z.of_nat (length (message_log w))) 0)
               = (length (message_log w)
                  - Z.to_nat (Z.min limit
                                (Z.of_nat (length (message_log w)))))%nat)
    by lia.
  rewrite Hk. split; [reflexivity|].
  rewrite length_fmap, length_drop. lia.
Qed.

(** ** The processing loop *)

Section LoopProperties.
Variable vtable : AgentClass -> Handlers.

(** Up to the call of the handler, a turn dequeues the message, marks
    the agent as working and reads the clock. *)
Lemma loop_reaches_handler (self : string) (w : World) (a : BaseAgent)
    (message : AgentMessage) (rest : list AgentMessage)
    (k : Z -> M unit) :
  agents w !! self = Some a ->
  (let* _ := self_set self (set_message_queue rest) in
   let* _ := self_set self (set_status WORKING) in
   bind datetime_now k) w
  = k (clock_source w (clock_cursor w)) (at_dispatch self a rest w).
Proof.
  intros Ha.
  rewrite (bind_ok _ _ _ _ _ (self_set_ok _ _ _ _ Ha)).
  rewrite (bind_ok _ _ _ _ _
             (self_set_ok _ _ _ _ (agents_set_agents_self _ _ _))).
  rewrite set_agents_twice. reflexivity.
Qed.

(** The store after the [except] clause has run on [w1]. *)
Lemma on_exception_ok (self : string) (e : Exception) (w1 : World)
    (a1 : BaseAgent) :
  agents w1 !! self = Some a1 ->
  on_exception self e w1 = (after_exception self a1 e w1, Ok tt).
Proof.
  intros Ha1. unfold on_exception.
  rewrite (bind_ok _ _ _ _ _ (self_set_ok _ _ _ _ Ha1)).
  rewrite (bind_ok _ _ _ _ _
             (self_set_ok _ _ _ _ (agents_set_agents_self _ _ _))).
  rewrite set_agents_twice. unfold handle_error.
  rewrite (bind_ok _ _ _ _ _
             (self_get_ok _ _ _ _ (agents_set_agents_self _ _ _))).
  reflexivity.
Qed.

Lemma loop_iteration_raise (self : string) (w w1 : World)
    (a a1 : BaseAgent) (message : AgentMessage)
    (rest : list AgentMessage) (e : Exception) :
  agents w !! self = Some a ->
  message_queue a = message :: rest ->
  dispatch vtable self message (at_dispatch self a rest w)
    = (w1, Raise e) ->
  agents w1 !! self = Some a1 ->
  loop_iteration vtable self w
    = Some (after_exception self a1 e w1, Ok tt).
Proof.
  intros Ha Hq Hd Ha1. unfold loop_iteration. rewrite Ha, Hq.
  f_equal. unfold try_except, process_one.
  rewrite (loop_reaches_handler self w a message rest _ Ha).
  rewrite (bind_raise _ _ _ _ _ Hd).
  apply on_exception_ok, Ha1.
Qed.

(** The [except] clause itself raises nothing. *)
Lemma on_exception_never_raises (self : string) (e e' : Exception)
    (w w' : World) :
  on_exception self e w ≠ (w', Raise e').
Proof.
  unfold on_exception, handle_error, bind, self_set, self_get, print, modify.
  destruct (agents w !! self) as [a|]; [|discriminate].
  simpl. rewrite lookup_insert_eq. simpl. rewrite lookup_insert_eq.
  discriminate.
Qed.

(** Whatever the handlers do, no turn lets an exception out. *)
Lemma loop_iteration_never_raises (self : string) (e : Exception)
    (w w' : World) :
  loop_iteration vtable self w ≠ Some (w', Raise e).
Proof.
  unfold loop_iteration.
  destruct (agents w !! self) as [a|]; [|discriminate].
  destruct (message_queue a) as [|message rest]; [discriminate|].
  unfold try_except.
  destruct (bind _ _ w) as [w1 [[]|e1|]]; try discriminate.
  intros H. injection H as H. exact (on_exception_never_raises _ _ _ _ _ H).
Qed.

Lemma process_messages_never_propagates (fuel : nat) (self : string)
    (e : Exception) (w w' : World) :
  process_messages vtable fuel self w ≠ (w', Propagated e).
Proof.
  revert w. induction fuel as [|fuel IH]; intros w; [discriminate|].
  simpl. destruct (loop_iteration vtable self w) as [[w1 [[]|e1|]]|] eqn:E;
    try discriminate.
  - apply IH.
  - exfalso. exact (loop_iteration_never_raises _ _ _ _ E).
Qed.

(** C2. When the handler of the dequeued message raises, the turn ends
    normally: the agent is in status [ERROR], its [tasks_failed] is one
    more than when the exception reached the loop, the error hook has
    printed its line, nothing else of the store has changed, and the
    loop goes on with the messages that are still queued; however long
    the loop runs, it never ends by an exception. *)
Theorem handler_exception_is_contained (self : string) (w w1 : World)
    (a a1 : BaseAgent) (message : AgentMessage)
    (rest : list AgentMessage) (e : Exception) (fuel : nat) :
  agents w !! self = Some a ->
  message_queue a = message :: rest ->
  dispatch vtable self message (at_dispatch self a rest w)
    = (w1, Raise e) ->
  agents w1 !! self = Some a1 ->
  exists (w2 : World) (a2 : BaseAgent),
    loop_iteration vtable self w = Some (w2, Ok tt) ∧
    agents w2 !! self = Some a2 ∧
    status a2 = ERROR ∧
    tasks_failed a2 = tasks_failed a1 + 1 ∧
    message_queue a2 = message_queue a1 ∧
    stdout w2 = stdout w1 ++
                [[Lit "["; Lit (agent_id a1); Lit "] ERROR: "; FmtExn e]] ∧
    (forall B, B ≠ self -> agents w2 !! B = agents w1 !! B) ∧
    message_log w2 = message_log w1 ∧
    process_messages vtable (S fuel) self w
      = process_messages vtable fuel self w2 ∧
    (forall w' e', process_messages vtable (S fuel) self w
                   ≠ (w', Propagated e')).
Proof.
  intros Ha Hq Hd Ha1.
  pose proof (loop_iteration_raise self w w1 a a1 message rest e
                Ha Hq Hd Ha1) as Hit.
  exists (after_exception self a1 e w1),
         (set_tasks_failed (tasks_failed a1 + 1) (set_status ERROR a1)).
  split; [exact Hit|].
  split; [apply lookup_insert_eq|].
  do 4 (split; [reflexivity|]).
  split; [intros B HB; simpl; apply lookup_insert_ne; congruence|].
  split; [reflexivity|].
  split; [simpl; rewrite Hit; reflexivity|].
  intros w' e'. apply process_messages_never_propagates.
Qed.

(** C9. The turn in which the handler raises writes two fields of the
    agent, [status] and [tasks_failed]; [tasks_completed] and
    [total_time], which the handler found and left as they were before
    the turn, keep their values, and with them the average time that
    [get_stats] reports. *)
Theorem failed_turn_keeps_completed_and_time (self : string)
    (w w1 : World) (a a1 : BaseAgent) (message : AgentMessage)
    (rest : list AgentMessage) (e : Exception) :
  agents w !! self = Some a ->
  message_queue a = message :: rest ->
  dispatch vtable self message (at_dispatch self a rest w)
    = (w1, Raise e) ->
  agents w1 !! self = Some a1 ->
  tasks_completed a1 = tasks_completed a ->
  total_time a1 = total_time a ->
  exists (w2 : World) (a2 : BaseAgent),
    loop_iteration vtable self w = Some (w2, Ok tt) ∧
    agents w2 !! self = Some a2 ∧
    a2 = set_tasks_failed (tasks_failed a1 + 1) (set_status ERROR a1) ∧
    tasks_completed a2 = tasks_completed a ∧
    total_time a2 = total_time a ∧
    get_stats a2 !! "avg_time_per_task"
      = get_stats a !! "avg_time_per_task".
Proof.
  intros Ha Hq Hd Ha1 Hc Ht.
  exists (after_exception self a1 e w1),
         (set_tasks_failed (tasks_failed a1 + 1) (set_status ERROR a1)).
  split; [exact (loop_iteration_raise self w w1 a a1 message rest e
                   Ha Hq Hd Ha1)|].
  split; [apply lookup_insert_eq|].
  split; [reflexivity|]. split; [exact Hc|]. split; [exact Ht|].
  change (Some (VFloat (total_time a1 /
                        inject_Z (Z.max (tasks_completed a1) 1))%Q)
          = Some (VFloat (total_time a /
                          inject_Z (Z.max (tasks_completed a) 1))%Q)).
  rewrite Hc, Ht. reflexivity.
Qed.
End LoopProperties.

Lemma handler_exception_is_contained_witness :
  exists (w2 : World) (a2 : BaseAgent),
    loop_iteration planner_vtable "planner" faulty_world
      = Some (w2, Ok tt) ∧
    agents w2 !! "planner" = Some a2 ∧
    status a2 = ERROR ∧ tasks_failed a2 = 1 ∧
    process_messages planner_vtable 1 "planner" faulty_world
      = process_messages planner_vtable 0 "planner" w2.
Proof.
  destruct (handler_exception_is_contained planner_vtable "planner"
              faulty_world
              (dispatch planner_vtable "planner" faulty_command
                 (at_dispatch "planner"
                    (receive_message faulty_command
                       (set_message_bus true PlannerAgent_init))
                    [] faulty_world)).1
              (receive_message faulty_command
                 (set_message_bus true PlannerAgent_init))
              (set_status WORKING (set_message_bus true PlannerAgent_init))
              faulty_command [] (KeyError "goal") 0%nat)
    as (w2 & a2 & E & Ha2 & Hs & Hf & _ & _ & _ & _ & Hp & _).
  - vm_compute; reflexivity.
  - reflexivity.
  - vm_compute; reflexivity.
  - vm_compute; reflexivity.
  - exists w2, a2. repeat split; assumption.
Defined.

Lemma failed_turn_keeps_completed_and_time_witness :
  exists (w2 : World) (a2 : BaseAgent),
    loop_iteration planner_vtable "planner" faulty_world
      = Some (w2, Ok tt) ∧
    agents w2 !! "planner" = Some a2 ∧
    tasks_completed a2 = 0 ∧ total_time a2 = 0%Q.
Proof.
  destruct (failed_turn_keeps_completed_and_time planner_vtable "planner"
              faulty_world
              (dispatch planner_vtable "planner" faulty_command
                 (at_dispatch "planner"
                    (receive_message faulty_command
                       (set_message_bus true PlannerAgent_init))
                    [] faulty_world)).1
              (receive_message faulty_command
                 (set_message_bus true PlannerAgent_init))
              (set_status WORKING (set_message_bus true PlannerAgent_init))
              faulty_command [] (KeyError "goal"))
    as (w2 & a2 & E & Ha2 & _ & Hc & Ht & _).
  - vm_compute; reflexivity.
  - reflexivity.
  - vm_compute; reflexivity.
  - vm_compute; reflexivity.
  - reflexivity.
  - reflexivity.
  - exists w2, a2. repeat split; assumption.
Defined.

(** ** Sending: what a unicast leaves alone *)

Lemma same_but_queue_refl (b : BaseAgent) : same_but_queue b b.
Proof. destruct b; reflexivity. Qed.

Lemma same_but_queue_trans (b1 b2 b3 : BaseAgent) :
  same_but_queue b1 b2 -> same_but_queue b2 b3 -> same_but_queue b1 b3.
Proof.
  unfold same_but_queue. intros H12 H23. rewrite H23, H12. reflexivity.
Qed.

Lemma same_but_queue_receive (m : AgentMessage) (b : BaseAgent) :
  same_but_queue b (receive_message m b).
Proof. reflexivity. Qed.

Lemma delivery_only_same_agents (w w' : World) :
  heap w' = heap w -> active_goals w' = active_goals w ->
  agents w' = agents w -> delivery_only w w'.
Proof.
  intros Hh Hg Ha. split; [exact Hh|]. split; [exact Hg|]. rewrite Ha.
  split; [|auto].
  intros B b HB. exists b. split; [exact HB | apply same_but_queue_refl].
Qed.

Lemma delivery_only_refl (w : World) : delivery_only w w.
Proof. apply delivery_only_same_agents; reflexivity. Qed.

Lemma delivery_only_trans (w1 w2 w3 : World) :
  delivery_only w1 w2 -> delivery_only w2 w3 -> delivery_only w1 w3.
Proof.
  intros (Hh1 & Hg1 & Ha1 & Hn1) (Hh2 & Hg2 & Ha2 & Hn2).
  split; [congruence|]. split; [congruence|]. split.
  - intros B b HB. destruct (Ha1 B b HB) as (b2 & HB2 & Hs2).
    destruct (Ha2 B b2 HB2) as (b3 & HB3 & Hs3).
    exists b3. split; [exact HB3|].
    eapply same_but_queue_trans; eassumption.
  - intros B HB. auto.
Qed.

Lemma delivery_only_agent (w w' : World) (self : string) (a : BaseAgent) :
  delivery_only w w' ->
  agents w !! self = Some a ->
  exists a', agents w' !! self = Some a' ∧
             context a' = context a ∧ message_bus a' = message_bus a ∧
             agent_id a' = agent_id a ∧ cls a' = cls a.
Proof.
  intros (_ & _ & Ha & _) Hs. destruct (Ha self a Hs) as (a' & Hs' & Hq).
  exists a'. split; [exact Hs'|]. rewrite Hq. repeat split.
Qed.

Lemma MessageBus_send_unicast (message : AgentMessage) (w : World) :
  to_agent message ≠ "broadcast" ->
  exists w',
    MessageBus_send message w = (w', Ok tt) ∧
    message_log w' = message_log w ++ [message] ∧
    uuid_cursor w' = uuid_cursor w ∧ uuid_source w' = uuid_source w ∧
    clock_cursor w' = clock_cursor w ∧ clock_source w' = clock_source w ∧
    agents w' !! to_agent message
      = receive_message message <$> agents w !! to_agent message ∧
    (forall B, B ≠ to_agent message -> agents w' !! B = agents w !! B) ∧
    delivery_only w w'.
Proof.
  intros Hb. unfold MessageBus_send, bind, modify, gets; simpl.
  apply String.eqb_neq in Hb. rewrite Hb; simpl.
  destruct (agents w !! to_agent message) as [r|] eqn:Hr.
  - eexists. split; [reflexivity|]. simpl.
    do 5 (split; [reflexivity|]).
    split; [apply lookup_insert_eq|].
    split; [intros B HB; simpl; apply lookup_insert_ne; congruence|].
    split; [reflexivity|]. split; [reflexivity|]. split.
    + intros B b HB. destruct (decide (B = to_agent message)) as [->|Hne].
      * exists (receive_message message r).
        split; [apply lookup_insert_eq|].
        rewrite Hr in HB. injection HB as <-.
        apply same_but_queue_receive.
      * exists b. split; [|apply same_but_queue_refl]. simpl.
        rewrite lookup_insert_ne by congruence. exact HB.
    + intros B HB. simpl. rewrite lookup_insert_ne; [exact HB|congruence].
  - unfold print, modify. eexists. split; [reflexivity|]. simpl.
    do 5 (split; [reflexivity|]).
    split; [rewrite Hr; reflexivity|].
    split; [intros B HB; reflexivity|].
    apply delivery_only_same_agents; reflexivity.
Qed.

Lemma send_message_ok (self recipient : string) (t : MessageType)
    (p : gmap string pyval) (corr : pyval) (w : World) (a : BaseAgent) :
  agents w !! self = Some a ->
  message_bus a = true ->
  recipient ≠ "broadcast" ->
  exists w' m,
    send_message self recipient t p corr w = (w', Ok tt) ∧
    message_log w' = message_log w ++ [m] ∧
    envelope m (agent_id a) recipient t p corr ∧
    agents w' !! recipient = receive_message m <$> agents w !! recipient ∧
    (forall B, B ≠ recipient -> agents w' !! B = agents w !! B) ∧
    delivery_only w w'.
Proof.
  intros Ha Hbus Hr. unfold send_message.
  rewrite (bind_ok _ _ _ _ _ (self_get_ok _ _ _ _ Ha)). rewrite Hbus; simpl.
  rewrite (bind_ok _ _ _ _ _ (self_get_ok _ _ _ _ Ha)).
  unfold AgentMessage_new, bind at 1 2 3; simpl.
  set (m := {| id := _ |}). set (w0 := set_clock_cursor _ _).
  destruct (MessageBus_send_unicast m w0 Hr)
    as (w' & Hs & Hlog & _ & _ & _ & _ & Hto & Hoth & Hd).
  exists w', m. split; [exact Hs|]. split; [exact Hlog|].
  split; [repeat split|]. split; [exact Hto|]. split; [exact Hoth|].
  exact Hd.
Qed.

(** ** The planner's fan-out *)

Lemma decompose_and_delegate_ok (self : string)
    (payload_ : gmap string pyval) (goal_ sid : pyval) (w : World)
    (a : BaseAgent) :
  payload_ !! "goal" = Some goal_ ->
  payload_ !! "session_id" = Some sid ->
  agents w !! self = Some a ->
  message_bus a = true ->
  (forall l, context a = Some l -> is_Some (heap w !! l)) ->
  exists w' a' r1 r2 r3,
    decompose_and_delegate self payload_ w = (w', Ok tt) ∧
    message_log w' = message_log w ++ [r1; r2; r3] ∧
    fan_out (agent_id a) sid r1 r2 r3 ∧
    agents w' !! self = Some a' ∧ same_but_queue a a'.
Proof.
  intros Hg Hs Ha Hbus Hctx. unfold decompose_and_delegate, dict_getitem.
  rewrite Hg, Hs.
  rewrite (bind_ok _ _ _ _ _ eq_refl), (bind_ok _ _ _ _ _ eq_refl).
  rewrite (bind_ok _ _ _ _ _ (print_ok _ _)).
  rewrite (bind_ok _ _ _ _ _ (print_ok _ _)).
  set (w0 := set_stdout _ (set_stdout _ w)).
  assert (Ha0 : agents w0 !! self = Some a) by exact Ha.
  destruct (send_message_ok self "weather" REQUEST
              {[ "action" := VStr "get_forecast"; "origin" := VStr "PTY";
                 "destination" := VStr "BOG";
                 "time_range" := VStr "next_24_hours" ]} sid w0 a Ha0 Hbus)
    as (w1 & r1 & E1 & L1 & V1 & _ & _ & D1); [discriminate|].
  rewrite (bind_ok _ _ _ _ _ E1).
  destruct (D1) as (_ & _ & Hag1 & _).
  destruct (Hag1 self a Ha0) as (a1 & Ha1 & Q1).
  assert (Hbus1 : message_bus a1 = true) by (rewrite Q1; exact Hbus).
  destruct (send_message_ok self "fuel" REQUEST
              {[ "action" := VStr "get_fuel_analysis";
                 "origin" := VStr "PTY"; "destination" := VStr "BOG" ]}
              sid w1 a1 Ha1 Hbus1)
    as (w2 & r2 & E2 & L2 & V2 & _ & _ & D2); [discriminate|].
  rewrite (bind_ok _ _ _ _ _ E2).
  destruct (D2) as (_ & _ & Hag2 & _).
  destruct (Hag2 self a1 Ha1) as (a2 & Ha2 & Q2).
  assert (Hbus2 : message_bus a2 = true) by (rewrite Q2; exact Hbus1).
  destruct (send_message_ok self "network" REQUEST
              {[ "action" := VStr "check_constraints";
                 "route" := VStr "PTY-BOG" ]} sid w2 a2 Ha2 Hbus2)
    as (w3 & r3 & E3 & L3 & V3 & _ & _ & D3); [discriminate|].
  rewrite (bind_ok _ _ _ _ _ E3).
  destruct (D3) as (_ & _ & Hag3 & _).
  destruct (Hag3 self a2 Ha2) as (a3 & Ha3 & Q3).
  assert (Q : same_but_queue a a3)
    by (eapply same_but_queue_trans; [|exact Q3];
        eapply same_but_queue_trans; eassumption).
  assert (Hlog : message_log w3 = message_log w ++ [r1; r2; r3]).
  { rewrite L3, L2, L1. change (message_log w0) with (message_log w).
    rewrite <- !app_assoc. reflexivity. }
  assert (Hfan : fan_out (agent_id a) sid r1 r2 r3).
  { assert (I1 : agent_id a1 = agent_id a) by (rewrite Q1; reflexivity).
    assert (I2 : agent_id a2 = agent_id a)
      by (rewrite Q2; simpl; exact I1).
    rewrite I1 in V2. rewrite I2 in V3. repeat split; first
      [ apply V1 | apply V2 | apply V3 ]. }
  rewrite (bind_ok _ _ _ _ _ (self_get_ok _ _ _ _ Ha3)).
  assert (Hc3 : context a3 = context a) by (rewrite Q; reflexivity).
  rewrite Hc3.
  destruct (context a) as [l|] eqn:Hl.
  - destruct (Hctx l eq_refl) as [c Hc].
    assert (Hh3 : heap w3 !! l = Some c).
    { destruct D1 as (H1 & _), D2 as (H2 & _), D3 as (H3 & _).
      rewrite H3, H2, H1. exact Hc. }
    rewrite (bind_ok _ _ _ _ _ (context_set_ok _ _ _ _ _ Hh3)).
    erewrite context_set_ok by (simpl; apply lookup_insert_eq).
    exists (set_heap
              (<[l := AgentContext_set "pending_responses"
                        (VList [VStr "weather"; VStr "fuel"; VStr "network"])
                        (AgentContext_set "planning_status"
                           (VStr "waiting_for_data") c)]>)
              (set_heap
                 (<[l := AgentContext_set "planning_status"
                           (VStr "waiting_for_data") c]>) w3)),
           a3, r1, r2, r3.
    repeat split; try assumption; apply Hfan.
  - exists w3, a3, r1, r2, r3.
    repeat split; try assumption; apply Hfan.
Qed.

Lemma PlannerAgent_handle_command_start (self : string)
    (message : AgentMessage) (w : World) :
  payload message !! "action" = Some (VStr "start_optimization") ->
  PlannerAgent_handle_command self message w
    = decompose_and_delegate self (payload message) w.
Proof.
  intros H. unfold PlannerAgent_handle_command. rewrite H. reflexivity.
Qed.

Section FanOut.
Variable vtable : AgentClass -> Handlers.
Hypothesis planner_methods : vtable PlannerAgent = PlannerAgent_methods.

(** A turn whose handler returns normally counts the task and goes
    back to idle; it logs nothing of its own. *)
Lemma loop_iteration_ok (self : string) (w w1 : World)
    (a a1 : BaseAgent) (message : AgentMessage)
    (rest : list AgentMessage) :
  agents w !! self = Some a ->
  message_queue a = message :: rest ->
  dispatch vtable self message (at_dispatch self a rest w)
    = (w1, Ok tt) ->
  agents w1 !! self = Some a1 ->
  exists w2 a2,
    loop_iteration vtable self w = Some (w2, Ok tt) ∧
    message_log w2 = message_log w1 ∧
    agents w2 !! self = Some a2 ∧
    status a2 = IDLE ∧
    tasks_completed a2 = tasks_completed a1 + 1 ∧
    tasks_failed a2 = tasks_failed a1.
Proof.
  intros Ha Hq Hd Ha1. unfold loop_iteration. rewrite Ha, Hq.
  unfold try_except, process_one.
  rewrite (loop_reaches_handler self w a message rest _ Ha).
  rewrite (bind_ok _ _ _ _ _ Hd).
  rewrite (bind_ok _ _ _ _ _ (datetime_now_ok w1)).
  assert (Ha1' : agents (set_clock_cursor (S (clock_cursor w1)) w1)
                   !! self = Some a1) by exact Ha1.
  rewrite (bind_ok _ _ _ _ _ (self_set_ok _ _ _ _ Ha1')).
  rewrite (bind_ok _ _ _ _ _
             (self_set_ok _ _ _ _ (agents_set_agents_self _ _ _))).
  rewrite (self_set_ok _ _ _ _ (agents_set_agents_self _ _ _)).
  eexists _, _. split; [reflexivity|]. split; [reflexivity|].
  split; [apply agents_set_agents_self|]. repeat split.
Qed.

(** C8, as the code has it. For a session [sid] of the table,
    [start_optimization] sends exactly one message, the command for
    "planner" with payload
    [{action: "start_optimization", session_id: sid, goal}], which lands
    in the planner's inbox; the planner's turn on that command then logs
    three requests, for "weather", "fuel" and "network" in this order,
    each with [correlation_id = sid]. *)
Theorem start_optimization_starts_fan_out (sid : string) (w : World)
    (l : loc) (c : AgentContext) (p : BaseAgent) :
  active_goals w !! sid = Some l ->
  heap w !! l = Some c ->
  agents w !! "planner" = Some p ->
  cls p = PlannerAgent ->
  message_bus p = true ->
  message_queue p = [] ->
  (forall l', context p = Some l' -> is_Some (heap w !! l')) ->
  exists w1 cmd w2 r1 r2 r3,
    start_optimization sid w = (w1, Ok tt) ∧
    sent_once cmd w w1 ∧
    envelope cmd "orchestrator" "planner" COMMAND
      {[ "action" := VStr "start_optimization";
         "session_id" := VStr sid;
         "goal" := VStr (goal c) ]} VNone ∧
    agents w1 !! "planner" = Some (receive_message cmd p) ∧
    loop_iteration vtable "planner" w1 = Some (w2, Ok tt) ∧
    message_log w2 = message_log w1 ++ [r1; r2; r3] ∧
    to_agent <$> [r1; r2; r3] = ["weather"; "fuel"; "network"] ∧
    Forall (fun r => type r = REQUEST ∧ from_agent r = agent_id p ∧
                     correlation_id r = VStr sid) [r1; r2; r3] ∧
    fan_out (agent_id p) (VStr sid) r1 r2 r3.
Proof.
  intros Hg Hc Hp Hcls Hbus Hq Hctx.
  unfold start_optimization.
  rewrite (bind_ok _ _ _ _ _ eq_refl). rewrite Hg.
  rewrite (bind_ok _ _ _ _ _ (context_field_ok _ _ _ _ Hc)).
  unfold AgentMessage_new, bind at 1 2 3; simpl.
  set (cmd := {| id := _ |}). set (w0 := set_clock_cursor _ _).
  destruct (MessageBus_send_unicast cmd w0)
    as (w1 & E1 & L1 & _ & _ & _ & _ & T1 & O1 & D1); [discriminate|].
  assert (Hsent : sent_once cmd w w1)
    by (split; [exact L1 | split; assumption]).
  change (agents w0) with (agents w) in T1. simpl in T1.
  rewrite Hp in T1. simpl in T1.
  assert (Hq1 : message_queue (receive_message cmd p) = cmd :: [])
    by (simpl; rewrite Hq; reflexivity).
  set (p1 := set_status WORKING
               (set_message_queue [] (receive_message cmd p))).
  assert (Hp1 : agents (at_dispatch "planner" (receive_message cmd p)
                          [] w1) !! "planner" = Some p1)
    by apply lookup_insert_eq.
  assert (Hh1 : heap w1 = heap w) by (destruct D1 as (H & _); exact H).
  destruct (decompose_and_delegate_ok "planner" (payload cmd)
              (VStr (goal c)) (VStr sid) _ p1 eq_refl eq_refl Hp1 Hbus)
    as (w' & a' & r1 & r2 & r3 & E2 & L2 & F2 & Ha' & _).
  { intros l' Hl'. simpl. rewrite Hh1. apply Hctx, Hl'. }
  assert (Hd : dispatch vtable "planner" cmd
                 (at_dispatch "planner" (receive_message cmd p) [] w1)
               = (w', Ok tt)).
  { unfold dispatch.
    rewrite (bind_ok _ _ _ _ _ (self_get_ok _ _ _ _ Hp1)).
    change (cls p1) with (cls p). rewrite Hcls, planner_methods.
    change (type cmd) with COMMAND. cbv iota.
    change (handle_command PlannerAgent_methods)
      with PlannerAgent_handle_command.
    rewrite PlannerAgent_handle_command_start by reflexivity.
    exact E2. }
  destruct (loop_iteration_ok "planner" w1 w' _ a' cmd [] T1 Hq1 Hd Ha')
    as (w2 & a2 & E3 & L3 & _).
  exists w1, cmd, w2, r1, r2, r3.
  split; [exact E1|]. split; [exact Hsent|].
  split; [repeat split|]. split; [exact T1|]. split; [exact E3|].
  split; [rewrite L3, L2; reflexivity|].
  destruct F2 as ((F1a & F1b & F1c & F1d & F1e) &
                  (F2a & F2b & F2c & F2d & F2e) &
                  (F3a & F3b & F3c & F3d & F3e)).
  split; [simpl; rewrite F1b, F2b, F3b; reflexivity|].
  split; [repeat constructor; assumption|].
  repeat split; assumption.
Qed.
End FanOut.

Lemma start_optimization_starts_fan_out_witness :
  exists w1 cmd w2 r1 r2 r3,
    start_optimization "6f1c0d1e" scenario_world = (w1, Ok tt) ∧
    sent_once cmd scenario_world w1 ∧
    payload cmd = {[ "action" := VStr "start_optimization";
                     "session_id" := VStr "6f1c0d1e";
                     "goal" := VStr "test goal" ]} ∧
    loop_iteration planner_vtable "planner" w1 = Some (w2, Ok tt) ∧
    message_log w2 = message_log w1 ++ [r1; r2; r3] ∧
    to_agent <$> [r1; r2; r3] = ["weather"; "fuel"; "network"] ∧
    Forall (fun r => correlation_id r = VStr "6f1c0d1e") [r1; r2; r3].
Proof.
  destruct (start_optimization_starts_fan_out planner_vtable eq_refl
              "6f1c0d1e" scenario_world 0%nat
              {| session_id := "6f1c0d1e"; goal := "test goal"; data := ∅ |}
              (set_context (Some 0%nat)
                 (set_message_bus true PlannerAgent_init)))
    as (w1 & cmd & w2 & r1 & r2 & r3 & E1 & L1 & V & _ & E2 & L2 & T & F & _).
  - vm_compute; reflexivity.
  - vm_compute; reflexivity.
  - vm_compute; reflexivity.
  - reflexivity.
  - reflexivity.
  - reflexivity.
  - intros l' H. injection H as <-. exists
      {| session_id := "6f1c0d1e"; goal := "test goal"; data := ∅ |}.
    vm_compute; reflexivity.
  - exists w1, cmd, w2, r1, r2, r3.
    split; [exact E1|]. split; [exact L1|].
    split; [apply V|]. split; [exact E2|]. split; [exact L2|].
    split; [exact T|].
    eapply Forall_impl; [exact F|]. intros r (_ & _ & H). exact H.
Defined.

(** C8, as stated, fails: the command that [start_optimization] sends
    for the session of "test goal" does not carry [action = "start"]. *)
Lemma start_optimization_action_is_not_start :
  active_goals scenario_world !! "6f1c0d1e" = Some 0%nat ∧
  ¬ (exists w1 cmd,
       start_optimization "6f1c0d1e" scenario_world = (w1, Ok tt) ∧
       message_log w1 = message_log scenario_world ++ [cmd] ∧
       payload cmd = {[ "action" := VStr "start";
                        "session_id" := VStr "6f1c0d1e";
                        "goal" := VStr "test goal" ]}).
Proof.
  split; [vm_compute; reflexivity|].
  intros (w1 & cmd & E & L & P).
  assert (Hlog : exists w1' cmd',
             start_optimization "6f1c0d1e" scenario_world = (w1', Ok tt) ∧
             message_log w1' = [cmd'] ∧
             payload cmd' !! "action" = Some (VStr "start_optimization")).
  { eexists _, _. split; [vm_compute; reflexivity|].
    split; vm_compute; reflexivity. }
  destruct Hlog as (w1' & cmd' & E' & L' & P').
  rewrite E in E'. injection E' as <-.
  rewrite L in L'. change (message_log scenario_world) with
    (@nil AgentMessage) in L'. simpl in L'. injection L' as <-.
  rewrite P in P'. discriminate P'.
Qed.

(** ** Scatter/gather *)

Lemma existsb_py_eq_str (x : string) (P : list string) :
  existsb (fun v => py_eq_str v x) (VStr <$> P) = bool_decide (x ∈ P).
Proof.
  induction P as [|y P IH].
  - symmetry. apply bool_decide_eq_false_2, not_elem_of_nil.
  - change (existsb (fun v => py_eq_str v x) (VStr <$> y :: P))
      with (String.eqb y x || existsb (fun v => py_eq_str v x) (VStr <$> P)).
    rewrite IH. destruct (String.eqb_spec y x) as [->|Hne].
    + symmetry. apply bool_decide_eq_true_2. left.
    + apply bool_decide_ext. rewrite elem_of_cons.
      split; [intros Hx; right; exact Hx | intros [Hx|Hx]; congruence].
Qed.

Lemma filter_ext_in {A} (Q1 Q2 : A -> Prop)
    `{!∀ x, Decision (Q1 x)} `{!∀ x, Decision (Q2 x)} (P : list A) :
  (forall x, x ∈ P -> (Q1 x ↔ Q2 x)) -> filter Q1 P = filter Q2 P.
Proof.
  induction P as [|y P IH]; intros Hext; [reflexivity|].
  assert (Hy : Q1 y ↔ Q2 y) by (apply Hext; left).
  assert (HP : filter Q1 P = filter Q2 P)
    by (apply IH; intros x Hx; apply Hext; right; exact Hx).
  destruct (decide (Q1 y)) as [H1|H1].
  - rewrite !filter_cons_True by tauto. rewrite HP. reflexivity.
  - rewrite !filter_cons_False by tauto. exact HP.
Qed.

Lemma filter_all_id {A} (Q : A -> Prop) `{!∀ x, Decision (Q x)}
    (P : list A) :
  (forall x, x ∈ P -> Q x) -> filter Q P = P.
Proof.
  induction P as [|y P IH]; intros Hall; [reflexivity|].
  rewrite filter_cons_True by (apply Hall; left).
  rewrite IH; [reflexivity|]. intros x Hx. apply Hall. right. exact Hx.
Qed.

Lemma filter_nil_all {A} (Q : A -> Prop) `{!∀ x, Decision (Q x)}
    (P : list A) :
  filter Q P = [] -> forall x, x ∈ P -> ¬ Q x.
Proof.
  intros HF x Hx HQ.
  assert (Hin : x ∈ filter Q P) by (apply list_elem_of_filter; tauto).
  rewrite HF in Hin. exact (not_elem_of_nil x Hin).
Qed.

(** On a list without repetition, [remove] deletes the sender. *)
Lemma list_remove_strs (x : string) (P : list string) :
  NoDup P ->
  list_remove x (VStr <$> P) = VStr <$> filter (λ y, y ≠ x) P.
Proof.
  induction P as [|y P IH]; intros Hnd; [reflexivity|].
  apply NoDup_cons in Hnd as [Hy Hnd].
  change (list_remove x (VStr <$> y :: P))
    with (if String.eqb y x then VStr <$> P
          else VStr y :: list_remove x (VStr <$> P)).
  destruct (String.eqb_spec y x) as [->|Hne].
  - rewrite filter_cons_False by (intros H; apply H; reflexivity).
    rewrite filter_all_id by (intros z Hz ->; exact (Hy Hz)). reflexivity.
  - rewrite filter_cons_True by exact Hne. rewrite IH by exact Hnd.
    reflexivity.
Qed.

Lemma last_char_app (s t : string) :
  last_char t ≠ None -> last_char (s +:+ t) = last_char t.
Proof.
  intros Ht. induction s as [|a s IH]; [reflexivity|].
  simpl. rewrite IH. destruct (last_char t); [reflexivity | congruence].
Qed.

(** The key under which a response is stored is never one of the two
    bookkeeping keys. *)
Lemma data_key_fresh (x : string) :
  x +:+ "_data" ≠ "pending_responses" ∧ x +:+ "_data" ≠ "planning_status".
Proof.
  assert (H : last_char (x +:+ "_data") = Some "a"%char)
    by (rewrite last_char_app; [reflexivity | discriminate]).
  split; intros E; rewrite E in H; discriminate H.
Qed.

Lemma py_in_strs (x : string) (P : list string) (w : World) :
  py_in x (VList (VStr <$> P)) w = (w, Ok (bool_decide (x ∈ P))).
Proof. unfold py_in, ret. rewrite existsb_py_eq_str. reflexivity. Qed.

Lemma py_len_strs (P : list string) (w : World) :
  py_len (VList (VStr <$> P)) w = (w, Ok (Z.of_nat (length P))).
Proof. unfold py_len, ret. rewrite length_fmap. reflexivity. Qed.

Lemma py_remove_strs (x : string) (P : list string) (w : World) :
  NoDup P ->
  py_remove (VList (VStr <$> P)) x w
    = (w, Ok (VList (VStr <$> filter (λ y, y ≠ x) P))).
Proof.
  intros Hnd. unfold py_remove, ret. rewrite list_remove_strs by exact Hnd.
  reflexivity.
Qed.

(** A response whose sender is not pending, while others are or after
    the advance, leaves the store as it is. *)
Lemma handle_response_ignored (self : string) (l : loc)
    (sender sid : string) (P : list string) (st : string) (w : World)
    (m : AgentMessage) :
  gathering self l sender sid P st w ->
  from_agent m ∉ P ->
  P ≠ [] ∨ st ≠ "waiting_for_data" ->
  PlannerAgent_handle_response self m w = (w, Ok tt).
Proof.
  intros (a & c & Ha & Hl & _ & _ & Hc & _ & Hp & Hs) Hm Hor.
  unfold PlannerAgent_handle_response.
  rewrite (bind_ok _ _ _ _ _ (self_get_ok _ _ _ _ Ha)), Hl.
  rewrite (bind_ok _ _ _ _ _ (context_get_some _ _ _ _ _ _ Hc Hp)).
  rewrite (bind_ok _ _ _ _ _ (py_in_strs _ _ _)).
  rewrite bool_decide_eq_false_2 by exact Hm.
  rewrite (bind_ok _ _ _ _ _ (ret_ok _ _)).
  rewrite (bind_ok _ _ _ _ _ (py_len_strs _ _)).
  destruct P as [|y P]; [|reflexivity].
  change (Z.of_nat (length (@nil string)) =? 0) with true. cbv iota.
  rewrite (bind_ok _ _ _ _ _ (context_get_some _ _ _ _ _ _ Hc Hs)).
  simpl.
  destruct Hor as [H|H]; [congruence|].
  apply String.eqb_neq in H. rewrite H. reflexivity.
Qed.

Lemma sent_nothing_refl (w : World) : sent_nothing w w.
Proof. split; reflexivity. Qed.

Lemma sent_nothing_trans (w1 w2 w3 : World) :
  sent_nothing w1 w2 -> sent_nothing w2 w3 -> sent_nothing w1 w3.
Proof. intros [L1 A1] [L2 A2]. split; congruence. Qed.

Lemma sent_nothing_then_once (req : AgentMessage) (w1 w2 w3 : World) :
  sent_nothing w1 w2 -> sent_once req w2 w3 -> sent_once req w1 w3.
Proof.
  intros [L1 A1] (L2 & T2 & O2). rewrite L1, A1 in *.
  split; [exact L2|]. split; [exact T2 | exact O2].
Qed.

(** A response from a pending sender is recorded; the one that empties
    the pending list also sends the consolidated request and moves the
    status on. *)
Lemma handle_response_recorded (self : string) (l : loc)
    (sender sid : string) (P : list string) (w : World)
    (m : AgentMessage) :
  gathering self l sender sid P "waiting_for_data" w ->
  NoDup P ->
  from_agent m ∈ P ->
  exists w',
    PlannerAgent_handle_response self m w = (w', Ok tt) ∧
    (filter (λ y, y ≠ from_agent m) P ≠ [] ->
       sent_nothing w w' ∧
       gathering self l sender sid (filter (λ y, y ≠ from_agent m) P)
         "waiting_for_data" w') ∧
    (filter (λ y, y ≠ from_agent m) P = [] ->
       exists req c',
         sent_once req w w' ∧
         heap w' !! l = Some c' ∧
         consolidated req sender sid c' ∧
         gathering self l sender sid [] "optimizing" w').
Proof.
  intros (a & c & Ha & Hl & Hbus & Hid & Hc & Hsid & Hp & Hs) Hnd Hm.
  destruct (data_key_fresh (from_agent m)) as [Hk1 Hk2].
  unfold PlannerAgent_handle_response.
  rewrite (bind_ok _ _ _ _ _ (self_get_ok _ _ _ _ Ha)), Hl.
  rewrite (bind_ok _ _ _ _ _ (context_get_some _ _ _ _ _ _ Hc Hp)).
  rewrite (bind_ok _ _ _ _ _ (py_in_strs _ _ _)).
  rewrite bool_decide_eq_true_2 by exact Hm.
  set (P' := filter (λ y, y ≠ from_agent m) P).
  set (c1 := AgentContext_set "pending_responses" (VList (VStr <$> P')) c).
  set (c2 := AgentContext_set (from_agent m +:+ "_data")
                (VDict (payload m)) c1).
  set (w3 := set_stdout
               (fun out => out ++ [[Lit "[Planner] Received data from ";
                                    Lit (from_agent m)]])
               (set_heap (<[l := c2]>) (set_heap (<[l := c1]>) w))).
  assert (Hrec :
    (let* pending' := py_remove (VList (VStr <$> P)) (from_agent m) in
     let* _ := context_set l "pending_responses" pending' in
     let* _ := context_set l (from_agent m +:+ "_data")
                 (VDict (payload m)) in
     let* _ := print [Lit "[Planner] Received data from ";
                      Lit (from_agent m)] in
     ret pending') w = (w3, Ok (VList (VStr <$> P')))).
  { rewrite (bind_ok _ _ _ _ _ (py_remove_strs _ _ _ Hnd)).
    rewrite (bind_ok _ _ _ _ _ (context_set_ok _ _ _ _ _ Hc)).
    erewrite bind_ok
      by (apply context_set_ok; simpl; apply lookup_insert_eq).
    reflexivity. }
  rewrite (bind_ok _ _ _ _ _ Hrec).
  rewrite (bind_ok _ _ _ _ _ (py_len_strs _ _)).
  assert (Ha3 : agents w3 !! self = Some a) by exact Ha.
  assert (Hc3 : heap w3 !! l = Some c2) by (simpl; apply lookup_insert_eq).
  assert (Hp3 : data c2 !! "pending_responses" = Some (VList (VStr <$> P'))).
  { simpl. rewrite lookup_insert_ne by exact Hk1. apply lookup_insert_eq. }
  assert (Hs3 : data c2 !! "planning_status"
                = Some (VStr "waiting_for_data")).
  { simpl. rewrite lookup_insert_ne by exact Hk2.
    rewrite lookup_insert_ne by discriminate. exact Hs. }
  destruct P' as [|y P''] eqn:HP'.
  - change (Z.of_nat (length (@nil string)) =? 0) with true. cbv iota.
    rewrite (bind_ok _ _ _ _ _ (context_get_some _ _ _ _ _ _ Hc3 Hs3)).
    change (py_eq_str (VStr "waiting_for_data") "waiting_for_data")
      with true. cbv iota.
    unfold trigger_optimization.
    rewrite (bind_ok _ _ _ _ _ (print_ok _ _)).
    set (w4 := set_stdout _ w3).
    assert (Ha4 : agents w4 !! self = Some a) by exact Ha.
    assert (Hc4 : heap w4 !! l = Some c2) by exact Hc3.
    rewrite (bind_ok _ _ _ _ _ (self_get_ok _ _ _ _ Ha4)), Hl.
    rewrite (bind_ok _ _ _ _ _ (context_get_ok _ _ _ _ _ Hc4)).
    rewrite (bind_ok _ _ _ _ _ (context_get_ok _ _ _ _ _ Hc4)).
    rewrite (bind_ok _ _ _ _ _ (context_get_ok _ _ _ _ _ Hc4)).
    rewrite (bind_ok _ _ _ _ _ (context_field_ok _ _ _ _ Hc4)).
    destruct (send_message_ok self "optimizer" REQUEST
                {[ "action" := VStr "optimize_route";
                   "weather_data" := AgentContext_get "weather_data" VNone c2;
                   "fuel_data" := AgentContext_get "fuel_data" VNone c2;
                   "network_data" :=
                     AgentContext_get "network_data" VNone c2 ]}
                (VStr (session_id c2)) w4 a Ha4 Hbus)
      as (w5 & req & E5 & L5 & V5 & T5 & O5 & D5); [discriminate|].
    rewrite (bind_ok _ _ _ _ _ E5).
    destruct (delivery_only_agent w4 w5 self a D5 Ha4)
      as (a5 & Ha5 & Hl5 & Hbus5 & Hid5 & _).
    rewrite (bind_ok _ _ _ _ _ (self_get_ok _ _ _ _ Ha5)), Hl5, Hl.
    assert (Hc5 : heap w5 !! l = Some c2)
      by (destruct D5 as (H5 & _); rewrite H5; exact Hc4).
    rewrite (context_set_ok _ _ _ _ _ Hc5).
    set (c3 := AgentContext_set "planning_status" (VStr "optimizing") c2).
    eexists. split; [reflexivity|]. split; [intros H; congruence|].
    intros _. exists req, c3.
    assert (Hto : to_agent req = "optimizer") by apply V5.
    split; [split; [exact L5|]; rewrite Hto; split; [exact T5 | exact O5]|].
    split; [simpl; apply lookup_insert_eq|].
    split.
    + unfold consolidated, c3.
      rewrite !AgentContext_get_set_ne by discriminate.
      rewrite <- Hid, <- Hsid. exact V5.
    + exists a5, c3. split; [exact Ha5|]. split; [congruence|].
      split; [congruence|]. split; [congruence|].
      split; [simpl; apply lookup_insert_eq|]. split; [exact Hsid|].
      split; [|simpl; apply lookup_insert_eq].
      change (data c3) with
        (<["planning_status" := VStr "optimizing"]> (data c2)).
      rewrite lookup_insert_ne by discriminate. exact Hp3.
  - change (Z.of_nat (length (y :: P'')) =? 0) with false. cbv iota.
    exists w3. split; [reflexivity|]. split; [|intros H; discriminate H].
    intros _. split; [split; reflexivity|].
    exists a, c2. repeat split; assumption.
Qed.

Lemma handle_all_cons (h : AgentMessage -> M unit) (m : AgentMessage)
    (ms : list AgentMessage) (w w1 : World) :
  h m w = (w1, Ok tt) -> handle_all h (m :: ms) w = handle_all h ms w1.
Proof. intros H. simpl. rewrite (bind_ok _ _ _ _ _ H). reflexivity. Qed.

Lemma handle_all_snoc (h : AgentMessage -> M unit)
    (ms : list AgentMessage) (m : AgentMessage) (w w1 : World) :
  handle_all h ms w = (w1, Ok tt) ->
  handle_all h (ms ++ [m]) w = h m w1.
Proof.
  revert w. induction ms as [|m0 ms IH]; intros w H; simpl in *.
  - injection H as <-. unfold bind. destruct (h m w) as [w' [[]| |]];
      reflexivity.
  - unfold bind in *. destruct (h m0 w) as [w0 [[]|e|]];
      [apply IH; exact H | discriminate H | discriminate H].
Qed.

(** After the advance every further response is ignored. *)
Lemma advanced_is_final (self : string) (l : loc) (sender sid : string)
    (msgs : list AgentMessage) (w : World) :
  gathering self l sender sid [] "optimizing" w ->
  handle_all (PlannerAgent_handle_response self) msgs w = (w, Ok tt).
Proof.
  intros G. induction msgs as [|m ms IH]; [reflexivity|].
  rewrite (handle_all_cons _ m ms w w); [exact IH|].
  eapply handle_response_ignored;
    [exact G | apply not_elem_of_nil | right; discriminate].
Qed.

Lemma gather_run (self : string) (l : loc) (sender sid : string)
    (msgs : list AgentMessage) :
  forall (P : list string) (w : World),
    NoDup P -> P ≠ [] ->
    gathering self l sender sid P "waiting_for_data" w ->
    exists w',
      handle_all (PlannerAgent_handle_response self) msgs w = (w', Ok tt) ∧
      (covered P msgs ->
         exists req c',
           sent_once req w w' ∧
           heap w' !! l = Some c' ∧
           consolidated req sender sid c' ∧
           gathering self l sender sid [] "optimizing" w') ∧
      (¬ covered P msgs ->
         sent_nothing w w' ∧
         gathering self l sender sid
           (filter (λ x, x ∉ from_agent <$> msgs) P)
           "waiting_for_data" w').
Proof.
  induction msgs as [|m ms IH]; intros P w Hnd Hne G.
  - exists w. split; [reflexivity|]. split.
    + intros Hcov. destruct P as [|y P]; [congruence|].
      apply Forall_cons in Hcov as [Hy _].
      exfalso. exact (not_elem_of_nil y Hy).
    + intros _. split; [apply sent_nothing_refl|].
      rewrite filter_all_id; [exact G|].
      intros x _. apply not_elem_of_nil.
  - destruct (decide (from_agent m ∈ P)) as [Hin|Hout].
    + destruct (handle_response_recorded self l sender sid P w m G Hnd Hin)
        as (w1 & E1 & Hmore & Hlast).
      rewrite (handle_all_cons _ m ms w w1 E1).
      destruct (filter (λ y, y ≠ from_agent m) P) as [|y P'] eqn:HP'.
      * destruct (Hlast eq_refl) as (req & c' & L & Hc' & V & G').
        exists w1. split; [apply (advanced_is_final _ _ _ _ _ _ G')|].
        split; [intros _; exists req, c'; auto|].
        intros Hncov. exfalso. apply Hncov.
        apply Forall_forall. intros x Hx.
        destruct (decide (x = from_agent m)) as [->|Hxm]; [left|].
        exfalso. exact (filter_nil_all _ _ HP' x Hx Hxm).
      * destruct Hmore as (L & G'); [discriminate|].
        assert (Hnd' : NoDup (y :: P'))
          by (rewrite <- HP'; apply NoDup_filter, Hnd).
        assert (Hne' : y :: P' ≠ []) by discriminate.
        destruct (IH (y :: P') w1 Hnd' Hne' G')
          as (w' & E & Hcov' & Hncov').
        assert (Hiff : covered P (m :: ms) ↔ covered (y :: P') ms).
        { unfold covered. rewrite !Forall_forall, <- HP'. split.
          - intros H x Hx. apply list_elem_of_filter in Hx as [Hxm Hx].
            specialize (H x Hx). rewrite fmap_cons in H.
            apply elem_of_cons in H as [H|H]; [congruence | exact H].
          - intros H x Hx. rewrite fmap_cons.
            destruct (decide (x = from_agent m)) as [->|Hxm]; [left|].
            right. apply H, list_elem_of_filter. tauto. }
        exists w'. split; [exact E|]. split.
        -- intros Hcov. destruct (Hcov' (proj1 Hiff Hcov))
             as (req & c' & L' & Hc' & V & G'').
           exists req, c'.
           split; [exact (sent_nothing_then_once _ _ _ _ L L')|]. auto.
        -- intros Hncov.
           destruct Hncov' as (L' & G'');
             [intros H; apply Hncov, Hiff, H|].
           split; [exact (sent_nothing_trans _ _ _ L L')|].
           rewrite <- HP', list_filter_filter in G''.
           rewrite (filter_ext_in _
                      (λ x, (x ∉ from_agent <$> ms) ∧ x ≠ from_agent m) P);
             [exact G''|].
           intros x _. rewrite fmap_cons, not_elem_of_cons. tauto.
    + assert (E1 : PlannerAgent_handle_response self m w = (w, Ok tt))
        by (eapply handle_response_ignored; [exact G | exact Hout | auto]).
      rewrite (handle_all_cons _ m ms w w E1).
      destruct (IH P w Hnd Hne G) as (w' & E & Hcov' & Hncov').
      assert (Hiff : covered P (m :: ms) ↔ covered P ms).
      { unfold covered. rewrite !Forall_forall. split.
        - intros H x Hx. specialize (H x Hx). rewrite fmap_cons in H.
          apply elem_of_cons in H as [H|H]; [congruence | exact H].
        - intros H x Hx. rewrite fmap_cons. right. apply H, Hx. }
      exists w'. split; [exact E|]. split.
      * intros Hcov. apply Hcov', Hiff, Hcov.
      * intros Hncov.
        destruct Hncov' as (L' & G''); [intros H; apply Hncov, Hiff, H|].
        split; [exact L'|].
        rewrite (filter_ext_in _ (λ x, x ∉ from_agent <$> ms) P);
          [exact G''|].
        intros x Hx. rewrite fmap_cons, not_elem_of_cons.
        split; [tauto|]. intros H. split; [congruence | exact H].
Qed.

Lemma covered_snoc (P : list string) (msgs : list AgentMessage)
    (m : AgentMessage) :
  covered P msgs -> covered P (msgs ++ [m]).
Proof.
  unfold covered. intros H. eapply Forall_impl; [exact H|].
  intros x Hx. rewrite fmap_app. apply elem_of_app. left. exact Hx.
Qed.

Lemma responders_NoDup : NoDup responders.
Proof.
  unfold responders. repeat (apply NoDup_cons; split);
    [ | | | apply NoDup_nil];
    rewrite ?not_elem_of_cons; repeat split;
    first [discriminate | apply not_elem_of_nil].
Qed.

(** C1. From the waiting state in which weather, fuel and network are
    pending, in whatever order the list holds them, any sequence of
    responses is handled without an exception. If the senders of the
    sequence cover the three responders, exactly one message was sent,
    the consolidated request to the optimizer; otherwise nothing was
    sent. A further response [m] sends that one request exactly when it
    completes the cover; if the cover was already complete, or the sender
    of [m] had already answered or is not one of the three, [m] leaves
    the store as it was. *)
Theorem scatter_gather_fires_once (self : string) (w : World)
    (a : BaseAgent) (l : loc) (c : AgentContext) (pending : list string)
    (msgs : list AgentMessage) :
  agents w !! self = Some a ->
  context a = Some l ->
  message_bus a = true ->
  heap w !! l = Some c ->
  pending ≡ₚ responders ->
  data c !! "pending_responses" = Some (VList (VStr <$> pending)) ->
  data c !! "planning_status" = Some (VStr "waiting_for_data") ->
  exists w',
    handle_all (PlannerAgent_handle_response self) msgs w = (w', Ok tt) ∧
    (covered responders msgs ->
       exists req c',
         sent_once req w w' ∧
         heap w' !! l = Some c' ∧
         consolidated req (agent_id a) (session_id c) c') ∧
    (¬ covered responders msgs -> sent_nothing w w') ∧
    (forall m, exists w'',
       PlannerAgent_handle_response self m w' = (w'', Ok tt) ∧
       (¬ covered responders msgs -> covered responders (msgs ++ [m]) ->
          exists req, sent_once req w' w'' ∧
                      to_agent req = "optimizer" ∧ type req = REQUEST) ∧
       (covered responders msgs ∨ ¬ covered responders (msgs ++ [m]) ->
          sent_nothing w' w'') ∧
       (covered responders msgs ∨ from_agent m ∈ from_agent <$> msgs ∨
        from_agent m ∉ responders ->
          w'' = w')).
Proof.
  intros Ha Hl Hbus Hc Hperm Hp Hs.
  assert (G : gathering self l (agent_id a) (session_id c) pending
                "waiting_for_data" w).
  { exists a, c. repeat split; assumption. }
  assert (Hnd : NoDup pending)
    by (rewrite Hperm; apply responders_NoDup).
  assert (Hne : pending ≠ []).
  { intros ->. apply Permutation_nil in Hperm. discriminate Hperm. }
  assert (Hsame : forall ms, covered pending ms ↔ covered responders ms).
  { intros ms. unfold covered. rewrite Hperm. reflexivity. }
  destruct (gather_run self l _ _ msgs pending w Hnd Hne G)
    as (w' & E & Hcov & Hncov).
  rewrite Hsame in Hcov, Hncov.
  exists w'. split; [exact E|]. split; [|split].
  - intros H. destruct (Hcov H) as (req & c' & L & Hc' & V & _).
    exists req, c'. auto.
  - intros H. apply Hncov, H.
  - intros m.
    destruct (gather_run self l _ _ (msgs ++ [m]) pending w Hnd Hne G)
      as (w2 & E2 & Hcov2 & Hncov2).
    rewrite Hsame in Hcov2, Hncov2.
    rewrite (handle_all_snoc _ msgs m w w' E) in E2.
    exists w2. split; [exact E2|].
    assert (Hdone : covered responders msgs -> w2 = w').
    { intros H. destruct (Hcov H) as (_ & _ & _ & _ & _ & G').
      rewrite (handle_response_ignored self l _ _ [] "optimizing" w' m G')
        in E2; [congruence | apply not_elem_of_nil | right; discriminate]. }
    split; [|split].
    + intros Hn Hy. destruct (Hcov2 Hy) as (req & c' & L & _ & V & _).
      destruct (Hncov Hn) as (L' & _).
      exists req. split; [|split; apply V].
      destruct L as (L2 & T2 & O2), L' as [L1 A1].
      rewrite <- L1, <- A1 in *.
      split; [exact L2|]. split; [exact T2 | exact O2].
    + intros [H|H]; [rewrite (Hdone H); apply sent_nothing_refl|].
      destruct (Hncov2 H) as ([L2 A2] & _).
      destruct Hncov as ([L1 A1] & _); [|split; congruence].
      intros Hy. apply H, covered_snoc, Hy.
    + intros Hor.
      destruct (decide (covered responders msgs)) as [Hy|Hn];
        [exact (Hdone Hy)|].
      destruct Hor as [Hy|Hor]; [contradiction|].
      destruct (Hncov Hn) as (_ & G').
      rewrite (handle_response_ignored self l _ _ _ _ w' m G') in E2;
        [congruence | | left].
      * intros Hin. apply list_elem_of_filter in Hin as [Hnot Hin].
        rewrite Hperm in Hin. destruct Hor as [H|H]; contradiction.
      * intros Hnil. apply Hn, Hsame. apply Forall_forall. intros x Hx.
        destruct (decide (x ∈ from_agent <$> msgs)) as [Hd|Hd];
          [exact Hd|].
        exfalso. exact (filter_nil_all _ _ Hnil x Hx Hd).
Qed.

Lemma scatter_gather_fires_once_witness :
  exists w' req,
    handle_all (PlannerAgent_handle_response "planner") sample_responses
      waiting_world = (w', Ok tt) ∧
    message_log w' = message_log waiting_world ++ [req] ∧
    to_agent req = "optimizer" ∧
    correlation_id req = VStr "6f1c0d1e".
Proof.
  destruct (scatter_gather_fires_once "planner" waiting_world
              (default PlannerAgent_init (agents waiting_world !! "planner"))
              0%nat
              (AgentContext_set "pending_responses"
                 (VList [VStr "weather"; VStr "fuel"; VStr "network"])
                 (AgentContext_set "planning_status"
                    (VStr "waiting_for_data")
                    {| session_id := "6f1c0d1e"; goal := "test goal";
                       data := ∅ |}))
              responders sample_responses)
    as (w' & E & Hcov & _).
  - vm_compute; reflexivity.
  - vm_compute; reflexivity.
  - vm_compute; reflexivity.
  - vm_compute; reflexivity.
  - reflexivity.
  - vm_compute; reflexivity.
  - vm_compute; reflexivity.
  - destruct Hcov as (req & c' & L & _ & V).
    + unfold covered, responders, sample_responses. simpl.
      repeat constructor.
    + exists w', req. split; [exact E|]. split; [apply L|].
      split; apply V.
Defined.

(** ** What the planner's handlers leave alone *)

Lemma queue_only_same (w w' : World) :
  agents w' = agents w -> queue_only w w'.
Proof.
  intros E B b HB. exists b. rewrite E.
  split; [exact HB | apply same_but_queue_refl].
Qed.

Lemma queue_only_trans (w1 w2 w3 : World) :
  queue_only w1 w2 -> queue_only w2 w3 -> queue_only w1 w3.
Proof.
  intros H12 H23 B b HB. destruct (H12 B b HB) as (b2 & HB2 & Q2).
  destruct (H23 B b2 HB2) as (b3 & HB3 & Q3).
  exists b3. split; [exact HB3|].
  eapply same_but_queue_trans; eassumption.
Qed.

Lemma keeps_pure {A} (c : M A) :
  (forall w, agents (c w).1 = agents w) -> keeps_agents c.
Proof.
  intros H w w' r E. apply queue_only_same.
  rewrite <- (H w), E. reflexivity.
Qed.

Lemma keeps_bind {A B} (c : M A) (k : A -> M B) :
  keeps_agents c -> (forall a, keeps_agents (k a)) -> keeps_agents (bind c k).
Proof.
  intros Hc Hk w w' r E. unfold bind in E.
  destruct (c w) as [w1 [x|e|]] eqn:E1.
  - eapply queue_only_trans; [exact (Hc _ _ _ E1) | exact (Hk _ _ _ _ E)].
  - injection E as <- _. exact (Hc _ _ _ E1).
  - injection E as <- _. exact (Hc _ _ _ E1).
Qed.

Lemma keeps_ret {A} (x : A) : keeps_agents (ret x).
Proof. apply keeps_pure. reflexivity. Qed.

Lemma keeps_raise {A} (e : Exception) : keeps_agents (@raise A e).
Proof. apply keeps_pure. reflexivity. Qed.

Lemma keeps_gets {A} (f : World -> A) : keeps_agents (gets f).
Proof. apply keeps_pure. reflexivity. Qed.

Lemma keeps_print (line : list fragment) : keeps_agents (print line).
Proof. apply keeps_pure. reflexivity. Qed.

Lemma keeps_uuid4 : keeps_agents uuid4.
Proof. apply keeps_pure. reflexivity. Qed.

Lemma keeps_datetime_now : keeps_agents datetime_now.
Proof. apply keeps_pure. reflexivity. Qed.

Lemma keeps_self_get {A} (self : string) (f : BaseAgent -> A) :
  keeps_agents (self_get self f).
Proof.
  apply keeps_pure. intros w. unfold self_get.
  destruct (agents w !! self); reflexivity.
Qed.

Lemma keeps_context_get (l : loc) (key : string) (d : pyval) :
  keeps_agents (context_get l key d).
Proof.
  apply keeps_pure. intros w. unfold context_get.
  destruct (heap w !! l); reflexivity.
Qed.

Lemma keeps_context_set (l : loc) (key : string) (v : pyval) :
  keeps_agents (context_set l key v).
Proof.
  apply keeps_pure. intros w. unfold context_set.
  destruct (heap w !! l); reflexivity.
Qed.

Lemma keeps_context_field {A} (l : loc) (f : AgentContext -> A) :
  keeps_agents (context_field l f).
Proof.
  apply keeps_pure. intros w. unfold context_field.
  destruct (heap w !! l); reflexivity.
Qed.

Lemma keeps_dict_getitem (d : gmap string pyval) (key : string) :
  keeps_agents (dict_getitem d key).
Proof.
  unfold dict_getitem. destruct (d !! key);
    [apply keeps_ret | apply keeps_raise].
Qed.

Lemma keeps_py_in (x : string) (c : pyval) : keeps_agents (py_in x c).
Proof. destruct c; first [apply keeps_ret | apply keeps_raise]. Qed.

Lemma keeps_py_remove (c : pyval) (x : string) :
  keeps_agents (py_remove c x).
Proof. destruct c; first [apply keeps_ret | apply keeps_raise]. Qed.

Lemma keeps_py_len (c : pyval) : keeps_agents (py_len c).
Proof. destruct c; first [apply keeps_ret | apply keeps_raise]. Qed.

Lemma keeps_MessageBus_send (message : AgentMessage) :
  keeps_agents (MessageBus_send message).
Proof.
  intros w w' r E.
  destruct (String.eqb_spec (to_agent message) "broadcast") as [Hb|Hb].
  - unfold MessageBus_send, bind, modify in E; simpl in E.
    rewrite Hb in E; simpl in E. injection E as <- _.
    intros B b HB. simpl. rewrite map_lookup_imap, HB; simpl.
    eexists; split; [reflexivity|].
    destruct (negb (String.eqb B (from_agent message)));
      [apply same_but_queue_receive | apply same_but_queue_refl].
  - destruct (MessageBus_send_unicast message w Hb)
      as (w1 & E1 & _ & _ & _ & _ & _ & _ & _ & _ & _ & D & _).
    rewrite E1 in E. injection E as <- _. exact D.
Qed.

Create HintDb frame.
#[local] Hint Resolve keeps_ret keeps_raise keeps_gets keeps_print
  keeps_uuid4 keeps_datetime_now keeps_self_get keeps_context_get
  keeps_context_set keeps_context_field keeps_dict_getitem keeps_py_in
  keeps_py_remove keeps_py_len keeps_MessageBus_send : frame.

(** Walks through a handler body: binds, branches, then the operations
    registered in [frame]. *)
Ltac keeps :=
  repeat first
    [ solve [auto with frame]
    | apply keeps_bind; [|intros ?]
    | match goal with
      | |- keeps_agents (match ?x with _ => _ end) => destruct x
      end ].

Lemma keeps_send_message (self recipient : string) (t : MessageType)
    (p : gmap string pyval) (corr : pyval) :
  keeps_agents (send_message self recipient t p corr).
Proof. unfold send_message, AgentMessage_new. keeps. Qed.

#[local] Hint Resolve keeps_send_message : frame.

Lemma keeps_trigger_optimization (self : string) :
  keeps_agents (trigger_optimization self).
Proof. unfold trigger_optimization. keeps. Qed.

#[local] Hint Resolve keeps_trigger_optimization : frame.

Lemma keeps_PlannerAgent_handle_response (self : string)
    (message : AgentMessage) :
  keeps_agents (PlannerAgent_handle_response self message).
Proof. unfold PlannerAgent_handle_response. keeps. Qed.

Lemma keeps_decompose_and_delegate (self : string)
    (payload_ : gmap string pyval) :
  keeps_agents (decompose_and_delegate self payload_).
Proof. unfold decompose_and_delegate. keeps. Qed.

Lemma keeps_PlannerAgent_handle_command (self : string)
    (message : AgentMessage) :
  keeps_agents (PlannerAgent_handle_command self message).
Proof.
  unfold PlannerAgent_handle_command.
  destruct (py_eq_str _ _);
    [apply keeps_decompose_and_delegate | apply keeps_ret].
Qed.

(** Whatever message the planner is given, its handlers change no agent
    beyond the inbox. *)
Lemma keeps_planner_dispatch (self : string) (message : AgentMessage) :
  keeps_agents (dispatch planner_vtable self message).
Proof.
  unfold dispatch. apply keeps_bind; [apply keeps_self_get|].
  intros c. destruct c, (type message); simpl;
    first [ apply keeps_ret
          | apply keeps_PlannerAgent_handle_response
          | apply keeps_PlannerAgent_handle_command ].
Qed.

(** For the planner the turn that fails is determined by the store before
    the turn: one more failed task, the same completed count and time. *)
Lemma planner_failed_turn (self : string) (w w1 : World) (a : BaseAgent)
    (message : AgentMessage) (rest : list AgentMessage) (e : Exception) :
  agents w !! self = Some a ->
  message_queue a = message :: rest ->
  dispatch planner_vtable self message (at_dispatch self a rest w)
    = (w1, Raise e) ->
  exists w2 a2,
    loop_iteration planner_vtable self w = Some (w2, Ok tt) ∧
    agents w2 !! self = Some a2 ∧
    status a2 = ERROR ∧
    tasks_failed a2 = tasks_failed a + 1 ∧
    tasks_completed a2 = tasks_completed a ∧
    total_time a2 = total_time a.
Proof.
  intros Ha Hq Hd.
  destruct (keeps_planner_dispatch self message _ _ _ Hd self
              (set_status WORKING (set_message_queue rest a)))
    as (a1 & Ha1 & Q1); [apply lookup_insert_eq|].
  exists (after_exception self a1 e w1),
         (set_tasks_failed (tasks_failed a1 + 1) (set_status ERROR a1)).
  split; [exact (loop_iteration_raise planner_vtable self w w1 a a1
                   message rest e Ha Hq Hd Ha1)|].
  split; [apply lookup_insert_eq|].
  rewrite Q1. repeat split.
Qed.

(** * Further properties of the framework *)

(** ** Routing *)

Lemma MessageBus_send_lookup (m : AgentMessage) (w : World) :
  exists w',
    MessageBus_send m w = (w', Ok tt) ∧
    message_log w' = message_log w ++ [m] ∧
    heap w' = heap w ∧ active_goals w' = active_goals w ∧
    (forall B, agents w' !! B
               = (fun b => if addressed m B then receive_message m b else b)
                   <$> agents w !! B).
Proof.
  unfold MessageBus_send, addressed, bind, modify, gets; simpl.
  destruct (String.eqb_spec (to_agent m) "broadcast") as [Hb|Hb]; simpl.
  - eexists. split; [reflexivity|]. simpl. repeat split.
    intros B. rewrite map_lookup_imap.
    destruct (agents w !! B); reflexivity.
  - destruct (agents w !! to_agent m) as [r|] eqn:Hr.
    + eexists. split; [reflexivity|]. simpl. repeat split.
      intros B. destruct (String.eqb_spec (to_agent m) B) as [<-|Hne].
      * rewrite lookup_insert_eq, Hr. reflexivity.
      * rewrite lookup_insert_ne by exact Hne.
        destruct (agents w !! B); reflexivity.
    + unfold print, modify. eexists. split; [reflexivity|]. simpl.
      repeat split. intros B.
      destruct (String.eqb_spec (to_agent m) B) as [<-|Hne].
      * rewrite Hr. reflexivity.
      * destruct (agents w !! B); reflexivity.
Qed.

Lemma route_all (msgs : list AgentMessage) (w : World) :
  exists w',
    handle_all MessageBus_send msgs w = (w', Ok tt) ∧
    message_log w' = message_log w ++ msgs ∧
    (forall B, agents w' !! B
               = (fun b => set_message_queue
                             (message_queue b
                              ++ filter (λ m, addressed m B = true) msgs) b)
                   <$> agents w !! B).
Proof.
  revert w. induction msgs as [|m msgs IH]; intros w.
  - exists w. split; [reflexivity|]. split; [symmetry; apply app_nil_r|].
    intros B. destruct (agents w !! B) as [b|]; [|reflexivity].
    simpl. rewrite app_nil_r. destruct b; reflexivity.
  - destruct (MessageBus_send_lookup m w) as (w1 & E1 & L1 & _ & _ & A1).
    destruct (IH w1) as (w' & E & L & A).
    exists w'. split; [rewrite (handle_all_cons _ m msgs w w1 E1); exact E|].
    split; [rewrite L, L1, <- app_assoc; reflexivity|].
    intros B. rewrite A, A1.
    destruct (agents w !! B) as [b|]; [simpl|reflexivity].
    destruct (addressed m B) eqn:Had.
    + rewrite filter_cons_True by exact Had. simpl.
      rewrite <- app_assoc. reflexivity.
    + rewrite filter_cons_False by congruence. reflexivity.
Qed.

(** X1. Routing any sequence of messages never fails; the log grows by
    exactly that sequence, and the inbox of every registered agent grows
    by the messages addressed to it (sent to its id, or broadcast by
    somebody else), each once and in the order in which they were routed;
    nobody is registered or dropped on the way. *)
Theorem routing_is_fifo_and_exact (msgs : list AgentMessage) (w : World) :
  exists w',
    handle_all MessageBus_send msgs w = (w', Ok tt) ∧
    message_log w' = message_log w ++ msgs ∧
    (forall B, agents w' !! B
               = (fun b => set_message_queue
                             (message_queue b
                              ++ filter (λ m, addressed m B = true) msgs) b)
                   <$> agents w !! B).
Proof. apply route_all. Qed.

(** X2. The statistics of the bus count what was routed: after any
    sequence of messages, [total_messages] has grown by the length of
    the sequence, dropped messages included, and [total_agents] is
    unchanged. *)
Theorem system_stats_count_routed (msgs : list AgentMessage) (w : World) :
  exists w',
    handle_all MessageBus_send msgs w = (w', Ok tt) ∧
    get_system_stats w' !! "total_messages"
      = Some (VInt (Z.of_nat (length (message_log w))
                    + Z.of_nat (length msgs))) ∧
    get_system_stats w' !! "total_agents"
      = get_system_stats w !! "total_agents".
Proof.
  destruct (route_all msgs w) as (w' & E & L & A).
  exists w'. split; [exact E|]. split.
  - change (Some (VInt (Z.of_nat (length (message_log w'))))
            = Some (VInt (Z.of_nat (length (message_log w))
                          + Z.of_nat (length msgs)))).
    rewrite L, length_app. do 2 f_equal. lia.
  - change (Some (VInt (Z.of_nat (size (agents w'))))
            = Some (VInt (Z.of_nat (size (agents w))))).
    do 3 f_equal.
    rewrite <- !size_dom. f_equal. apply set_eq. intros B.
    rewrite !elem_of_dom, A. destruct (agents w !! B); simpl.
    + split; intros _; eexists; reflexivity.
    + split; intros [? H]; discriminate H.
Qed.

(** X3. Registration is last-write-wins: when two agent objects are
    registered under one identifier, a message for that identifier is
    delivered to the second, whose bus reference is set; the first is no
    longer reachable, and the other entries are untouched. *)
Theorem register_last_wins (a1 a2 : BaseAgent) (m : AgentMessage)
    (w : World) :
  agent_id a1 = agent_id a2 ->
  to_agent m = agent_id a2 ->
  to_agent m ≠ "broadcast" ->
  exists w',
    (let* _ := register_agent a1 in
     let* _ := register_agent a2 in
     MessageBus_send m) w = (w', Ok tt) ∧
    agents w' !! agent_id a2
      = Some (receive_message m (set_message_bus true a2)) ∧
    (forall B, B ≠ agent_id a2 -> agents w' !! B = agents w !! B) ∧
    message_log w' = message_log w ++ [m].
Proof.
  intros H12 Hto Hb. unfold register_agent.
  rewrite (bind_ok _ _ _ _ _ eq_refl), (bind_ok _ _ _ _ _ eq_refl).
  rewrite H12, set_agents_twice.
  destruct (MessageBus_send_lookup m
              (set_agents (<[agent_id a2 := set_message_bus true a2]>) w))
    as (w' & E & L & _ & _ & A).
  exists w'. split; [exact E|]. split; [|split; [|exact L]].
  - rewrite A. simpl. rewrite lookup_insert_eq. simpl.
    unfold addressed. apply String.eqb_neq in Hb. rewrite Hb, Hto.
    rewrite String.eqb_refl. reflexivity.
  - intros B HB. rewrite A. simpl. rewrite lookup_insert_ne by congruence.
    unfold addressed. apply String.eqb_neq in Hb. rewrite Hb, Hto.
    assert (Hne : String.eqb (agent_id a2) B = false)
      by (apply String.eqb_neq; congruence).
    rewrite Hne. destruct (agents w !! B); reflexivity.
Qed.

Lemma register_last_wins_witness :
  exists w',
    (let* _ := register_agent PlannerAgent_init in
     let* _ := register_agent (set_status WAITING PlannerAgent_init) in
     MessageBus_send faulty_command) sample_world = (w', Ok tt) ∧
    agents w' !! "planner"
      = Some (receive_message faulty_command
                (set_message_bus true (set_status WAITING PlannerAgent_init))).
Proof.
  destruct (register_last_wins PlannerAgent_init
              (set_status WAITING PlannerAgent_init) faulty_command
              sample_world) as (w' & E & A & _).
  - reflexivity.
  - reflexivity.
  - discriminate.
  - exists w'. split; [exact E | exact A].
Defined.

(** ** Sessions *)

Lemma set_goal_ok (goal_ : string)
    (initial_data : option (gmap string pyval)) (w : World) :
  exists w1 l,
    set_goal goal_ initial_data w
      = (w1, Ok (uuid_source w (uuid_cursor w))) ∧
    heap w !! l = None ∧
    heap w1 = <[l := {| session_id := uuid_source w (uuid_cursor w);
                        goal := goal_;
                        data := default ∅ initial_data |}]> (heap w) ∧
    active_goals w1
      = <[uuid_source w (uuid_cursor w) := l]> (active_goals w) ∧
    agents w1 = set_context (Some l) <$> agents w ∧
    message_log w1 = message_log w ∧
    uuid_source w1 = uuid_source w ∧
    uuid_cursor w1 = S (uuid_cursor w).
Proof.
  exists (set_goal goal_ initial_data w).1, (fresh (dom (heap w))).
  split; [reflexivity|]. split; [|repeat split].
  apply not_elem_of_dom, is_fresh.
Qed.

Lemma get_progress_ok (sid : string) (l : loc) (c : AgentContext)
    (w : World) :
  active_goals w !! sid = Some l ->
  heap w !! l = Some c ->
  get_progress sid w
  = (w, Ok {[ "session_id" := VStr sid;
              "goal" := VStr (goal c);
              "data" := VDict (data c);
              "system_stats" := VDict (get_system_stats w) ]}).
Proof.
  intros Hg Hc. unfold get_progress.
  rewrite (bind_ok _ _ _ _ _ eq_refl), Hg.
  rewrite (bind_ok _ _ _ _ _ (context_field_ok _ _ _ _ Hc)).
  rewrite (bind_ok _ _ _ _ _ (context_field_ok _ _ _ _ Hc)).
  reflexivity.
Qed.

(** X4. A goal that was set can be read back: [set_goal] returns the
    next identifier, allocates a context that no earlier session or agent
    refers to, binds every registered agent to it and sends no message;
    [get_progress] on the returned identifier then reports the goal text
    and the initial data (the empty dictionary if none was given), and
    leaves the store as it is. *)
Theorem set_goal_then_get_progress (goal_ : string)
    (initial_data : option (gmap string pyval)) (w : World) :
  exists w1 l,
    set_goal goal_ initial_data w
      = (w1, Ok (uuid_source w (uuid_cursor w))) ∧
    heap w !! l = None ∧
    (forall l', l' ≠ l -> heap w1 !! l' = heap w !! l') ∧
    (forall B, context <$> agents w1 !! B
               = (fun _ => Some l) <$> agents w !! B) ∧
    message_log w1 = message_log w ∧
    get_progress (uuid_source w (uuid_cursor w)) w1
    = (w1, Ok {[ "session_id" := VStr (uuid_source w (uuid_cursor w));
                 "goal" := VStr goal_;
                 "data" := VDict (default ∅ initial_data);
                 "system_stats" := VDict (get_system_stats w1) ]}).
Proof.
  destruct (set_goal_ok goal_ initial_data w)
    as (w1 & l & E & Hfresh & Hh & Hg & Ha & Hlog & _).
  exists w1, l. split; [exact E|]. split; [exact Hfresh|].
  split; [intros l' Hl'; rewrite Hh; apply lookup_insert_ne; congruence|].
  split; [intros B; rewrite Ha, lookup_fmap;
          destruct (agents w !! B); reflexivity|].
  split; [exact Hlog|].
  apply (get_progress_ok _ l
           {| session_id := uuid_source w (uuid_cursor w); goal := goal_;
              data := default ∅ initial_data |}).
  - rewrite Hg. apply lookup_insert_eq.
  - rewrite Hh. apply lookup_insert_eq.
Qed.

(** X5. One session at a time per agent, all sessions kept: after two
    goals with distinct identifiers, every registered agent is bound to
    the context of the second, while the first session is still in the
    table and [get_progress] reports its own goal and data. *)
Theorem second_goal_rebinds_agents (g1 g2 : string)
    (d1 d2 : option (gmap string pyval)) (w : World) :
  uuid_source w (uuid_cursor w) ≠ uuid_source w (S (uuid_cursor w)) ->
  exists w2 l2 c2 r1,
    (let* _ := set_goal g1 d1 in set_goal g2 d2) w
      = (w2, Ok (uuid_source w (S (uuid_cursor w)))) ∧
    (forall B b, agents w2 !! B = Some b -> context b = Some l2) ∧
    (forall B, is_Some (agents w2 !! B) ↔ is_Some (agents w !! B)) ∧
    heap w2 !! l2 = Some c2 ∧ goal c2 = g2 ∧
    get_progress (uuid_source w (uuid_cursor w)) w2 = (w2, Ok r1) ∧
    r1 !! "goal" = Some (VStr g1) ∧
    r1 !! "data" = Some (VDict (default ∅ d1)).
Proof.
  intros Hne.
  destruct (set_goal_ok g1 d1 w)
    as (w1 & l1 & E1 & F1 & Hh1 & Hg1 & Ha1 & _ & Hs1 & Hc1).
  destruct (set_goal_ok g2 d2 w1)
    as (w2 & l2 & E2 & F2 & Hh2 & Hg2 & Ha2 & _ & _ & _).
  rewrite Hs1, Hc1 in *.
  assert (Hl : l1 ≠ l2).
  { intros ->. rewrite Hh1, lookup_insert_eq in F2. discriminate F2. }
  eexists w2, l2, _, _.
  split; [rewrite (bind_ok _ _ _ _ _ E1); exact E2|].
  split.
  { intros B b HB. rewrite Ha2, lookup_fmap in HB.
    destruct (agents w1 !! B); [|discriminate HB].
    injection HB as <-. reflexivity. }
  split.
  { intros B. rewrite Ha2, Ha1, !lookup_fmap.
    destruct (agents w !! B); simpl; split; intros [? H];
      first [discriminate H | eexists; reflexivity]. }
  split; [rewrite Hh2; apply lookup_insert_eq|].
  split; [reflexivity|].
  split.
  { apply (get_progress_ok _ l1
             {| session_id := uuid_source w (uuid_cursor w); goal := g1;
                data := default ∅ d1 |}).
    - rewrite Hg2, lookup_insert_ne by congruence.
      rewrite Hg1. apply lookup_insert_eq.
    - rewrite Hh2, lookup_insert_ne by congruence.
      rewrite Hh1. apply lookup_insert_eq. }
  split; reflexivity.
Qed.

Lemma second_goal_rebinds_agents_witness :
  exists w2 l2,
    (let* _ := set_goal "first goal" None in set_goal "test goal" None)
      demo_world = (w2, Ok "a2b4c6d8") ∧
    (forall B b, agents w2 !! B = Some b -> context b = Some l2).
Proof.
  destruct (second_goal_rebinds_agents "first goal" "test goal" None None
              demo_world) as (w2 & l2 & c2 & r1 & E & A & _).
  - vm_compute. discriminate.
  - exists w2, l2. split; [exact E | exact A].
Defined.

(** X6. [get_progress] is read-only: whatever the identifier, known or
    not, the store after the call is the store before it. *)
Theorem get_progress_is_read_only (sid : string) (w : World) :
  (get_progress sid w).1 = w.
Proof.
  unfold get_progress, bind, gets, context_field; simpl.
  destruct (active_goals w !! sid) as [l|]; [|reflexivity].
  destruct (heap w !! l) eqn:Hl; simpl; rewrite ?Hl; reflexivity.
Qed.

(** X7. Starting a session while no agent is registered as "planner"
    does not fail: the command is logged, the warning is printed, and no
    inbox changes. *)
Theorem start_optimization_without_planner (sid : string) (l : loc)
    (c : AgentContext) (w : World) :
  active_goals w !! sid = Some l ->
  heap w !! l = Some c ->
  agents w !! "planner" = None ->
  exists w' cmd,
    start_optimization sid w = (w', Ok tt) ∧
    message_log w' = message_log w ++ [cmd] ∧
    to_agent cmd = "planner" ∧ type cmd = COMMAND ∧
    agents w' = agents w ∧
    stdout w' = stdout w ++ [[Lit "Warning: Agent "; Lit "planner";
                              Lit " not found"]].
Proof.
  intros Hg Hc Hp. unfold start_optimization.
  rewrite (bind_ok _ _ _ _ _ eq_refl), Hg.
  rewrite (bind_ok _ _ _ _ _ (context_field_ok _ _ _ _ Hc)).
  unfold AgentMessage_new, bind at 1 2 3; simpl.
  unfold MessageBus_send, bind, modify, gets; simpl. rewrite Hp.
  eexists _, _. split; [reflexivity|]. repeat split.
Qed.

Lemma start_optimization_without_planner_witness :
  exists w' cmd,
    start_optimization "6f1c0d1e" (set_goal "test goal" None sample_world).1
      = (w', Ok tt) ∧
    to_agent cmd = "planner" ∧
    agents w' = agents (set_goal "test goal" None sample_world).1.
Proof.
  destruct (start_optimization_without_planner "6f1c0d1e" 0%nat
              {| session_id := "6f1c0d1e"; goal := "test goal"; data := ∅ |}
              (set_goal "test goal" None sample_world).1)
    as (w' & cmd & E & _ & T & _ & A & _).
  - vm_compute; reflexivity.
  - vm_compute; reflexivity.
  - vm_compute; reflexivity.
  - exists w', cmd. repeat split; assumption.
Defined.

(** ** Turns of the loop *)

Section Turns.
Variable vtable : AgentClass -> Handlers.

Lemma loop_iteration_returns (self : string) (w w1 : World)
    (a a1 : BaseAgent) (message : AgentMessage)
    (rest : list AgentMessage) :
  agents w !! self = Some a ->
  message_queue a = message :: rest ->
  dispatch vtable self message (at_dispatch self a rest w)
    = (w1, Ok tt) ->
  agents w1 !! self = Some a1 ->
  loop_iteration vtable self w
  = Some (set_agents
            (<[self :=
                 set_status IDLE
                   (set_tasks_completed (tasks_completed a1 + 1)
                      (set_total_time
                         (total_time a1
                          + total_seconds
                              (clock_source w1 (clock_cursor w1)
                               - clock_source w (clock_cursor w)))%Q
                         a1))]>)
            (set_clock_cursor (S (clock_cursor w1)) w1), Ok tt).
Proof.
  intros Ha Hq Hd Ha1. unfold loop_iteration. rewrite Ha, Hq.
  unfold try_except, process_one.
  rewrite (loop_reaches_handler self w a message rest _ Ha).
  rewrite (bind_ok _ _ _ _ _ Hd).
  rewrite (bind_ok _ _ _ _ _ (datetime_now_ok w1)).
  assert (Ha1' : agents (set_clock_cursor (S (clock_cursor w1)) w1)
                   !! self = Some a1) by exact Ha1.
  rewrite (bind_ok _ _ _ _ _ (self_set_ok _ _ _ _ Ha1')).
  rewrite (bind_ok _ _ _ _ _
             (self_set_ok _ _ _ _ (agents_set_agents_self _ _ _))).
  rewrite (self_set_ok _ _ _ _ (agents_set_agents_self _ _ _)).
  rewrite !set_agents_twice. reflexivity.
Qed.

(** X8. A turn whose handler returns normally takes the oldest message
    off the inbox, adds one to [tasks_completed] and the seconds between
    the two clock readings to [total_time], leaves [tasks_failed] as the
    handler left it and the agent idle; the turn itself logs and prints
    nothing and touches no other agent. *)
Theorem successful_turn_is_counted (self : string) (w w1 : World)
    (a a1 : BaseAgent) (message : AgentMessage)
    (rest : list AgentMessage) :
  agents w !! self = Some a ->
  message_queue a = message :: rest ->
  dispatch vtable self message (at_dispatch self a rest w)
    = (w1, Ok tt) ->
  agents w1 !! self = Some a1 ->
  exists w2 a2,
    loop_iteration vtable self w = Some (w2, Ok tt) ∧
    agents w2 !! self = Some a2 ∧
    status a2 = IDLE ∧
    tasks_completed a2 = tasks_completed a1 + 1 ∧
    tasks_failed a2 = tasks_failed a1 ∧
    total_time a2
      = (total_time a1
         + total_seconds (clock_source w1 (clock_cursor w1)
                          - clock_source w (clock_cursor w)))%Q ∧
    message_queue a2 = message_queue a1 ∧
    (forall B, B ≠ self -> agents w2 !! B = agents w1 !! B) ∧
    message_log w2 = message_log w1 ∧ stdout w2 = stdout w1 ∧
    heap w2 = heap w1.
Proof.
  intros Ha Hq Hd Ha1.
  eexists _, _.
  split; [exact (loop_iteration_returns self w w1 a a1 message rest
                   Ha Hq Hd Ha1)|].
  split; [apply agents_set_agents_self|].
  do 5 (split; [reflexivity|]).
  split; [intros B HB; simpl; apply lookup_insert_ne; congruence|].
  repeat split.
Qed.

(** X9. If the handlers change agents in their inboxes only, every turn
    that ends normally counts its message exactly once, as completed or
    as failed: the sum of the two counters grows by one. *)
Theorem every_turn_counts_once (self : string) (w w2 : World)
    (a : BaseAgent) :
  (forall message, keeps_agents (dispatch vtable self message)) ->
  agents w !! self = Some a ->
  loop_iteration vtable self w = Some (w2, Ok tt) ->
  exists a2,
    agents w2 !! self = Some a2 ∧
    tasks_completed a2 + tasks_failed a2
      = tasks_completed a + tasks_failed a + 1 ∧
    (status a2 = IDLE ∨ status a2 = ERROR).
Proof.
  intros Hk Ha Hit.
  destruct (message_queue a) as [|message rest] eqn:Hq.
  { unfold loop_iteration in Hit. rewrite Ha, Hq in Hit. discriminate Hit. }
  destruct (dispatch vtable self message (at_dispatch self a rest w))
    as [w1 o] eqn:Hd.
  destruct (Hk message _ _ _ Hd self
              (set_status WORKING (set_message_queue rest a)))
    as (a1 & Ha1 & Q1); [apply lookup_insert_eq|].
  destruct o as [[]|e|].
  - rewrite (loop_iteration_returns self w w1 a a1 message rest
               Ha Hq Hd Ha1) in Hit.
    injection Hit as <-. eexists. split; [apply agents_set_agents_self|].
    rewrite Q1. simpl. split; [lia | left; reflexivity].
  - rewrite (loop_iteration_raise vtable self w w1 a a1 message rest e
               Ha Hq Hd Ha1) in Hit.
    injection Hit as <-. eexists. split; [apply lookup_insert_eq|].
    rewrite Q1. simpl. split; [lia | right; reflexivity].
  - exfalso. unfold loop_iteration in Hit. rewrite Ha, Hq in Hit.
    unfold try_except, process_one in Hit.
    rewrite (loop_reaches_handler self w a message rest _ Ha) in Hit.
    unfold bind in Hit. rewrite Hd in Hit. discriminate Hit.
Qed.
End Turns.

Lemma successful_turn_is_counted_witness :
  exists w2 a2,
    loop_iteration planner_vtable "planner"
      (start_optimization "6f1c0d1e" scenario_world).1 = Some (w2, Ok tt) ∧
    agents w2 !! "planner" = Some a2 ∧
    status a2 = IDLE ∧ tasks_completed a2 = 1.
Proof.
  pose (w := (start_optimization "6f1c0d1e" scenario_world).1).
  pose (a := default PlannerAgent_init (agents w !! "planner")).
  pose (m := default faulty_command (head (message_queue a))).
  pose (w1 := (dispatch planner_vtable "planner" m
                 (at_dispatch "planner" a [] w)).1).
  destruct (successful_turn_is_counted planner_vtable "planner" w w1 a
              (default PlannerAgent_init (agents w1 !! "planner")) m [])
    as (w2 & a2 & E & Ha2 & Hs & Hc & _).
  - vm_compute; reflexivity.
  - vm_compute; reflexivity.
  - vm_compute; reflexivity.
  - vm_compute; reflexivity.
  - exists w2, a2. repeat split; assumption.
Defined.

Lemma every_turn_counts_once_witness :
  exists a2,
    agents waiting_world !! "planner" = Some a2 ∧
    tasks_completed a2 + tasks_failed a2 = 1.
Proof.
  destruct (every_turn_counts_once planner_vtable "planner"
              (start_optimization "6f1c0d1e" scenario_world).1
              waiting_world
              (default PlannerAgent_init
                 (agents (start_optimization "6f1c0d1e" scenario_world).1
                    !! "planner")))
    as (a2 & Ha2 & Hsum & _).
  - intros message. apply keeps_planner_dispatch.
  - vm_compute; reflexivity.
  - vm_compute; reflexivity.
  - exists a2. split; [exact Ha2 | exact Hsum].
Defined.

(** ** Statistics *)



(** ** The wire shape and the history *)

Lemma MessageType_value_inj (t1 t2 : MessageType) :
  MessageType_value t1 = MessageType_value t2 -> t1 = t2.
Proof. destruct t1, t2; simpl; intros H; first [reflexivity | discriminate H]. Qed.

(** X11. [to_dict] loses nothing: two messages with the same dictionary
    agree on identifier, sender, recipient, kind, payload and correlation
    id, and their timestamps have the same ISO rendering; so, as that
    rendering tells timestamps apart, they are the same message. *)
Theorem to_dict_is_lossless (isoformat : Z -> string)
    (m1 m2 : AgentMessage) :
  to_dict isoformat m1 = to_dict isoformat m2 ->
  id m1 = id m2 ∧ from_agent m1 = from_agent m2 ∧
  to_agent m1 = to_agent m2 ∧ type m1 = type m2 ∧
  payload m1 = payload m2 ∧ correlation_id m1 = correlation_id m2 ∧
  isoformat (timestamp m1) = isoformat (timestamp m2) ∧
  ((forall t1 t2, isoformat t1 = isoformat t2 -> t1 = t2) -> m1 = m2).
Proof.
  intros H.
  assert (Hk : forall k, to_dict isoformat m1 !! k = to_dict isoformat m2 !! k)
    by (intros k; rewrite H; reflexivity).
  pose proof (Hk "id") as Hid. pose proof (Hk "from") as Hfrom.
  pose proof (Hk "to") as Hto. pose proof (Hk "type") as Hty.
  pose proof (Hk "payload") as Hpl. pose proof (Hk "timestamp") as Hts.
  pose proof (Hk "correlation_id") as Hco.
  change (Some (VStr (id m1)) = Some (VStr (id m2))) in Hid.
  change (Some (VStr (from_agent m1)) = Some (VStr (from_agent m2)))
    in Hfrom.
  change (Some (VStr (to_agent m1)) = Some (VStr (to_agent m2))) in Hto.
  change (Some (VStr (MessageType_value (type m1)))
          = Some (VStr (MessageType_value (type m2)))) in Hty.
  change (Some (VDict (payload m1)) = Some (VDict (payload m2))) in Hpl.
  change (Some (VStr (isoformat (timestamp m1)))
          = Some (VStr (isoformat (timestamp m2)))) in Hts.
  change (Some (correlation_id m1) = Some (correlation_id m2)) in Hco.
  injection Hid as Hid. injection Hfrom as Hfrom. injection Hto as Hto.
  injection Hty as Hty. injection Hpl as Hpl. injection Hts as Hts.
  injection Hco as Hco. apply MessageType_value_inj in Hty.
  repeat (split; [assumption|]).
  intros Hinj. apply Hinj in Hts.
  destruct m1, m2; simpl in *. congruence.
Qed.

Lemma to_dict_is_lossless_witness :
  id sample_message = id sample_message ∧
  payload sample_message = payload sample_message.
Proof.
  destruct (to_dict_is_lossless (fun _ => "2026-01-01T00:00:00")
              sample_message sample_message eq_refl)
    as (Hid & _ & _ & _ & Hpl & _).
  split; [exact Hid | exact Hpl].
Defined.

(** X12. For every integer [limit], [get_message_history] returns the
    dictionaries of a final stretch of the log, oldest first: the last
    [min limit n] entries when [limit] is positive, all [n] entries when
    it is 0, and all but the first [min (-limit) n] when it is
    negative. *)
Theorem history_is_a_final_stretch (isoformat : Z -> string) (limit : Z)
    (w : World) :
  let n := length (message_log w) in
  (0 < limit ->
     get_message_history isoformat limit w
     = to_dict isoformat <$>
         drop (n - Z.to_nat (Z.min limit (Z.of_nat n))) (message_log w)) ∧
  (limit = 0 ->
     get_message_history isoformat limit w
     = to_dict isoformat <$> message_log w) ∧
  (limit < 0 ->
     get_message_history isoformat limit w
     = to_dict isoformat <$>
         drop (Z.to_nat (Z.min (- limit) (Z.of_nat n))) (message_log w)) ∧
  exists k, get_message_history isoformat limit w
            = to_dict isoformat <$> drop k (message_log w).
Proof.
  intros n. split; [|split; [|split]].
  - intros H. apply get_message_history_recent, H.
  - intros ->. unfold get_message_history, py_slice_from.
    change (- 0 <? 0) with false; cbv iota.
    replace (Z.min (- 0) (Z.of_nat (length (message_log w)))) with 0
      by lia.
    reflexivity.
  - intros H. unfold get_message_history, py_slice_from.
    assert (Hpos : (- limit <? 0) = false) by (apply Z.ltb_ge; lia).
    rewrite Hpos. reflexivity.
  - unfold get_message_history, py_slice_from. eexists. reflexivity.
Qed.

(** ** Sending needs the bus *)

Lemma send_message_logs (self recipient : string) (t : MessageType)
    (p : gmap string pyval) (corr : pyval) (w : World) (a : BaseAgent) :
  agents w !! self = Some a ->
  message_bus a = true ->
  exists w' m,
    send_message self recipient t p corr w = (w', Ok tt) ∧
    message_log w' = message_log w ++ [m] ∧
    envelope m (agent_id a) recipient t p corr ∧
    heap w' = heap w ∧ active_goals w' = active_goals w ∧
    (forall B, agents w' !! B
               = (fun b => if addressed m B then receive_message m b else b)
                   <$> agents w !! B).
Proof.
  intros Ha Hbus. unfold send_message.
  rewrite (bind_ok _ _ _ _ _ (self_get_ok _ _ _ _ Ha)). rewrite Hbus; simpl.
  rewrite (bind_ok _ _ _ _ _ (self_get_ok _ _ _ _ Ha)).
  unfold AgentMessage_new, bind at 1 2 3; simpl.
  set (m := {| id := _ |}). set (w0 := set_clock_cursor _ _).
  destruct (MessageBus_send_lookup m w0) as (w' & E & L & Hh & Hg & A).
  exists w', m. split; [exact E|]. split; [exact L|].
  split; [repeat split|]. split; [exact Hh|]. split; [exact Hg|]. exact A.
Qed.

(** X13. An agent whose bus reference is unset cannot send:
    [send_message] and [broadcast_event] raise [RuntimeError] before a
    message is built, so nothing is logged and no identifier is drawn.
    Registering the agent is what enables it: after [register_agent],
    the same [send_message] succeeds and logs exactly the message it
    built, with the agent's identifier as sender. *)
Theorem sending_needs_registration (self recipient event_type : string)
    (t : MessageType) (p d : gmap string pyval) (corr : pyval)
    (w : World) (a : BaseAgent) :
  agents w !! self = Some a ->
  message_bus a = false ->
  send_message self recipient t p corr w
    = (w, Raise (RuntimeError "Message bus not configured")) ∧
  broadcast_event self event_type d w
    = (w, Raise (RuntimeError "Message bus not configured")) ∧
  exists w' m,
    (let* _ := register_agent a in
     send_message (agent_id a) recipient t p corr) w = (w', Ok tt) ∧
    message_log w' = message_log w ++ [m] ∧
    envelope m (agent_id a) recipient t p corr.
Proof.
  intros Ha Hbus.
  assert (Hraise : forall r t0 p0 c0,
             send_message self r t0 p0 c0 w
             = (w, Raise (RuntimeError "Message bus not configured"))).
  { intros. unfold send_message.
    rewrite (bind_ok _ _ _ _ _ (self_get_ok _ _ _ _ Ha)), Hbus.
    reflexivity. }
  split; [apply Hraise|]. split; [apply Hraise|].
  unfold register_agent. rewrite (bind_ok _ _ _ _ _ eq_refl).
  destruct (send_message_logs (agent_id a) recipient t p corr
              (set_agents (<[agent_id a := set_message_bus true a]>) w)
              (set_message_bus true a))
    as (w' & m & E & L & V & _); [apply lookup_insert_eq | reflexivity |].
  exists w', m. split; [exact E|]. split; [exact L | exact V].
Qed.

Lemma sending_needs_registration_witness :
  send_message "critic" "planner" REQUEST ∅ VNone
    (set_agents (<["critic" := CriticAgent_init]>) sample_world)
  = (set_agents (<["critic" := CriticAgent_init]>) sample_world,
     Raise (RuntimeError "Message bus not configured")).
Proof.
  destruct (sending_needs_registration "critic" "planner" "alert" REQUEST
              ∅ ∅ VNone
              (set_agents (<["critic" := CriticAgent_init]>) sample_world)
              CriticAgent_init) as (H & _).
  - vm_compute; reflexivity.
  - reflexivity.
  - exact H.
Defined.

(** X14. An event broadcast by a registered agent reaches every other
    registered agent once, as an [EVENT] from that agent with payload
    [{event, data}] and no correlation id; the broadcaster's own inbox
    does not change. *)
Theorem broadcast_event_reaches_others (self event_type : string)
    (d : gmap string pyval) (w : World) (a : BaseAgent) :
  agents w !! self = Some a ->
  message_bus a = true ->
  agent_id a = self ->
  exists w' m,
    broadcast_event self event_type d w = (w', Ok tt) ∧
    envelope m self "broadcast" EVENT
      {[ "event" := VStr event_type; "data" := VDict d ]} VNone ∧
    message_log w' = message_log w ++ [m] ∧
    agents w' !! self = Some a ∧
    (forall B, B ≠ self ->
       agents w' !! B = receive_message m <$> agents w !! B).
Proof.
  intros Ha Hbus Hid. unfold broadcast_event.
  destruct (send_message_logs self "broadcast" EVENT
              {[ "event" := VStr event_type; "data" := VDict d ]} VNone
              w a Ha Hbus) as (w' & m & E & L & V & _ & _ & A).
  rewrite Hid in V. destruct V as (Vf & Vt & Vty & Vp & Vc).
  exists w', m. split; [exact E|]. split; [repeat split; assumption|].
  split; [exact L|]. split.
  - rewrite A, Ha. simpl. unfold addressed. rewrite Vt, Vf. simpl.
    rewrite String.eqb_refl. reflexivity.
  - intros B HB. rewrite A. unfold addressed. rewrite Vt, Vf. simpl.
    apply String.eqb_neq in HB. rewrite HB. simpl.
    destruct (agents w !! B); reflexivity.
Qed.

Lemma broadcast_event_reaches_others_witness :
  exists w' m,
    broadcast_event "optimizer" "optimization_complete" ∅ demo_world
      = (w', Ok tt) ∧
    type m = EVENT ∧
    agents w' !! "critic"
      = receive_message m <$> agents demo_world !! "critic".
Proof.
  destruct (broadcast_event_reaches_others "optimizer"
              "optimization_complete" ∅ demo_world
              (set_message_bus true OptimizerAgent_init))
    as (w' & m & E & V & _ & _ & A).
  - vm_compute; reflexivity.
  - reflexivity.
  - reflexivity.
  - exists w', m. split; [exact E|]. split; [apply V|].
    apply A. discriminate.
Defined.

(** ** The planner's turns *)

Section PlannerTurns.
Variable vtable : AgentClass -> Handlers.
Hypothesis planner_methods : vtable PlannerAgent = PlannerAgent_methods.

Lemma planner_dispatch_command (self : string) (w : World) (a : BaseAgent)
    (message : AgentMessage) :
  agents w !! self = Some a ->
  cls a = PlannerAgent ->
  type message = COMMAND ->
  dispatch vtable self message w
  = PlannerAgent_handle_command self message w.
Proof.
  intros Ha Hcls Hty. unfold dispatch.
  rewrite (bind_ok _ _ _ _ _ (self_get_ok _ _ _ _ Ha)).
  rewrite Hty, Hcls, planner_methods. reflexivity.
Qed.

(** X15. A start command that lacks the goal, or has it and lacks the
    session id, costs the planner one failed task and nothing else: the
    turn ends normally, no request is sent, no message identifier is
    drawn, the blackboards stay as they were, and the only output is the
    error line naming the missing key. *)
Theorem incomplete_start_command_fails_cleanly (self key : string)
    (w : World) (a : BaseAgent) (message : AgentMessage)
    (rest : list AgentMessage) :
  agents w !! self = Some a ->
  cls a = PlannerAgent ->
  message_queue a = message :: rest ->
  type message = COMMAND ->
  payload message !! "action" = Some (VStr "start_optimization") ->
  (payload message !! "goal" = None ∧ key = "goal") ∨
  (is_Some (payload message !! "goal") ∧
   payload message !! "session_id" = None ∧ key = "session_id") ->
  exists w2,
    loop_iteration vtable self w = Some (w2, Ok tt) ∧
    agents w2
      = <[self := set_tasks_failed (tasks_failed a + 1)
                    (set_status ERROR (set_message_queue rest a))]>
          (agents w) ∧
    message_log w2 = message_log w ∧
    heap w2 = heap w ∧
    uuid_cursor w2 = uuid_cursor w ∧
    stdout w2 = stdout w ++ [[Lit "["; Lit (agent_id a); Lit "] ERROR: ";
                              FmtExn (KeyError key)]].
Proof.
  intros Ha Hcls Hq Hty Hact Hkey.
  set (a0 := set_status WORKING (set_message_queue rest a)).
  assert (Ha0 : agents (at_dispatch self a rest w) !! self = Some a0)
    by apply lookup_insert_eq.
  assert (Hd : dispatch vtable self message (at_dispatch self a rest w)
               = (at_dispatch self a rest w, Raise (KeyError key))).
  { rewrite (planner_dispatch_command self _ a0 message Ha0 Hcls Hty).
    rewrite (PlannerAgent_handle_command_start _ _ _ Hact).
    unfold decompose_and_delegate, dict_getitem.
    destruct Hkey as [(Hg & ->)|((g & Hg) & Hs & ->)].
    - rewrite Hg. reflexivity.
    - rewrite Hg, Hs. reflexivity. }
  eexists. split.
  { exact (loop_iteration_raise vtable self w _ a a0 message rest _
             Ha Hq Hd Ha0). }
  split; [simpl; apply insert_insert_eq|].
  repeat split.
Qed.

(** X16. Whatever else reaches the planner is consumed without effect:
    for a request, an event, or a command whose action is not
    ["start_optimization"], the turn ends normally and is counted as a
    completed task, while nothing is sent or printed and the blackboards
    stay as they were. *)
Theorem planner_drops_other_messages (self : string) (w : World)
    (a : BaseAgent) (message : AgentMessage) (rest : list AgentMessage) :
  agents w !! self = Some a ->
  cls a = PlannerAgent ->
  message_queue a = message :: rest ->
  type message = REQUEST ∨ type message = EVENT ∨
  (type message = COMMAND ∧
   payload message !! "action" ≠ Some (VStr "start_optimization")) ->
  exists w2 a2,
    loop_iteration vtable self w = Some (w2, Ok tt) ∧
    agents w2 !! self = Some a2 ∧
    message_queue a2 = rest ∧ status a2 = IDLE ∧
    tasks_completed a2 = tasks_completed a + 1 ∧
    tasks_failed a2 = tasks_failed a ∧
    (forall B, B ≠ self -> agents w2 !! B = agents w !! B) ∧
    message_log w2 = message_log w ∧ heap w2 = heap w ∧
    stdout w2 = stdout w.
Proof.
  intros Ha Hcls Hq Hty.
  set (a0 := set_status WORKING (set_message_queue rest a)).
  assert (Ha0 : agents (at_dispatch self a rest w) !! self = Some a0)
    by apply lookup_insert_eq.
  assert (Hd : dispatch vtable self message (at_dispatch self a rest w)
               = (at_dispatch self a rest w, Ok tt)).
  { unfold dispatch.
    rewrite (bind_ok _ _ _ _ _ (self_get_ok _ _ _ _ Ha0)).
    change (cls a0) with (cls a). rewrite Hcls, planner_methods.
    destruct Hty as [->|[->|[-> Hact]]]; [reflexivity..|].
    simpl. unfold PlannerAgent_handle_command.
    destruct (payload message !! "action") as [v|] eqn:Hv; [|reflexivity].
    destruct v as [| | | |s| |]; try reflexivity.
    simpl. destruct (String.eqb_spec s "start_optimization") as [->|Hs];
      [congruence | reflexivity]. }
  eexists _, _.
  split; [exact (loop_iteration_returns vtable self w _ a a0 message rest
                   Ha Hq Hd Ha0)|].
  split; [apply agents_set_agents_self|].
  do 4 (split; [reflexivity|]).
  split.
  { intros B HB. simpl.
    rewrite !lookup_insert_ne by congruence. reflexivity. }
  repeat split.
Qed.
End PlannerTurns.

Lemma incomplete_start_command_fails_cleanly_witness :
  exists w2 a2,
    loop_iteration planner_vtable "planner" faulty_world
      = Some (w2, Ok tt) ∧
    message_log w2 = message_log faulty_world ∧
    agents w2 !! "planner" = Some a2 ∧ tasks_failed a2 = 1.
Proof.
  destruct (incomplete_start_command_fails_cleanly planner_vtable eq_refl
              "planner" "goal" faulty_world
              (default PlannerAgent_init (agents faulty_world !! "planner"))
              faulty_command [])
    as (w2 & E & A & L & _).
  - vm_compute; reflexivity.
  - reflexivity.
  - vm_compute; reflexivity.
  - reflexivity.
  - reflexivity.
  - left. split; reflexivity.
  - eexists w2, _. split; [exact E|]. split; [exact L|].
    rewrite A. split; [apply lookup_insert_eq | reflexivity].
Defined.

Lemma planner_drops_other_messages_witness :
  exists w2 a2,
    loop_iteration planner_vtable "planner"
      (MessageBus_send stray_request demo_world).1 = Some (w2, Ok tt) ∧
    agents w2 !! "planner" = Some a2 ∧ tasks_completed a2 = 1.
Proof.
  destruct (planner_drops_other_messages planner_vtable eq_refl
              "planner" (MessageBus_send stray_request demo_world).1
              (default PlannerAgent_init
                 (agents (MessageBus_send stray_request demo_world).1
                    !! "planner"))
              stray_request [])
    as (w2 & a2 & E & A & _ & _ & C & _).
  - vm_compute; reflexivity.
  - reflexivity.
  - vm_compute; reflexivity.
  - left. reflexivity.
  - exists w2, a2. split; [exact E|]. split; [exact A | exact C].
Defined.

(** ** From the goal to the consolidated request *)

Lemma append_length (s t : string) :
  String.length (s +:+ t) = (String.length s + String.length t)%nat.
Proof.
  induction s as [|a s IH]; simpl; [reflexivity | rewrite IH; reflexivity].
Qed.

Lemma append_inj_r (s x y : string) : x +:+ s = y +:+ s -> x = y.
Proof.
  revert y. induction x as [|a x IH]; intros [|b y] H; simpl in H.
  - reflexivity.
  - exfalso. apply (f_equal String.length) in H.
    rewrite !append_length in H. simpl in H. lia.
  - exfalso. apply (f_equal String.length) in H.
    rewrite !append_length in H. simpl in H. lia.
  - injection H as -> H. f_equal. apply IH, H.
Qed.

Lemma deliver_cons (B : string) (m : AgentMessage)
    (ms : list AgentMessage) (b : BaseAgent) :
  set_message_queue
    (message_queue b ++ filter (λ m, addressed m B = true) (m :: ms)) b
  = (fun b' => set_message_queue
                 (message_queue b'
                  ++ filter (λ m, addressed m B = true) ms) b')
      (if addressed m B then receive_message m b else b).
Proof.
  destruct (addressed m B) eqn:Had.
  - rewrite filter_cons_True by exact Had. destruct b; simpl.
    rewrite <- app_assoc. reflexivity.
  - rewrite filter_cons_False by congruence. reflexivity.
Qed.

Lemma start_optimization_sends (sid : string) (l0 : loc)
    (c0 : AgentContext) (w : World) :
  active_goals w !! sid = Some l0 ->
  heap w !! l0 = Some c0 ->
  exists w1 cmd,
    start_optimization sid w = (w1, Ok tt) ∧
    message_log w1 = message_log w ++ [cmd] ∧
    envelope cmd "orchestrator" "planner" COMMAND
      {[ "action" := VStr "start_optimization";
         "session_id" := VStr sid;
         "goal" := VStr (goal c0) ]} VNone ∧
    heap w1 = heap w ∧ active_goals w1 = active_goals w ∧
    (forall B, agents w1 !! B
               = (fun b => if addressed cmd B then receive_message cmd b
                           else b) <$> agents w !! B).
Proof.
  intros Hg Hc. unfold start_optimization.
  rewrite (bind_ok _ _ _ _ _ eq_refl), Hg.
  rewrite (bind_ok _ _ _ _ _ (context_field_ok _ _ _ _ Hc)).
  unfold AgentMessage_new, bind at 1 2 3; simpl.
  set (m := {| id := _ |}). set (w0 := set_clock_cursor _ _).
  destruct (MessageBus_send_lookup m w0) as (w' & E & L & Hh & Ha & A).
  exists w', m. split; [exact E|]. split; [exact L|].
  split; [repeat split|]. split; [exact Hh|]. split; [exact Ha | exact A].
Qed.

Lemma decompose_and_delegate_run (self : string)
    (payload_ : gmap string pyval) (goal_ sid : pyval) (w : World)
    (a : BaseAgent) (l : loc) (c : AgentContext) :
  payload_ !! "goal" = Some goal_ ->
  payload_ !! "session_id" = Some sid ->
  agents w !! self = Some a ->
  message_bus a = true ->
  context a = Some l ->
  heap w !! l = Some c ->
  exists w' r1 r2 r3,
    decompose_and_delegate self payload_ w = (w', Ok tt) ∧
    message_log w' = message_log w ++ [r1; r2; r3] ∧
    fan_out (agent_id a) sid r1 r2 r3 ∧
    active_goals w' = active_goals w ∧
    heap w'
      = <[l := AgentContext_set "pending_responses"
                 (VList (VStr <$> responders))
                 (AgentContext_set "planning_status"
                    (VStr "waiting_for_data") c)]> (heap w) ∧
    (forall B, agents w' !! B
               = (fun b => set_message_queue
                             (message_queue b
                              ++ filter (λ m, addressed m B = true)
                                   [r1; r2; r3]) b)
                   <$> agents w !! B).
Proof.
  intros Hg Hs Ha Hbus Hl Hc. unfold decompose_and_delegate, dict_getitem.
  rewrite Hg, Hs.
  rewrite (bind_ok _ _ _ _ _ eq_refl), (bind_ok _ _ _ _ _ eq_refl).
  rewrite (bind_ok _ _ _ _ _ (print_ok _ _)).
  rewrite (bind_ok _ _ _ _ _ (print_ok _ _)).
  set (w0 := set_stdout _ (set_stdout _ w)).
  assert (Ha0 : agents w0 !! self = Some a) by exact Ha.
  destruct (send_message_logs self "weather" REQUEST
              {[ "action" := VStr "get_forecast"; "origin" := VStr "PTY";
                 "destination" := VStr "BOG";
                 "time_range" := VStr "next_24_hours" ]} sid w0 a Ha0 Hbus)
    as (w1 & r1 & E1 & L1 & V1 & H1 & G1 & A1).
  rewrite (bind_ok _ _ _ _ _ E1).
  set (a1 := if addressed r1 self then receive_message r1 a else a).
  assert (Ha1 : agents w1 !! self = Some a1) by (rewrite A1, Ha0; reflexivity).
  assert (F1 : message_bus a1 = true ∧ agent_id a1 = agent_id a ∧
               context a1 = Some l)
    by (unfold a1; destruct (addressed r1 self); simpl; auto).
  destruct F1 as (Hbus1 & Hid1 & Hl1).
  destruct (send_message_logs self "fuel" REQUEST
              {[ "action" := VStr "get_fuel_analysis";
                 "origin" := VStr "PTY"; "destination" := VStr "BOG" ]}
              sid w1 a1 Ha1 Hbus1)
    as (w2 & r2 & E2 & L2 & V2 & H2 & G2 & A2).
  rewrite (bind_ok _ _ _ _ _ E2).
  set (a2 := if addressed r2 self then receive_message r2 a1 else a1).
  assert (Ha2 : agents w2 !! self = Some a2) by (rewrite A2, Ha1; reflexivity).
  assert (F2 : message_bus a2 = true ∧ agent_id a2 = agent_id a ∧
               context a2 = Some l)
    by (unfold a2; destruct (addressed r2 self); simpl; auto).
  destruct F2 as (Hbus2 & Hid2 & Hl2).
  destruct (send_message_logs self "network" REQUEST
              {[ "action" := VStr "check_constraints";
                 "route" := VStr "PTY-BOG" ]}
              sid w2 a2 Ha2 Hbus2)
    as (w3 & r3 & E3 & L3 & V3 & H3 & G3 & A3).
  rewrite (bind_ok _ _ _ _ _ E3).
  set (a3 := if addressed r3 self then receive_message r3 a2 else a2).
  assert (Ha3 : agents w3 !! self = Some a3) by (rewrite A3, Ha2; reflexivity).
  assert (Hl3 : context a3 = Some l)
    by (unfold a3; destruct (addressed r3 self); simpl; auto).
  rewrite (bind_ok _ _ _ _ _ (self_get_ok _ _ _ _ Ha3)), Hl3.
  assert (Hc3 : heap w3 !! l = Some c) by (rewrite H3, H2, H1; exact Hc).
  rewrite (bind_ok _ _ _ _ _ (context_set_ok _ _ _ _ _ Hc3)).
  rewrite (context_set_ok _ _ _ _
             (AgentContext_set "planning_status" (VStr "waiting_for_data") c))
    by (simpl; apply lookup_insert_eq).
  rewrite Hid1 in V2. rewrite Hid2 in V3.
  eexists. exists r1, r2, r3. split; [reflexivity|]. simpl.
  split; [rewrite L3, L2, L1, <- !app_assoc; reflexivity|].
  split; [repeat split; first [apply V1 | apply V2 | apply V3]|].
  split; [rewrite G3, G2, G1; reflexivity|].
  split; [rewrite insert_insert_eq, H3, H2, H1; reflexivity|].
  intros B. rewrite A3, A2, A1.
  change (agents w0 !! B) with (agents w !! B).
  destruct (agents w !! B) as [b|]; [simpl|reflexivity]. f_equal.
  rewrite !deliver_cons. rewrite filter_nil, app_nil_r.
  destruct (if addressed r3 B then _ else _); reflexivity.
Qed.

Lemma gathering_update (self : string) (l : loc) (sender sid : string)
    (P : list string) (st : string) (w w' : World) (a a' : BaseAgent) :
  gathering self l sender sid P st w ->
  agents w !! self = Some a ->
  agents w' !! self = Some a' ->
  context a' = context a ->
  message_bus a' = message_bus a ->
  agent_id a' = agent_id a ->
  heap w' = heap w ->
  gathering self l sender sid P st w'.
Proof.
  intros (a0 & c & Ha0 & Hl & Hbus & Hid & Hc & Hsid & Hp & Hs)
         Ha Ha' E1 E2 E3 Hh.
  rewrite Ha in Ha0. injection Ha0 as <-.
  exists a', c. rewrite Hh, E1, E2, E3. repeat split; assumption.
Qed.

Lemma record_response_identity (m : AgentMessage) (rest : list string)
    (c : AgentContext) :
  session_id (record_response m rest c) = session_id c ∧
  goal (record_response m rest c) = goal c.
Proof. destruct rest; split; reflexivity. Qed.

(** The blackboard after a response from a pending sender. *)
Lemma handle_response_heap (self : string) (l : loc)
    (sender sid : string) (P : list string) (w : World)
    (m : AgentMessage) (c : AgentContext) :
  gathering self l sender sid P "waiting_for_data" w ->
  heap w !! l = Some c ->
  NoDup P ->
  from_agent m ∈ P ->
  exists w',
    PlannerAgent_handle_response self m w = (w', Ok tt) ∧
    heap w'
      = <[l := record_response m (filter (λ y, y ≠ from_agent m) P) c]>
          (heap w) ∧
    active_goals w' = active_goals w.
Proof.
  intros (a & c0 & Ha & Hl & Hbus & Hid & Hc0 & Hsid & Hp & Hs) Hc Hnd Hm.
  rewrite Hc in Hc0. injection Hc0 as <-.
  destruct (data_key_fresh (from_agent m)) as [Hk1 Hk2].
  unfold PlannerAgent_handle_response.
  rewrite (bind_ok _ _ _ _ _ (self_get_ok _ _ _ _ Ha)), Hl.
  rewrite (bind_ok _ _ _ _ _ (context_get_some _ _ _ _ _ _ Hc Hp)).
  rewrite (bind_ok _ _ _ _ _ (py_in_strs _ _ _)).
  rewrite bool_decide_eq_true_2 by exact Hm.
  set (P' := filter (λ y, y ≠ from_agent m) P).
  set (c1 := AgentContext_set "pending_responses" (VList (VStr <$> P')) c).
  set (c2 := AgentContext_set (from_agent m +:+ "_data")
                (VDict (payload m)) c1).
  set (w3 := set_stdout
               (fun out => out ++ [[Lit "[Planner] Received data from ";
                                    Lit (from_agent m)]])
               (set_heap (<[l := c2]>) (set_heap (<[l := c1]>) w))).
  assert (Hrec :
    (let* pending' := py_remove (VList (VStr <$> P)) (from_agent m) in
     let* _ := context_set l "pending_responses" pending' in
     let* _ := context_set l (from_agent m +:+ "_data")
                 (VDict (payload m)) in
     let* _ := print [Lit "[Planner] Received data from ";
                      Lit (from_agent m)] in
     ret pending') w = (w3, Ok (VList (VStr <$> P')))).
  { rewrite (bind_ok _ _ _ _ _ (py_remove_strs _ _ _ Hnd)).
    rewrite (bind_ok _ _ _ _ _ (context_set_ok _ _ _ _ _ Hc)).
    erewrite bind_ok
      by (apply context_set_ok; simpl; apply lookup_insert_eq).
    reflexivity. }
  rewrite (bind_ok _ _ _ _ _ Hrec).
  rewrite (bind_ok _ _ _ _ _ (py_len_strs _ _)).
  assert (Ha3 : agents w3 !! self = Some a) by exact Ha.
  assert (Hc3 : heap w3 !! l = Some c2) by (simpl; apply lookup_insert_eq).
  assert (Hs3 : data c2 !! "planning_status"
                = Some (VStr "waiting_for_data")).
  { simpl. rewrite lookup_insert_ne by exact Hk2.
    rewrite lookup_insert_ne by discriminate. exact Hs. }
  assert (Hh3 : heap w3 = <[l := c2]> (heap w))
    by (simpl; apply insert_insert_eq).
  unfold record_response. fold c1. fold c2.
  destruct P' as [|y P''] eqn:HP'.
  - change (Z.of_nat (length (@nil string)) =? 0) with true. cbv iota.
    rewrite (bind_ok _ _ _ _ _ (context_get_some _ _ _ _ _ _ Hc3 Hs3)).
    change (py_eq_str (VStr "waiting_for_data") "waiting_for_data")
      with true. cbv iota.
    unfold trigger_optimization.
    rewrite (bind_ok _ _ _ _ _ (print_ok _ _)).
    set (w4 := set_stdout _ w3).
    assert (Ha4 : agents w4 !! self = Some a) by exact Ha.
    assert (Hc4 : heap w4 !! l = Some c2) by exact Hc3.
    rewrite (bind_ok _ _ _ _ _ (self_get_ok _ _ _ _ Ha4)), Hl.
    rewrite (bind_ok _ _ _ _ _ (context_get_ok _ _ _ _ _ Hc4)).
    rewrite (bind_ok _ _ _ _ _ (context_get_ok _ _ _ _ _ Hc4)).
    rewrite (bind_ok _ _ _ _ _ (context_get_ok _ _ _ _ _ Hc4)).
    rewrite (bind_ok _ _ _ _ _ (context_field_ok _ _ _ _ Hc4)).
    destruct (send_message_logs self "optimizer" REQUEST
                {[ "action" := VStr "optimize_route";
                   "weather_data" := AgentContext_get "weather_data" VNone c2;
                   "fuel_data" := AgentContext_get "fuel_data" VNone c2;
                   "network_data" :=
                     AgentContext_get "network_data" VNone c2 ]}
                (VStr (session_id c2)) w4 a Ha4 Hbus)
      as (w5 & req & E5 & L5 & V5 & H5 & G5 & A5).
    rewrite (bind_ok _ _ _ _ _ E5).
    assert (Ha5 : agents w5 !! self
                  = Some (if addressed req self
                          then receive_message req a else a))
      by (rewrite A5, Ha4; reflexivity).
    rewrite (bind_ok _ _ _ _ _ (self_get_ok _ _ _ _ Ha5)).
    assert (Hl5 : context (if addressed req self
                           then receive_message req a else a) = Some l)
      by (destruct (addressed req self); exact Hl).
    rewrite Hl5.
    assert (Hc5 : heap w5 !! l = Some c2) by (rewrite H5; exact Hc4).
    rewrite (context_set_ok _ _ _ _ _ Hc5).
    eexists. split; [reflexivity|]. simpl. split; [|exact G5].
    rewrite H5. change (heap w4) with (heap w3). rewrite Hh3.
    apply insert_insert_eq.
  - change (Z.of_nat (length (y :: P'')) =? 0) with false. cbv iota.
    exists w3. split; [reflexivity|]. split; [exact Hh3 | reflexivity].
Qed.

Lemma consolidated_frame (req : AgentMessage) (sender sid : string)
    (c c' : AgentContext) :
  (forall k, k ≠ "pending_responses" -> k ≠ "planning_status" ->
     data c' !! k = data c !! k) ->
  consolidated req sender sid c -> consolidated req sender sid c'.
Proof.
  intros H V. unfold consolidated, AgentContext_get in *.
  rewrite !H by discriminate. exact V.
Qed.

Lemma first_from_here (m : AgentMessage) (ms : list AgentMessage) :
  first_from (from_agent m) (m :: ms) = Some m.
Proof. unfold first_from. rewrite filter_cons_True by reflexivity. reflexivity. Qed.

Lemma first_from_later (x : string) (m : AgentMessage)
    (ms : list AgentMessage) :
  from_agent m ≠ x -> first_from x (m :: ms) = first_from x ms.
Proof.
  intros H. unfold first_from. rewrite filter_cons_False by exact H.
  reflexivity.
Qed.

Section Gathering.
Variable vtable : AgentClass -> Handlers.
Hypothesis planner_methods : vtable PlannerAgent = PlannerAgent_methods.

Lemma process_messages_step (fuel : nat) (self : string) (w w2 : World) :
  loop_iteration vtable self w = Some (w2, Ok tt) ->
  process_messages vtable (S fuel) self w
  = process_messages vtable fuel self w2.
Proof. intros H. simpl. rewrite H. reflexivity. Qed.

(** The planner's turn on a start command. *)
Lemma planner_turn_fans_out (self : string) (w : World) (a : BaseAgent)
    (cmd : AgentMessage) (rest : list AgentMessage) (goal_ sid : pyval)
    (l : loc) (c : AgentContext) :
  agents w !! self = Some a ->
  cls a = PlannerAgent ->
  message_queue a = cmd :: rest ->
  type cmd = COMMAND ->
  payload cmd !! "action" = Some (VStr "start_optimization") ->
  payload cmd !! "goal" = Some goal_ ->
  payload cmd !! "session_id" = Some sid ->
  message_bus a = true ->
  context a = Some l ->
  heap w !! l = Some c ->
  exists w2 a2 r1 r2 r3,
    loop_iteration vtable self w = Some (w2, Ok tt) ∧
    message_log w2 = message_log w ++ [r1; r2; r3] ∧
    fan_out (agent_id a) sid r1 r2 r3 ∧
    active_goals w2 = active_goals w ∧
    heap w2
      = <[l := AgentContext_set "pending_responses"
                 (VList (VStr <$> responders))
                 (AgentContext_set "planning_status"
                    (VStr "waiting_for_data") c)]> (heap w) ∧
    agents w2 !! self = Some a2 ∧ cls a2 = PlannerAgent ∧
    message_queue a2
      = rest ++ filter (λ m, addressed m self = true) [r1; r2; r3] ∧
    tasks_completed a2 = tasks_completed a + 1 ∧
    tasks_failed a2 = tasks_failed a ∧
    (forall B, B ≠ self ->
       agents w2 !! B
       = (fun b => set_message_queue
                     (message_queue b
                      ++ filter (λ m, addressed m B = true) [r1; r2; r3]) b)
           <$> agents w !! B) ∧
    gathering self l (agent_id a) (session_id c) responders
      "waiting_for_data" w2.
Proof.
  intros Ha Hcls Hq Hty Hact Hg Hs Hbus Hl Hc.
  set (a0 := set_status WORKING (set_message_queue rest a)).
  set (w0 := at_dispatch self a rest w).
  assert (Ha0 : agents w0 !! self = Some a0) by apply lookup_insert_eq.
  destruct (decompose_and_delegate_run self (payload cmd) goal_ sid w0 a0
              l c Hg Hs Ha0 Hbus Hl Hc)
    as (w1 & r1 & r2 & r3 & E1 & L1 & V1 & G1 & H1 & A1).
  assert (Hd : dispatch vtable self cmd w0 = (w1, Ok tt)).
  { unfold dispatch.
    rewrite (bind_ok _ _ _ _ _ (self_get_ok _ _ _ _ Ha0)).
    change (cls a0) with (cls a). rewrite Hcls, planner_methods, Hty.
    simpl. rewrite (PlannerAgent_handle_command_start _ _ _ Hact).
    exact E1. }
  pose proof (A1 self) as Ha1. rewrite Ha0 in Ha1. simpl in Ha1.
  eexists _, _, r1, r2, r3.
  split; [exact (loop_iteration_returns vtable self w w1 a _ cmd rest
                   Ha Hq Hd Ha1)|].
  split; [exact L1|]. split; [exact V1|]. split; [exact G1|].
  split; [exact H1|].
  split; [apply agents_set_agents_self|].
  split; [exact Hcls|]. split; [reflexivity|]. split; [reflexivity|].
  split; [reflexivity|].
  split.
  { intros B HB. simpl. rewrite lookup_insert_ne by congruence.
    rewrite A1. unfold w0, at_dispatch. simpl.
    rewrite lookup_insert_ne by congruence. reflexivity. }
  eexists _, _. split; [apply agents_set_agents_self|].
  split; [exact Hl|]. split; [exact Hbus|]. split; [reflexivity|].
  split; [simpl; rewrite H1; apply lookup_insert_eq|].
  split; [reflexivity|]. split; [simpl; apply lookup_insert_eq|].
  simpl. rewrite lookup_insert_ne by discriminate. apply lookup_insert_eq.
Qed.

(** One turn of the planner on a response, before or after the advance. *)
Lemma planner_response_turn (self : string) (l : loc)
    (sender sid : string) (P : list string) (st : string) (w : World)
    (a : BaseAgent) (m : AgentMessage) (rest : list AgentMessage)
    (c : AgentContext) :
  gathering self l sender sid P st w ->
  (P ≠ [] ∧ st = "waiting_for_data") ∨ (P = [] ∧ st = "optimizing") ->
  NoDup P ->
  heap w !! l = Some c ->
  agents w !! self = Some a ->
  cls a = PlannerAgent ->
  message_queue a = m :: rest ->
  type m = RESPONSE ->
  self ≠ "optimizer" ->
  exists w2 a2,
    loop_iteration vtable self w = Some (w2, Ok tt) ∧
    agents w2 !! self = Some a2 ∧ cls a2 = PlannerAgent ∧
    message_queue a2 = rest ∧
    tasks_completed a2 = tasks_completed a + 1 ∧
    tasks_failed a2 = tasks_failed a ∧
    active_goals w2 = active_goals w ∧
    (((from_agent m ∉ P) ∧ heap w2 = heap w ∧
      message_log w2 = message_log w ∧
      (forall B, B ≠ self -> agents w2 !! B = agents w !! B) ∧
      gathering self l sender sid P st w2) ∨
     (from_agent m ∈ P ∧ st = "waiting_for_data" ∧
      heap w2
        = <[l := record_response m
                   (filter (λ y, y ≠ from_agent m) P) c]> (heap w) ∧
      ((filter (λ y, y ≠ from_agent m) P ≠ [] ∧
        message_log w2 = message_log w ∧
        (forall B, B ≠ self -> agents w2 !! B = agents w !! B) ∧
        gathering self l sender sid (filter (λ y, y ≠ from_agent m) P)
          "waiting_for_data" w2) ∨
       (filter (λ y, y ≠ from_agent m) P = [] ∧
        exists req,
          message_log w2 = message_log w ++ [req] ∧
          consolidated req sender sid (record_response m [] c) ∧
          agents w2 !! "optimizer"
            = receive_message req <$> agents w !! "optimizer" ∧
          (forall B, B ≠ self -> B ≠ "optimizer" ->
             agents w2 !! B = agents w !! B) ∧
          gathering self l sender sid [] "optimizing" w2)))).
Proof.
  intros G Hph Hnd Hc Ha Hcls Hq Hty Hself.
  set (a0 := set_status WORKING (set_message_queue rest a)).
  set (w0 := at_dispatch self a rest w).
  assert (Ha0 : agents w0 !! self = Some a0) by apply lookup_insert_eq.
  assert (Hoth0 : forall B, B ≠ self -> agents w0 !! B = agents w !! B).
  { intros B HB. unfold w0, at_dispatch. simpl.
    apply lookup_insert_ne. congruence. }
  assert (G0 : gathering self l sender sid P st w0)
    by (apply (gathering_update self l sender sid P st w w0 a a0 G Ha Ha0);
        reflexivity).
  assert (Hc0 : heap w0 !! l = Some c) by exact Hc.
  assert (Hd : dispatch vtable self m w0
               = PlannerAgent_handle_response self m w0).
  { unfold dispatch.
    rewrite (bind_ok _ _ _ _ _ (self_get_ok _ _ _ _ Ha0)).
    change (cls a0) with (cls a). rewrite Hcls, planner_methods, Hty.
    reflexivity. }
  assert (Hturn : forall w1,
            PlannerAgent_handle_response self m w0 = (w1, Ok tt) ->
            agents w1 !! self = Some a0 ->
            exists w2 a2,
              loop_iteration vtable self w = Some (w2, Ok tt) ∧
              agents w2 !! self = Some a2 ∧ cls a2 = PlannerAgent ∧
              message_queue a2 = rest ∧
              tasks_completed a2 = tasks_completed a + 1 ∧
              tasks_failed a2 = tasks_failed a ∧
              context a2 = context a0 ∧ message_bus a2 = message_bus a0 ∧
              agent_id a2 = agent_id a0 ∧
              heap w2 = heap w1 ∧ message_log w2 = message_log w1 ∧
              active_goals w2 = active_goals w1 ∧
              (forall B, B ≠ self -> agents w2 !! B = agents w1 !! B)).
  { intros w1 E1 Ha1. rewrite <- Hd in E1.
    eexists _, _.
    split; [exact (loop_iteration_returns vtable self w w1 a a0 m rest
                     Ha Hq E1 Ha1)|].
    split; [apply agents_set_agents_self|].
    split; [exact Hcls|]. do 9 (split; [reflexivity|]).
    intros B HB. simpl. apply lookup_insert_ne. congruence. }
  destruct (decide (from_agent m ∈ P)) as [Hin|Hout].
  - assert (Hst : st = "waiting_for_data").
    { destruct Hph as [[_ ->]|[-> _]]; [reflexivity|].
      exfalso. exact (not_elem_of_nil _ Hin). }
    subst st.
    destruct (handle_response_recorded self l sender sid P w0 m G0 Hnd Hin)
      as (w1 & E1 & Hmore & Hlast).
    destruct (handle_response_heap self l sender sid P w0 m c G0 Hc0
                Hnd Hin) as (w1' & E1' & Hh1 & Hg1).
    rewrite E1 in E1'. injection E1' as <-.
    destruct (filter (λ y, y ≠ from_agent m) P) as [|y P'] eqn:HP'.
    + destruct (Hlast eq_refl) as (req & c' & (L & T & O) & Hc' & V & G1).
      assert (Hto : to_agent req = "optimizer") by apply V.
      rewrite Hto in T, O.
      assert (Ha1 : agents w1 !! self = Some a0)
        by (rewrite O by exact Hself; exact Ha0).
      destruct (Hturn w1 E1 Ha1)
        as (w2 & a2 & E2 & Ha2 & Hc2 & Hq2 & Htc & Htf & X1 & X2 & X3
            & Hh2 & L2 & G2 & O2).
      exists w2, a2. do 6 (split; [assumption|]).
      split; [rewrite G2; exact Hg1|].
      right. split; [exact Hin|]. split; [reflexivity|].
      split; [rewrite Hh2; exact Hh1|].
      right. split; [reflexivity|]. exists req.
      split; [rewrite L2; exact L|].
      split.
      { rewrite Hh1 in Hc'. rewrite lookup_insert_eq in Hc'.
        injection Hc' as <-. exact V. }
      split.
      { rewrite O2 by congruence. rewrite T.
        rewrite Hoth0 by congruence. reflexivity. }
      split.
      { intros B HB HB'. rewrite O2 by exact HB.
        rewrite O by exact HB'. apply Hoth0, HB. }
      apply (gathering_update self l sender sid [] "optimizing" w1 w2 a0 a2
               G1 Ha1 Ha2 X1 X2 X3 Hh2).
    + destruct Hmore as ((L & A) & G1); [discriminate|].
      assert (Ha1 : agents w1 !! self = Some a0) by (rewrite A; exact Ha0).
      destruct (Hturn w1 E1 Ha1)
        as (w2 & a2 & E2 & Ha2 & Hc2 & Hq2 & Htc & Htf & X1 & X2 & X3
            & Hh2 & L2 & G2 & O2).
      exists w2, a2. do 6 (split; [assumption|]).
      split; [rewrite G2; exact Hg1|].
      right. split; [exact Hin|]. split; [reflexivity|].
      split; [rewrite Hh2; exact Hh1|].
      left. split; [discriminate|].
      split; [rewrite L2; exact L|].
      split.
      { intros B HB. rewrite O2 by exact HB. rewrite A. apply Hoth0, HB. }
      apply (gathering_update self l sender sid (y :: P')
               "waiting_for_data" w1 w2 a0 a2 G1 Ha1 Ha2 X1 X2 X3 Hh2).
  - assert (E1 : PlannerAgent_handle_response self m w0 = (w0, Ok tt)).
    { eapply handle_response_ignored; [exact G0 | exact Hout |].
      destruct Hph as [[H _]|[_ ->]]; [left; exact H | right; discriminate]. }
    destruct (Hturn w0 E1 Ha0)
      as (w2 & a2 & E2 & Ha2 & Hc2 & Hq2 & Htc & Htf & X1 & X2 & X3
          & Hh2 & L2 & G2 & O2).
    exists w2, a2. do 6 (split; [assumption|]).
    split; [rewrite G2; reflexivity|].
    left. split; [exact Hout|]. split; [rewrite Hh2; reflexivity|].
    split; [rewrite L2; reflexivity|].
    split.
    { intros B HB. rewrite O2 by exact HB. apply Hoth0, HB. }
    apply (gathering_update self l sender sid P st w0 w2 a0 a2
             G0 Ha0 Ha2 X1 X2 X3 Hh2).
Qed.

(** The planner's loop on an inbox of responses: the run ends suspended
    on the empty inbox, every response counted as a completed task. *)
Lemma planner_gathers (self : string) (l : loc) (sender sid : string)
    (msgs : list AgentMessage) :
  self ≠ "optimizer" ->
  forall (P : list string) (st : string) (w : World) (a : BaseAgent)
         (c : AgentContext),
    gathering self l sender sid P st w ->
    (P ≠ [] ∧ st = "waiting_for_data") ∨ (P = [] ∧ st = "optimizing") ->
    NoDup P ->
    heap w !! l = Some c ->
    agents w !! self = Some a ->
    cls a = PlannerAgent ->
    message_queue a = msgs ->
    Forall (λ m, type m = RESPONSE) msgs ->
    exists w' a' c',
      process_messages vtable (S (length msgs)) self w = (w', Suspended) ∧
      agents w' !! self = Some a' ∧ message_queue a' = [] ∧
      tasks_completed a' = tasks_completed a + Z.of_nat (length msgs) ∧
      tasks_failed a' = tasks_failed a ∧
      active_goals w' = active_goals w ∧
      heap w' = <[l := c']> (heap w) ∧
      session_id c' = session_id c ∧ goal c' = goal c ∧
      (forall x mx, x ∈ P -> first_from x msgs = Some mx ->
         data c' !! (x +:+ "_data") = Some (VDict (payload mx))) ∧
      (forall k, k ≠ "pending_responses" -> k ≠ "planning_status" ->
         (forall x, x ∈ P -> x ∈ from_agent <$> msgs ->
            k ≠ x +:+ "_data") ->
         data c' !! k = data c !! k) ∧
      ((P ≠ [] ∧ covered P msgs ∧
        exists req,
          message_log w' = message_log w ++ [req] ∧
          consolidated req sender sid c' ∧
          agents w' !! "optimizer"
            = receive_message req <$> agents w !! "optimizer" ∧
          (forall B, B ≠ self -> B ≠ "optimizer" ->
             agents w' !! B = agents w !! B) ∧
          gathering self l sender sid [] "optimizing" w') ∨
       ((P = [] ∨ ¬ covered P msgs) ∧
        message_log w' = message_log w ∧
        (forall B, B ≠ self -> agents w' !! B = agents w !! B) ∧
        gathering self l sender sid
          (filter (λ x, x ∉ from_agent <$> msgs) P) st w')).
Proof.
  intros Hself. induction msgs as [|m ms IH];
    intros P st w a c G Hph Hnd Hc Ha Hcls Hq Hall.
  - exists w, a, c.
    split; [simpl; unfold loop_iteration; rewrite Ha, Hq; reflexivity|].
    split; [exact Ha|]. split; [exact Hq|]. split; [simpl; lia|].
    split; [reflexivity|]. split; [reflexivity|].
    split; [symmetry; apply insert_id, Hc|].
    split; [reflexivity|]. split; [reflexivity|].
    split; [intros x mx _ H; discriminate H|].
    split; [reflexivity|].
    right. split.
    { destruct P as [|y P]; [left; reflexivity|right].
      intros Hcov. apply Forall_cons in Hcov as [Hy _].
      exact (not_elem_of_nil y Hy). }
    split; [reflexivity|]. split; [reflexivity|].
    rewrite filter_all_id; [exact G|]. intros x _. apply not_elem_of_nil.
  - apply Forall_cons in Hall as [Hty Hall].
    destruct (planner_response_turn self l sender sid P st w a m ms c
                G Hph Hnd Hc Ha Hcls Hq Hty Hself)
      as (w2 & a2 & E2 & Ha2 & Hcls2 & Hq2 & Htc2 & Htf2 & Hg2 & Hcase).
    change (S (length (m :: ms))) with (S (S (length ms))).
    rewrite (process_messages_step _ _ _ _ E2).
    assert (Hlen : Z.of_nat (length (m :: ms)) = Z.of_nat (length ms) + 1)
      by (simpl length; lia).
    destruct Hcase as [(Hout & Hh2 & L2 & O2 & G2)
                      |(Hin & -> & Hh2 & [(HP' & L2 & O2 & G2)
                                         |(HP' & req & L2 & V2 & T2 & O2
                                           & G2)])].
    + (* a sender that is not pending *)
      assert (Hc2 : heap w2 !! l = Some c) by (rewrite Hh2; exact Hc).
      destruct (IH P st w2 a2 c G2 Hph Hnd Hc2 Ha2 Hcls2 Hq2 Hall)
        as (w' & a' & c' & E & Ha' & Hq' & Htc & Htf & Hg & Hh & Hsid
            & Hgoal & Htrack & Hframe & Hend).
      assert (Hiff : covered P (m :: ms) ↔ covered P ms).
      { unfold covered. rewrite !Forall_forall. split.
        - intros H x Hx. specialize (H x Hx). rewrite fmap_cons in H.
          apply elem_of_cons in H as [H|H]; [congruence | exact H].
        - intros H x Hx. rewrite fmap_cons. right. apply H, Hx. }
      exists w', a', c'. split; [exact E|]. split; [exact Ha'|].
      split; [exact Hq'|]. split; [lia|]. split; [lia|].
      split; [congruence|]. split; [rewrite Hh, Hh2; reflexivity|].
      split; [exact Hsid|]. split; [exact Hgoal|].
      split.
      { intros x mx Hx Hfirst. apply Htrack; [exact Hx|].
        rewrite first_from_later in Hfirst; [exact Hfirst|].
        intros Heq. apply Hout. rewrite Heq. exact Hx. }
      split.
      { intros k Hk1 Hk2 Hk. apply Hframe; [exact Hk1 | exact Hk2|].
        intros x Hx Hs. apply Hk; [exact Hx|].
        rewrite fmap_cons. right. exact Hs. }
      destruct Hend as [(Hne & Hcov & req & L & V & T & O & G')
                       |(Hor & L & O & G')].
      * left. split; [exact Hne|]. split; [apply Hiff, Hcov|].
        exists req. split; [rewrite L, L2; reflexivity|].
        split; [exact V|].
        split; [rewrite T, O2 by congruence; reflexivity|].
        split; [|exact G'].
        intros B HB HB'. rewrite O by assumption. apply O2, HB.
      * right. split.
        { destruct Hor as [H|H]; [left; exact H|right].
          intros Hcov. apply H, Hiff, Hcov. }
        split; [rewrite L, L2; reflexivity|].
        split; [intros B HB; rewrite O by exact HB; apply O2, HB|].
        rewrite (filter_ext_in _ (λ x, x ∉ from_agent <$> ms) P);
          [exact G'|].
        intros x Hx. rewrite fmap_cons, not_elem_of_cons.
        split; [tauto|]. intros H. split; [congruence | exact H].
    + (* a pending sender, others still pending *)
      set (P' := filter (λ y, y ≠ from_agent m) P) in *.
      set (c2 := record_response m P' c) in *.
      assert (Hc2 : heap w2 !! l = Some c2)
        by (rewrite Hh2; apply lookup_insert_eq).
      assert (Hnd' : NoDup P') by (apply NoDup_filter, Hnd).
      assert (Hdata2 : data c2
                = <[from_agent m +:+ "_data" := VDict (payload m)]>
                    (<["pending_responses" := VList (VStr <$> P')]>
                       (data c))).
      { unfold c2, record_response. destruct P'; [congruence|reflexivity]. }
      destruct (IH P' "waiting_for_data" w2 a2 c2 G2
                  (or_introl (conj HP' eq_refl)) Hnd' Hc2 Ha2 Hcls2 Hq2 Hall)
        as (w' & a' & c' & E & Ha' & Hq' & Htc & Htf & Hg & Hh & Hsid
            & Hgoal & Htrack & Hframe & Hend).
      destruct (record_response_identity m P' c) as [Hsid2 Hgoal2].
      destruct (data_key_fresh (from_agent m)) as [Hk1 Hk2].
      assert (Hiff : covered P (m :: ms) ↔ covered P' ms).
      { unfold covered. rewrite !Forall_forall. split.
        - intros H x Hx. apply list_elem_of_filter in Hx as [Hxm Hx].
          specialize (H x Hx). rewrite fmap_cons in H.
          apply elem_of_cons in H as [H|H]; [congruence | exact H].
        - intros H x Hx. rewrite fmap_cons.
          destruct (decide (x = from_agent m)) as [->|Hxm]; [left|].
          right. apply H, list_elem_of_filter. tauto. }
      exists w', a', c'. split; [exact E|]. split; [exact Ha'|].
      split; [exact Hq'|]. split; [lia|]. split; [lia|].
      split; [congruence|].
      split; [rewrite Hh, Hh2; apply insert_insert_eq|].
      split; [rewrite Hsid; exact Hsid2|].
      split; [rewrite Hgoal; exact Hgoal2|].
      split.
      { intros x mx Hx Hfirst.
        destruct (decide (from_agent m = x)) as [<-|Hne].
        - rewrite first_from_here in Hfirst. injection Hfirst as <-.
          rewrite Hframe; [rewrite Hdata2; apply lookup_insert_eq
                          | exact Hk1 | exact Hk2 |].
          intros y Hy _ Heq. apply append_inj_r in Heq.
          apply list_elem_of_filter in Hy as [Hy _]. congruence.
        - rewrite first_from_later in Hfirst by exact Hne.
          apply Htrack; [|exact Hfirst].
          apply list_elem_of_filter. split; [congruence | exact Hx]. }
      split.
      { intros k Hka Hkb Hk. rewrite Hframe; [| exact Hka | exact Hkb |].
        - rewrite Hdata2. rewrite lookup_insert_ne.
          + rewrite lookup_insert_ne by congruence. reflexivity.
          + intros Heq. apply (Hk (from_agent m) Hin); [|congruence].
            rewrite fmap_cons. left.
        - intros x Hx Hs. apply list_elem_of_filter in Hx as [_ Hx].
          apply Hk; [exact Hx|]. rewrite fmap_cons. right. exact Hs. }
      destruct Hend as [(Hne & Hcov & req & L & V & T & O & G')
                       |(Hor & L & O & G')].
      * left. split; [intros ->; exact (not_elem_of_nil _ Hin)|].
        split; [apply Hiff, Hcov|].
        exists req. split; [rewrite L, L2; reflexivity|].
        split; [exact V|].
        split; [rewrite T, O2 by congruence; reflexivity|].
        split; [|exact G'].
        intros B HB HB'. rewrite O by assumption. apply O2, HB.
      * right. split.
        { right. destruct Hor as [H|H]; [congruence|].
          intros Hcov. apply H, Hiff, Hcov. }
        split; [rewrite L, L2; reflexivity|].
        split; [intros B HB; rewrite O by exact HB; apply O2, HB|].
        unfold P' in G'. rewrite list_filter_filter in G'.
        rewrite (filter_ext_in _
                   (λ x, (x ∉ from_agent <$> ms) ∧ x ≠ from_agent m) P);
          [exact G'|].
        intros x _. rewrite fmap_cons, not_elem_of_cons. tauto.
    + (* the last pending sender *)
      rewrite HP' in Hh2.
      set (c2 := record_response m [] c) in *.
      assert (Hc2 : heap w2 !! l = Some c2)
        by (rewrite Hh2; apply lookup_insert_eq).
      destruct (IH [] "optimizing" w2 a2 c2 G2
                  (or_intror (conj eq_refl eq_refl)) (NoDup_nil_2) Hc2 Ha2
                  Hcls2 Hq2 Hall)
        as (w' & a' & c' & E & Ha' & Hq' & Htc & Htf & Hg & Hh & Hsid
            & Hgoal & Htrack & Hframe & Hend).
      destruct (data_key_fresh (from_agent m)) as [Hk1 Hk2].
      assert (Hframe' : forall k, k ≠ "pending_responses" ->
                k ≠ "planning_status" -> data c' !! k = data c2 !! k).
      { intros k Hka Hkb. apply Hframe; [exact Hka | exact Hkb|].
        intros x Hx. exfalso. exact (not_elem_of_nil x Hx). }
      assert (Honly : forall x, x ∈ P -> x = from_agent m).
      { intros x Hx. destruct (decide (x = from_agent m)) as [E0|N0];
          [exact E0|]. exfalso. exact (filter_nil_all _ _ HP' x Hx N0). }
      destruct Hend as [(Hne & _)|(_ & L & O & G')]; [congruence|].
      exists w', a', c'. split; [exact E|]. split; [exact Ha'|].
      split; [exact Hq'|]. split; [lia|]. split; [lia|].
      split; [congruence|].
      split; [rewrite Hh, Hh2; apply insert_insert_eq|].
      split; [exact Hsid|]. split; [exact Hgoal|].
      split.
      { intros x mx Hx Hfirst. rewrite (Honly x Hx) in *.
        rewrite first_from_here in Hfirst. injection Hfirst as <-.
        rewrite Hframe' by assumption. unfold c2, record_response. simpl.
        rewrite lookup_insert_ne by congruence. apply lookup_insert_eq. }
      split.
      { intros k Hka Hkb Hk. rewrite Hframe' by assumption.
        unfold c2, record_response. simpl.
        rewrite lookup_insert_ne by congruence.
        rewrite lookup_insert_ne.
        - rewrite lookup_insert_ne by congruence. reflexivity.
        - intros Heq. apply (Hk (from_agent m) Hin); [|congruence].
          rewrite fmap_cons. left. }
      left. split; [intros ->; exact (not_elem_of_nil _ Hin)|].
      split.
      { apply Forall_forall. intros x Hx. rewrite (Honly x Hx).
        rewrite fmap_cons. left. }
      exists req. split; [rewrite L, L2; reflexivity|].
      split; [exact (consolidated_frame req sender sid c2 c' Hframe' V2)|].
      split; [rewrite O by congruence; exact T2|].
      split; [|exact G'].
      intros B HB HB'. rewrite O by exact HB. apply O2; assumption.
Qed.
End Gathering.

Lemma route_all_store (msgs : list AgentMessage) (w : World) :
  exists w',
    handle_all MessageBus_send msgs w = (w', Ok tt) ∧
    message_log w' = message_log w ++ msgs ∧
    heap w' = heap w ∧ active_goals w' = active_goals w ∧
    (forall B, agents w' !! B
               = (fun b => set_message_queue
                             (message_queue b
                              ++ filter (λ m, addressed m B = true) msgs) b)
                   <$> agents w !! B).
Proof.
  destruct (route_all msgs w) as (w' & E & L & A).
  exists w'. split; [exact E|]. split; [exact L|]. split; [|split; [|exact A]].
  - clear L A. revert w E. induction msgs as [|m msgs IH]; intros w E.
    + injection E as <-. reflexivity.
    + destruct (MessageBus_send_lookup m w) as (w1 & E1 & _ & H1 & _).
      rewrite (handle_all_cons _ m msgs w w1 E1) in E.
      rewrite (IH w1 E). exact H1.
  - clear L A. revert w E. induction msgs as [|m msgs IH]; intros w E.
    + injection E as <-. reflexivity.
    + destruct (MessageBus_send_lookup m w) as (w1 & E1 & _ & _ & G1 & _).
      rewrite (handle_all_cons _ m msgs w w1 E1) in E.
      rewrite (IH w1 E). exact G1.
Qed.

Lemma first_from_some (x : string) (msgs : list AgentMessage) :
  x ∈ from_agent <$> msgs -> exists mx, first_from x msgs = Some mx.
Proof.
  induction msgs as [|m ms IH]; intros Hx.
  - exfalso. exact (not_elem_of_nil x Hx).
  - destruct (decide (from_agent m = x)) as [<-|Hne].
    + exists m. apply first_from_here.
    + rewrite first_from_later by exact Hne. apply IH.
      rewrite fmap_cons in Hx. apply elem_of_cons in Hx as [Hx|Hx];
        [congruence | exact Hx].
Qed.

Lemma tracked_answer (x key : string) (msgs : list AgentMessage)
    (mx : AgentMessage) (c : AgentContext) :
  first_from x msgs = Some mx ->
  data c !! key = Some (VDict (payload mx)) ->
  AgentContext_get key VNone c = first_answer x msgs.
Proof.
  intros Hf Hd. unfold AgentContext_get, first_answer.
  rewrite Hf, Hd. reflexivity.
Qed.

Section Pipeline.
Variable vtable : AgentClass -> Handlers.
Hypothesis planner_methods : vtable PlannerAgent = PlannerAgent_methods.

(** From a session in the table to the consolidated request: the start
    command, the planner's turn on it, the responses routed to the
    planner, and its turns on them. [l0] is the context of the session,
    [l] the one the planner is bound to. *)
Lemma pipeline_core (sid : string) (l0 l : loc) (c0 c : AgentContext)
    (msgs : list AgentMessage) (w : World) (p : BaseAgent) :
  active_goals w !! sid = Some l0 ->
  heap w !! l0 = Some c0 ->
  agents w !! "planner" = Some p ->
  cls p = PlannerAgent ->
  message_bus p = true ->
  message_queue p = [] ->
  context p = Some l ->
  heap w !! l = Some c ->
  Forall (λ m, to_agent m = "planner" ∧ type m = RESPONSE) msgs ->
  exists w2 w3 w4 w5 cmd r1 r2 r3 p5 c5,
    start_optimization sid w = (w2, Ok tt) ∧
    process_messages vtable 2 "planner" w2 = (w3, Suspended) ∧
    handle_all MessageBus_send msgs w3 = (w4, Ok tt) ∧
    process_messages vtable (S (length msgs)) "planner" w4
      = (w5, Suspended) ∧
    envelope cmd "orchestrator" "planner" COMMAND
      {[ "action" := VStr "start_optimization";
         "session_id" := VStr sid;
         "goal" := VStr (goal c0) ]} VNone ∧
    fan_out (agent_id p) (VStr sid) r1 r2 r3 ∧
    agents w5 !! "planner" = Some p5 ∧
    message_queue p5 = [] ∧
    tasks_completed p5
      = tasks_completed p + 1 + Z.of_nat (length msgs) ∧
    tasks_failed p5 = tasks_failed p ∧
    active_goals w5 = active_goals w ∧
    heap w5 = <[l := c5]> (heap w) ∧
    session_id c5 = session_id c ∧ goal c5 = goal c ∧
    (forall k, k ≠ "pending_responses" -> k ≠ "planning_status" ->
       k ≠ "weather_data" -> k ≠ "fuel_data" -> k ≠ "network_data" ->
       data c5 !! k = data c !! k) ∧
    (covered responders msgs ->
       exists req,
         message_log w5
           = message_log w ++ [cmd; r1; r2; r3] ++ msgs ++ [req] ∧
         envelope req (agent_id p) "optimizer" REQUEST
           (consolidated_payload msgs) (VStr (session_id c)) ∧
         data c5 !! "planning_status" = Some (VStr "optimizing")) ∧
    (¬ covered responders msgs ->
       message_log w5 = message_log w ++ [cmd; r1; r2; r3] ++ msgs ∧
       data c5 !! "planning_status" = Some (VStr "waiting_for_data")).
Proof.
  intros Hg Hc0 Hp Hcls Hbus Hq Hl Hc Hall.
  destruct (start_optimization_sends sid l0 c0 w Hg Hc0)
    as (w2 & cmd & E2 & L2 & V2 & H2 & G2 & A2).
  pose proof V2 as (Vf & Vt & Vty & Vp & Vc).
  assert (Hadd : addressed cmd "planner" = true)
    by (unfold addressed; rewrite Vt; reflexivity).
  assert (Hp2 : agents w2 !! "planner" = Some (receive_message cmd p))
    by (rewrite A2, Hp; simpl; rewrite Hadd; reflexivity).
  assert (Hc2 : heap w2 !! l = Some c) by (rewrite H2; exact Hc).
  assert (Hq2 : message_queue (receive_message cmd p) = [cmd])
    by (simpl; rewrite Hq; reflexivity).
  destruct (planner_turn_fans_out vtable planner_methods "planner" w2
              (receive_message cmd p) cmd [] (VStr (goal c0)) (VStr sid) l c
              Hp2 Hcls Hq2 Vty)
    as (w3 & p3 & r1 & r2 & r3 & E3 & L3 & V3 & G3 & H3 & Hp3 & Hcls3
        & Hq3 & Htc3 & Htf3 & O3 & Gat3);
    [rewrite Vp; reflexivity | rewrite Vp; reflexivity
    | rewrite Vp; reflexivity | exact Hbus | exact Hl | exact Hc2 |].
  assert (Hq3' : message_queue p3 = []).
  { rewrite Hq3. destruct V3 as ((_ & T1 & _) & (_ & T2 & _) & (_ & T3 & _)).
    rewrite filter_cons_False
      by (unfold addressed; rewrite T1; discriminate).
    rewrite filter_cons_False
      by (unfold addressed; rewrite T2; discriminate).
    rewrite filter_cons_False
      by (unfold addressed; rewrite T3; discriminate).
    reflexivity. }
  destruct (route_all_store msgs w3) as (w4 & E4 & L4 & H4 & G4 & A4).
  assert (Hfil : filter (λ m, addressed m "planner" = true) msgs = msgs).
  { apply filter_all_id. intros m Hm.
    pose proof (proj1 (Forall_forall _ _) Hall m Hm) as [Hto _].
    unfold addressed. rewrite Hto. reflexivity. }
  set (p4 := set_message_queue msgs p3).
  assert (Hp4 : agents w4 !! "planner" = Some p4).
  { rewrite A4, Hp3. simpl. rewrite Hfil, Hq3'. reflexivity. }
  set (c3 := AgentContext_set "pending_responses"
               (VList (VStr <$> responders))
               (AgentContext_set "planning_status"
                  (VStr "waiting_for_data") c)) in *.
  assert (Hc4 : heap w4 !! l = Some c3)
    by (rewrite H4, H3; apply lookup_insert_eq).
  assert (Gat4 : gathering "planner" l (agent_id p) (session_id c)
                   responders "waiting_for_data" w4)
    by (apply (gathering_update _ _ _ _ _ _ w3 w4 p3 p4 Gat3 Hp3 Hp4);
        first [reflexivity | exact H4]).
  assert (Hne : responders ≠ []) by discriminate.
  destruct (planner_gathers vtable planner_methods "planner" l (agent_id p)
              (session_id c) msgs ltac:(discriminate) responders
              "waiting_for_data" w4 p4 c3 Gat4
              (or_introl (conj Hne eq_refl)) responders_NoDup Hc4 Hp4
              Hcls3 eq_refl)
    as (w5 & p5 & c5 & E5 & Hp5 & Hq5 & Htc5 & Htf5 & G5 & H5 & Hsid5
        & Hgoal5 & Htrack & Hframe & Hend).
  { eapply Forall_impl; [exact Hall|]. intros m [_ H]. exact H. }
  assert (Hc5 : heap w5 !! l = Some c5)
    by (rewrite H5; apply lookup_insert_eq).
  assert (Hstatus : forall P st,
            gathering "planner" l (agent_id p) (session_id c) P st w5 ->
            data c5 !! "planning_status" = Some (VStr st)).
  { intros P st (a' & c' & _ & _ & _ & _ & Hc' & _ & _ & Hs').
    rewrite Hc5 in Hc'. injection Hc' as <-. exact Hs'. }
  exists w2, w3, w4, w5, cmd, r1, r2, r3, p5, c5.
  split; [exact E2|].
  split.
  { rewrite (process_messages_step vtable 1 _ _ _ E3). simpl.
    unfold loop_iteration. rewrite Hp3, Hq3'. reflexivity. }
  split; [exact E4|]. split; [exact E5|]. split; [exact V2|].
  split; [exact V3|]. split; [exact Hp5|]. split; [exact Hq5|].
  split; [rewrite Htc5; unfold p4; simpl; rewrite Htc3; reflexivity|].
  split; [rewrite Htf5; unfold p4; simpl; rewrite Htf3; reflexivity|].
  split; [rewrite G5, G4, G3, G2; reflexivity|].
  split; [rewrite H5, H4, H3, H2; apply insert_insert_eq|].
  split; [rewrite Hsid5; reflexivity|]. split; [rewrite Hgoal5; reflexivity|].
  split.
  { intros k K1 K2 K3 K4 K5. rewrite Hframe; [| exact K1 | exact K2 |].
    - unfold c3. simpl. rewrite !lookup_insert_ne by congruence.
      reflexivity.
    - intros x Hx _. unfold responders in Hx.
      repeat (apply elem_of_cons in Hx as [->|Hx]); [exact K3 | exact K4
        | exact K5 | exfalso; exact (not_elem_of_nil x Hx)]. }
  assert (Hlog4 : message_log w4
                  = message_log w ++ [cmd; r1; r2; r3] ++ msgs).
  { rewrite L4, L3, L2, <- !app_assoc. reflexivity. }
  split.
  - intros Hcov.
    destruct Hend as [(_ & _ & req & L & V & _ & _ & G')|([H|H] & _)];
      [|congruence|contradiction].
    exists req. split; [rewrite L, Hlog4, <- !app_assoc; reflexivity|].
    split; [|exact (Hstatus _ _ G')].
    assert (Hans : forall x, x ∈ responders ->
              AgentContext_get (x +:+ "_data") VNone c5
              = first_answer x msgs).
    { intros x Hx.
      destruct (first_from_some x msgs) as (mx & Hmx);
        [exact (proj1 (Forall_forall _ _) Hcov x Hx)|].
      exact (tracked_answer x _ msgs mx c5 Hmx (Htrack x mx Hx Hmx)). }
    pose proof (Hans "weather" ltac:(set_solver)) as Hw.
    pose proof (Hans "fuel" ltac:(set_solver)) as Hf.
    pose proof (Hans "network" ltac:(set_solver)) as Hn.
    change ("weather" +:+ "_data") with "weather_data" in Hw.
    change ("fuel" +:+ "_data") with "fuel_data" in Hf.
    change ("network" +:+ "_data") with "network_data" in Hn.
    unfold consolidated in V. rewrite Hw, Hf, Hn in V. exact V.
  - intros Hncov.
    destruct Hend as [(_ & Hcov & _)|(_ & L & _ & G')]; [contradiction|].
    split; [rewrite L; exact Hlog4 | exact (Hstatus _ _ G')].
Qed.
End Pipeline.

Section Sessions.
Variable vtable : AgentClass -> Handlers.
Hypothesis planner_methods : vtable PlannerAgent = PlannerAgent_methods.

(** X17. One session from end to end. With the planner registered as
    ["planner"], idle and with an empty inbox: [set_goal], then
    [start_optimization] on the returned identifier, then the planner's
    loop until it suspends, then the responses [msgs] routed to the
    planner, then its loop again. The planner has completed one task per
    message and failed none. The log is the command, the three requests
    (correlation id: the session), the responses, and, if and only if
    weather, fuel and network have all answered, one request to the
    optimizer; that request carries the session as correlation id and,
    for each of the three, the payload of its first response.
    [get_progress] reports the goal, the initial data under their keys,
    and the status ["optimizing"] or ["waiting_for_data"]
    accordingly. *)
Theorem session_runs_to_the_optimizer (goal_ : string)
    (initial_data : option (gmap string pyval))
    (msgs : list AgentMessage) (w : World) (p : BaseAgent) :
  agents w !! "planner" = Some p ->
  cls p = PlannerAgent ->
  message_bus p = true ->
  message_queue p = [] ->
  Forall (λ m, to_agent m = "planner" ∧ type m = RESPONSE) msgs ->
  exists sid w1 w2 w3 w4 w5 cmd r1 r2 r3 p5 progress d,
    set_goal goal_ initial_data w = (w1, Ok sid) ∧
    start_optimization sid w1 = (w2, Ok tt) ∧
    process_messages vtable 2 "planner" w2 = (w3, Suspended) ∧
    handle_all MessageBus_send msgs w3 = (w4, Ok tt) ∧
    process_messages vtable (S (length msgs)) "planner" w4
      = (w5, Suspended) ∧
    envelope cmd "orchestrator" "planner" COMMAND
      {[ "action" := VStr "start_optimization";
         "session_id" := VStr sid;
         "goal" := VStr goal_ ]} VNone ∧
    fan_out (agent_id p) (VStr sid) r1 r2 r3 ∧
    agents w5 !! "planner" = Some p5 ∧
    tasks_completed p5
      = tasks_completed p + 1 + Z.of_nat (length msgs) ∧
    tasks_failed p5 = tasks_failed p ∧
    get_progress sid w5 = (w5, Ok progress) ∧
    progress !! "goal" = Some (VStr goal_) ∧
    progress !! "data" = Some (VDict d) ∧
    (forall k, k ≠ "pending_responses" -> k ≠ "planning_status" ->
       k ≠ "weather_data" -> k ≠ "fuel_data" -> k ≠ "network_data" ->
       d !! k = default ∅ initial_data !! k) ∧
    (covered responders msgs ->
       exists req,
         message_log w5
           = message_log w ++ [cmd; r1; r2; r3] ++ msgs ++ [req] ∧
         envelope req (agent_id p) "optimizer" REQUEST
           (consolidated_payload msgs) (VStr sid) ∧
         d !! "planning_status" = Some (VStr "optimizing")) ∧
    (¬ covered responders msgs ->
       message_log w5 = message_log w ++ [cmd; r1; r2; r3] ++ msgs ∧
       d !! "planning_status" = Some (VStr "waiting_for_data")).
Proof.
  intros Hp Hcls Hbus Hq Hall.
  destruct (set_goal_ok goal_ initial_data w)
    as (w1 & l & E1 & _ & Hh1 & Hg1 & Ha1 & L1 & _).
  set (sid := uuid_source w (uuid_cursor w)) in *.
  set (c := {| session_id := sid; goal := goal_;
               data := default ∅ initial_data |}) in *.
  assert (Hp1 : agents w1 !! "planner" = Some (set_context (Some l) p))
    by (rewrite Ha1, lookup_fmap, Hp; reflexivity).
  assert (Hc1 : heap w1 !! l = Some c)
    by (rewrite Hh1; apply lookup_insert_eq).
  assert (Hs1 : active_goals w1 !! sid = Some l)
    by (rewrite Hg1; apply lookup_insert_eq).
  destruct (pipeline_core vtable planner_methods sid l l c c msgs w1
              (set_context (Some l) p) Hs1 Hc1 Hp1 Hcls Hbus Hq eq_refl
              Hc1 Hall)
    as (w2 & w3 & w4 & w5 & cmd & r1 & r2 & r3 & p5 & c5 & E2 & E3 & E4
        & E5 & V2 & V3 & Hp5 & _ & Htc & Htf & G5 & H5 & Hsid5 & Hgoal5
        & Hframe & Hcov & Hncov).
  assert (Hc5 : heap w5 !! l = Some c5)
    by (rewrite H5; apply lookup_insert_eq).
  assert (Hs5 : active_goals w5 !! sid = Some l) by (rewrite G5; exact Hs1).
  exists sid, w1, w2, w3, w4, w5, cmd, r1, r2, r3, p5.
  eexists _, (data c5).
  split; [exact E1|]. split; [exact E2|]. split; [exact E3|].
  split; [exact E4|]. split; [exact E5|]. split; [exact V2|].
  split; [exact V3|]. split; [exact Hp5|]. split; [exact Htc|].
  split; [exact Htf|].
  split; [exact (get_progress_ok sid l c5 w5 Hs5 Hc5)|].
  split; [rewrite Hgoal5; reflexivity|]. split; [reflexivity|].
  split; [exact Hframe|]. rewrite <- L1. split.
  - intros H. destruct (Hcov H) as (req & L & V & S).
    exists req. repeat split; first [exact L | apply V | exact S].
  - exact Hncov.
Qed.

End Sessions.

Lemma session_runs_to_the_optimizer_witness :
  exists sid w5 p5,
    (exists w4, process_messages planner_vtable 6 "planner" w4
                = (w5, Suspended)) ∧
    agents w5 !! "planner" = Some p5 ∧
    tasks_completed p5 = 6 ∧
    (exists progress, get_progress sid w5 = (w5, Ok progress)).
Proof.
  destruct (session_runs_to_the_optimizer planner_vtable eq_refl
              "test goal" None sample_responses demo_world
              (set_message_bus true PlannerAgent_init))
    as (sid & w1 & w2 & w3 & w4 & w5 & cmd & r1 & r2 & r3 & p5 & progress
        & d & _ & _ & _ & _ & E5 & _ & _ & Hp5 & Htc & _ & Hprog & _).
  - vm_compute; reflexivity.
  - reflexivity.
  - reflexivity.
  - reflexivity.
  - repeat constructor.
  - exists sid, w5, p5. split; [exists w4; exact E5|].
    split; [exact Hp5|]. split; [exact Htc|]. exists progress. exact Hprog.
Defined.


(** ** The data agents *)

Section WorkerReplies.
Variable isoformat : Z -> string.
Variable meanwhile : Q -> World -> World.

(** Compute the data, then answer the sender of [message]. *)
Lemma reply_with (self : string) (message : AgentMessage)
    (compute : M (gmap string pyval)) (data_ : gmap string pyval)
    (w w2 : World) (a : BaseAgent) :
  compute w = (w2, Ok data_) ->
  agents w2 !! self = Some a ->
  message_bus a = true ->
  exists w' resp,
    (let* d := compute in
     send_message self (from_agent message) RESPONSE d
       (correlation_id message)) w = (w', Ok tt) ∧
    message_log w' = message_log w2 ++ [resp] ∧
    envelope resp (agent_id a) (from_agent message) RESPONSE data_
      (correlation_id message) ∧
    heap w' = heap w2 ∧
    (forall B, agents w' !! B
               = (fun b => if addressed resp B then receive_message resp b
                           else b) <$> agents w2 !! B).
Proof.
  intros E Ha Hbus. rewrite (bind_ok _ _ _ _ _ E).
  destruct (send_message_logs self (from_agent message) RESPONSE data_
              (correlation_id message) w2 a Ha Hbus)
    as (w' & resp & E' & L & V & H & _ & A).
  exists w', resp. split; [exact E'|]. split; [exact L|].
  split; [exact V|]. split; [exact H | exact A].
Qed.

(** X19. The weather agent answers a forecast request once, to whoever
    sent it: after the line it prints and its pause of half a second, the
    next message on the log is one response from the agent to the
    sender of the request, with the request's correlation id, stamped
    with the time read after the pause and holding the confidence that
    the optimizer reads; it is delivered by the bus like any message, and
    the blackboards are not touched. *)
Theorem weather_replies_to_requester (self : string)
    (message : AgentMessage) (origin destination : pyval) (w : World)
    (a : BaseAgent) :
  let w1 := meanwhile (5 # 10)
              (set_stdout
                 (fun out => out ++ [[Lit "[Weather] Fetching forecast for ";
                                      Fmt origin; Lit "-"; Fmt destination]])
                 w) in
  payload message !! "action" = Some (VStr "get_forecast") ->
  payload message !! "origin" = Some origin ->
  payload message !! "destination" = Some destination ->
  agents w1 !! self = Some a ->
  message_bus a = true ->
  exists w' resp route_weather,
    WeatherAgent_handle_request isoformat meanwhile self message w
      = (w', Ok tt) ∧
    message_log w' = message_log w1 ++ [resp] ∧
    from_agent resp = agent_id a ∧ to_agent resp = from_agent message ∧
    type resp = RESPONSE ∧ correlation_id resp = correlation_id message ∧
    payload resp !! "timestamp"
      = Some (VStr (isoformat (clock_source w1 (clock_cursor w1)))) ∧
    payload resp !! "route_weather" = Some (VDict route_weather) ∧
    route_weather !! "confidence" = Some (VFloat (85 # 100)) ∧
    heap w' = heap w1 ∧
    (forall B, agents w' !! B
               = (fun b => if addressed resp B then receive_message resp b
                           else b) <$> agents w1 !! B).
Proof.
  intros w1 Hact Ho Hd Ha Hbus.
  unfold WeatherAgent_handle_request, dict_getitem.
  rewrite Hact, Ho, Hd.
  change (py_eq_str (default VNone (Some (VStr "get_forecast")))
            "get_forecast") with true. cbv iota.
  rewrite (bind_ok _ _ _ _ _ (ret_ok _ _)), (bind_ok _ _ _ _ _ (ret_ok _ _)).
  destruct (reply_with self message
              (get_weather_forecast isoformat meanwhile origin destination)
              _ w (set_clock_cursor (S (clock_cursor w1)) w1) a eq_refl
              Ha Hbus)
    as (w' & resp & E & L & (Vf & Vt & Vty & Vp & Vc) & H & A).
  eexists w', resp, _. split; [exact E|]. split; [exact L|].
  do 4 (split; [assumption|]).
  split; [rewrite Vp; reflexivity|]. split; [rewrite Vp; reflexivity|].
  split; [reflexivity|]. split; [exact H | exact A].
Qed.

(** X20. The fuel agent answers a fuel-analysis request once, to whoever
    sent it, with the request's correlation id; the response holds the
    tankering savings that the optimizer reads. *)
Theorem fuel_replies_to_requester (self : string)
    (message : AgentMessage) (origin destination : pyval) (w : World)
    (a : BaseAgent) :
  let w1 := meanwhile (3 # 10)
              (set_stdout
                 (fun out => out ++ [[Lit "[Fuel] Analyzing fuel costs for ";
                                      Fmt origin; Lit "-"; Fmt destination]])
                 w) in
  payload message !! "action" = Some (VStr "get_fuel_analysis") ->
  payload message !! "origin" = Some origin ->
  payload message !! "destination" = Some destination ->
  agents w1 !! self = Some a ->
  message_bus a = true ->
  exists w' resp,
    FuelAgent_handle_request isoformat meanwhile self message w
      = (w', Ok tt) ∧
    message_log w' = message_log w1 ++ [resp] ∧
    from_agent resp = agent_id a ∧ to_agent resp = from_agent message ∧
    type resp = RESPONSE ∧ correlation_id resp = correlation_id message ∧
    payload resp !! "timestamp"
      = Some (VStr (isoformat (clock_source w1 (clock_cursor w1)))) ∧
    payload resp !! "tankering_savings" = Some (VInt 450) ∧
    heap w' = heap w1 ∧
    (forall B, agents w' !! B
               = (fun b => if addressed resp B then receive_message resp b
                           else b) <$> agents w1 !! B).
Proof.
  intros w1 Hact Ho Hd Ha Hbus.
  unfold FuelAgent_handle_request, dict_getitem.
  rewrite Hact, Ho, Hd.
  change (py_eq_str (default VNone (Some (VStr "get_fuel_analysis")))
            "get_fuel_analysis") with true. cbv iota.
  rewrite (bind_ok _ _ _ _ _ (ret_ok _ _)), (bind_ok _ _ _ _ _ (ret_ok _ _)).
  destruct (reply_with self message
              (analyze_fuel_costs isoformat meanwhile origin destination)
              _ w (set_clock_cursor (S (clock_cursor w1)) w1) a eq_refl
              Ha Hbus)
    as (w' & resp & E & L & (Vf & Vt & Vty & Vp & Vc) & H & A).
  exists w', resp. split; [exact E|]. split; [exact L|].
  do 4 (split; [assumption|]).
  split; [rewrite Vp; reflexivity|]. split; [rewrite Vp; reflexivity|].
  split; [exact H | exact A].
Qed.

(** X21. The network agent answers a constraints request once, to
    whoever sent it, with the request's correlation id; the response
    holds the network impact that the optimizer reads. *)
Theorem network_replies_to_requester (self : string)
    (message : AgentMessage) (route : pyval) (w : World) (a : BaseAgent) :
  let w1 := meanwhile (2 # 10)
              (set_stdout
                 (fun out => out ++ [[Lit "[Network] Checking constraints for ";
                                      Fmt route]])
                 w) in
  payload message !! "action" = Some (VStr "check_constraints") ->
  payload message !! "route" = Some route ->
  agents w1 !! self = Some a ->
  message_bus a = true ->
  exists w' resp,
    NetworkAgent_handle_request isoformat meanwhile self message w
      = (w', Ok tt) ∧
    message_log w' = message_log w1 ++ [resp] ∧
    from_agent resp = agent_id a ∧ to_agent resp = from_agent message ∧
    type resp = RESPONSE ∧ correlation_id resp = correlation_id message ∧
    payload resp !! "timestamp"
      = Some (VStr (isoformat (clock_source w1 (clock_cursor w1)))) ∧
    payload resp !! "network_impact" = Some (VStr "minimal") ∧
    heap w' = heap w1 ∧
    (forall B, agents w' !! B
               = (fun b => if addressed resp B then receive_message resp b
                           else b) <$> agents w1 !! B).
Proof.
  intros w1 Hact Hr Ha Hbus.
  unfold NetworkAgent_handle_request, dict_getitem.
  rewrite Hact, Hr.
  change (py_eq_str (default VNone (Some (VStr "check_constraints")))
            "check_constraints") with true. cbv iota.
  rewrite (bind_ok _ _ _ _ _ (ret_ok _ _)).
  destruct (reply_with self message
              (check_network_constraints isoformat meanwhile route)
              _ w (set_clock_cursor (S (clock_cursor w1)) w1) a eq_refl
              Ha Hbus)
    as (w' & resp & E & L & (Vf & Vt & Vty & Vp & Vc) & H & A).
  exists w', resp. split; [exact E|]. split; [exact L|].
  do 4 (split; [assumption|]).
  split; [rewrite Vp; reflexivity|]. split; [rewrite Vp; reflexivity|].
  split; [exact H | exact A].
Qed.
End WorkerReplies.

Lemma weather_replies_to_requester_witness :
  exists w' resp,
    WeatherAgent_handle_request sample_isoformat undisturbed "weather"
      forecast_request demo_world = (w', Ok tt) ∧
    to_agent resp = "planner" ∧
    correlation_id resp = VStr "6f1c0d1e" ∧
    agents w' !! "planner"
      = Some (receive_message resp (set_message_bus true PlannerAgent_init)).
Proof.
  destruct (weather_replies_to_requester sample_isoformat undisturbed
              "weather" forecast_request (VStr "PTY") (VStr "BOG")
              demo_world (set_message_bus true WeatherAgent_init))
    as (w' & resp & rw & E & _ & _ & Vt & _ & Vc & _ & _ & _ & _ & A).
  - reflexivity.
  - reflexivity.
  - reflexivity.
  - vm_compute; reflexivity.
  - reflexivity.
  - exists w', resp. split; [exact E|]. split; [exact Vt|].
    split; [exact Vc|]. rewrite A. unfold addressed. rewrite Vt.
    reflexivity.
Defined.

Lemma fuel_replies_to_requester_witness :
  exists w' resp,
    FuelAgent_handle_request sample_isoformat undisturbed "fuel"
      fuel_request demo_world = (w', Ok tt) ∧
    to_agent resp = "planner" ∧
    from_agent resp = "fuel".
Proof.
  destruct (fuel_replies_to_requester sample_isoformat undisturbed
              "fuel" fuel_request (VStr "PTY") (VStr "BOG")
              demo_world (set_message_bus true FuelAgent_init))
    as (w' & resp & E & _ & Vf & Vt & _).
  - reflexivity.
  - reflexivity.
  - reflexivity.
  - vm_compute; reflexivity.
  - reflexivity.
  - exists w', resp. split; [exact E|]. split; [exact Vt | exact Vf].
Defined.

Lemma network_replies_to_requester_witness :
  exists w' resp,
    NetworkAgent_handle_request sample_isoformat undisturbed "network"
      network_request demo_world = (w', Ok tt) ∧
    to_agent resp = "planner" ∧
    from_agent resp = "network".
Proof.
  destruct (network_replies_to_requester sample_isoformat undisturbed
              "network" network_request (VStr "PTY-BOG")
              demo_world (set_message_bus true NetworkAgent_init))
    as (w' & resp & E & _ & Vf & Vt & _).
  - reflexivity.
  - reflexivity.
  - vm_compute; reflexivity.
  - reflexivity.
  - exists w', resp. split; [exact E|]. split; [exact Vt | exact Vf].
Defined.

Section WorkerTurns.
Variable isoformat : Z -> string.
Variable meanwhile : Q -> World -> World.

Lemma route_dispatch (self : string) (w : World) (a : BaseAgent)
    (message : AgentMessage) :
  agents w !! self = Some a ->
  dispatch (route_vtable isoformat meanwhile) self message w
  = match type message with
    | REQUEST =>
        handle_request (route_vtable isoformat meanwhile (cls a))
    | RESPONSE =>
        handle_response (route_vtable isoformat meanwhile (cls a))
    | EVENT => handle_event (route_vtable isoformat meanwhile (cls a))
    | COMMAND => handle_command (route_vtable isoformat meanwhile (cls a))
    end self message w.
Proof.
  intros Ha. unfold dispatch.
  rewrite (bind_ok _ _ _ _ _ (self_get_ok _ _ _ _ Ha)).
  destruct (type message); reflexivity.
Qed.

(** X22. A request that names the action of a data agent but lacks a
    field the handler subscripts gets no reply: the turn of the weather,
    fuel or network agent fails with [KeyError] on the first missing
    field, before anything is printed or sent; the failure is counted and
    reported on the error line, and the requester is left waiting. *)
Theorem incomplete_request_gets_no_reply (self key action : string)
    (present later : list string) (w : World) (a : BaseAgent)
    (message : AgentMessage) (rest : list AgentMessage) :
  agents w !! self = Some a ->
  message_queue a = message :: rest ->
  type message = REQUEST ->
  worker_action (cls a) = Some action ->
  payload message !! "action" = Some (VStr action) ->
  worker_fields (cls a) = present ++ key :: later ->
  Forall (λ k, is_Some (payload message !! k)) present ->
  payload message !! key = None ->
  exists w2,
    loop_iteration (route_vtable isoformat meanwhile) self w
      = Some (w2, Ok tt) ∧
    agents w2
      = <[self := set_tasks_failed (tasks_failed a + 1)
                    (set_status ERROR (set_message_queue rest a))]>
          (agents w) ∧
    message_log w2 = message_log w ∧
    heap w2 = heap w ∧
    uuid_cursor w2 = uuid_cursor w ∧
    stdout w2 = stdout w ++ [[Lit "["; Lit (agent_id a); Lit "] ERROR: ";
                              FmtExn (KeyError key)]].
Proof.
  intros Ha Hq Hty Hwa Hact Hwf Hpre Hmiss.
  set (a0 := set_status WORKING (set_message_queue rest a)).
  assert (Ha0 : agents (at_dispatch self a rest w) !! self = Some a0)
    by apply lookup_insert_eq.
  assert (Hd : dispatch (route_vtable isoformat meanwhile) self message
                 (at_dispatch self a rest w)
               = (at_dispatch self a rest w, Raise (KeyError key))).
  { rewrite (route_dispatch self _ a0 message Ha0), Hty.
    change (cls a0) with (cls a).
    destruct (cls a); simpl in Hwa, Hwf; try discriminate Hwa;
      try (destruct present; discriminate Hwf);
      injection Hwa as <-; simpl;
      unfold WeatherAgent_handle_request, FuelAgent_handle_request,
             NetworkAgent_handle_request, dict_getitem;
      rewrite Hact; simpl;
      (destruct present as [|k1 [|k2 present]];
       [ injection Hwf as <- _; rewrite Hmiss; reflexivity
       | first
           [ discriminate Hwf
           | injection Hwf as <- <- _;
             apply Forall_cons in Hpre as [[v Hv] _];
             rewrite Hv, Hmiss; reflexivity ]
       | first
           [ discriminate Hwf
           | exfalso; injection Hwf as _ _ Hwf;
             destruct present; discriminate Hwf ] ]). }
  eexists. split.
  { exact (loop_iteration_raise _ self w _ a a0 message rest _
             Ha Hq Hd Ha0). }
  split; [simpl; apply insert_insert_eq|].
  repeat split.
Qed.

(** X23. What an agent other than the planner has no handler for is
    consumed without effect: a request whose action is not the one of
    the agent's class (any request, for the critic), a response, a
    command, and an event unless the critic gets
    ["optimization_complete"]. The turn is counted as a completed task;
    nothing is sent or printed and the blackboards stay as they were. *)
Theorem workers_drop_what_they_do_not_handle (self : string) (w : World)
    (a : BaseAgent) (message : AgentMessage) (rest : list AgentMessage) :
  agents w !! self = Some a ->
  message_queue a = message :: rest ->
  cls a ≠ PlannerAgent ->
  (type message = REQUEST ∧
   forall action, worker_action (cls a) = Some action ->
     payload message !! "action" ≠ Some (VStr action)) ∨
  type message = RESPONSE ∨ type message = COMMAND ∨
  (type message = EVENT ∧
   (cls a ≠ CriticAgent ∨
    payload message !! "event" ≠ Some (VStr "optimization_complete"))) ->
  exists w2 a2,
    loop_iteration (route_vtable isoformat meanwhile) self w
      = Some (w2, Ok tt) ∧
    agents w2 !! self = Some a2 ∧
    message_queue a2 = rest ∧ status a2 = IDLE ∧
    tasks_completed a2 = tasks_completed a + 1 ∧
    tasks_failed a2 = tasks_failed a ∧
    (forall B, B ≠ self -> agents w2 !! B = agents w !! B) ∧
    message_log w2 = message_log w ∧ heap w2 = heap w ∧
    stdout w2 = stdout w.
Proof.
  intros Ha Hq Hcls Hcase.
  set (a0 := set_status WORKING (set_message_queue rest a)).
  assert (Ha0 : agents (at_dispatch self a rest w) !! self = Some a0)
    by apply lookup_insert_eq.
  assert (Hskip : forall s,
            payload message !! "action" ≠ Some (VStr s) ->
            py_eq_str (default VNone (payload message !! "action")) s
            = false).
  { intros s Hs. destruct (payload message !! "action") as [v|];
      [|reflexivity].
    destruct v as [| | | |s'| |]; try reflexivity. simpl.
    apply String.eqb_neq. congruence. }
  assert (Hd : dispatch (route_vtable isoformat meanwhile) self message
                 (at_dispatch self a rest w)
               = (at_dispatch self a rest w, Ok tt)).
  { rewrite (route_dispatch self _ a0 message Ha0).
    change (cls a0) with (cls a).
    destruct Hcase as [[-> Hact]|[->|[->|[-> Hev]]]].
    - destruct (cls a); simpl in Hact; try reflexivity;
        try congruence; simpl;
        unfold WeatherAgent_handle_request, FuelAgent_handle_request,
               NetworkAgent_handle_request, OptimizerAgent_handle_request;
        rewrite (Hskip _ (Hact _ eq_refl)); reflexivity.
    - destruct (cls a); try reflexivity; congruence.
    - destruct (cls a); try reflexivity; congruence.
    - destruct (cls a) eqn:Hc; try reflexivity; try congruence.
      destruct Hev as [Hev|Hev]; [congruence|].
      simpl. unfold CriticAgent_handle_event.
      destruct (payload message !! "event") as [v|]; [|reflexivity].
      destruct v as [| | | |s'| |]; try reflexivity. simpl.
      destruct (String.eqb_spec s' "optimization_complete") as [->|Hs];
        [congruence | reflexivity]. }
  eexists _, _.
  split; [exact (loop_iteration_returns _ self w _ a a0 message rest
                   Ha Hq Hd Ha0)|].
  split; [apply agents_set_agents_self|].
  do 4 (split; [reflexivity|]).
  split.
  { intros B HB. simpl.
    rewrite !lookup_insert_ne by congruence. reflexivity. }
  repeat split.
Qed.
End WorkerTurns.

Lemma incomplete_request_gets_no_reply_witness :
  exists w2,
    loop_iteration (route_vtable sample_isoformat undisturbed) "network"
      (MessageBus_send routeless_request demo_world).1
      = Some (w2, Ok tt) ∧
    message_log w2 = [routeless_request].
Proof.
  destruct (incomplete_request_gets_no_reply sample_isoformat undisturbed
              "network" "route" "check_constraints" [] []
              (MessageBus_send routeless_request demo_world).1
              (receive_message routeless_request
                 (set_message_bus true NetworkAgent_init))
              routeless_request [])
    as (w2 & E & _ & L & _).
  - vm_compute; reflexivity.
  - reflexivity.
  - reflexivity.
  - reflexivity.
  - reflexivity.
  - reflexivity.
  - constructor.
  - reflexivity.
  - exists w2. split; [exact E|]. rewrite L. reflexivity.
Defined.

Lemma workers_drop_what_they_do_not_handle_witness :
  exists w2 a2,
    loop_iteration (route_vtable sample_isoformat undisturbed) "weather"
      (MessageBus_send sample_broadcast demo_world).1 = Some (w2, Ok tt) ∧
    agents w2 !! "weather" = Some a2 ∧
    tasks_completed a2 = 1 ∧
    message_log w2 = [sample_broadcast].
Proof.
  destruct (workers_drop_what_they_do_not_handle sample_isoformat
              undisturbed "weather"
              (MessageBus_send sample_broadcast demo_world).1
              (receive_message sample_broadcast
                 (set_message_bus true WeatherAgent_init))
              sample_broadcast [])
    as (w2 & a2 & E & A & _ & _ & C & _ & _ & L & _).
  - vm_compute; reflexivity.
  - reflexivity.
  - discriminate.
  - right. right. right. split; [reflexivity|]. left. discriminate.
  - exists w2, a2. split; [exact E|]. split; [exact A|].
    split; [exact C|]. rewrite L. reflexivity.
Defined.

(** ** The optimizer and the critic *)

Lemma print_lines (l1 l2 : list (list fragment)) (w : World) :
  set_stdout (fun out => out ++ l2) (set_stdout (fun out => out ++ l1) w)
  = set_stdout (fun out => out ++ (l1 ++ l2)) w.
Proof. unfold set_stdout; simpl. rewrite app_assoc. reflexivity. Qed.

Section Optimizer.
Variable isoformat : Z -> string.
Variable meanwhile : Q -> World -> World.

Lemma optimize_route_ok (wd rw fd nd : gmap string pyval)
    (conf sav imp : pyval) (w : World) :
  wd !! "route_weather" = Some (VDict rw) ->
  rw !! "confidence" = Some conf ->
  fd !! "tankering_savings" = Some sav ->
  nd !! "network_impact" = Some imp ->
  exists w2 result,
    optimize_route isoformat meanwhile (VDict wd) (VDict fd) (VDict nd) w
      = (w2, Ok result) ∧
    agents w2
      = agents (meanwhile (2 # 1)
                  (set_stdout
                     (fun out => out ++ optimizer_report conf sav imp) w)) ∧
    message_log w2
      = message_log
          (meanwhile (2 # 1)
             (set_stdout
                (fun out => out ++ optimizer_report conf sav imp) w)) ∧
    heap w2
      = heap (meanwhile (2 # 1)
                (set_stdout
                   (fun out => out ++ optimizer_report conf sav imp) w)) ∧
    active_goals w2
      = active_goals
          (meanwhile (2 # 1)
             (set_stdout
                (fun out => out ++ optimizer_report conf sav imp) w)) ∧
    result !! "timestamp"
      = Some (VStr (isoformat
                      (clock_source
                         (meanwhile (2 # 1)
                            (set_stdout
                               (fun out => out ++ optimizer_report conf sav imp)
                               w))
                         (clock_cursor
                            (meanwhile (2 # 1)
                               (set_stdout
                                  (fun out =>
                                     out ++ optimizer_report conf sav imp)
                                  w)))))) ∧
    result !! "estimated_fuel_savings" = Some (VInt 450).
Proof.
  intros Hrw Hconf Hsav Himp.
  unfold optimize_route, py_getitem, dict_getitem.
  rewrite (bind_ok _ _ _ _ _ (print_ok _ _)).
  rewrite Hrw, (bind_ok _ _ _ _ _ (ret_ok _ _)).
  rewrite Hconf, (bind_ok _ _ _ _ _ (ret_ok _ _)).
  rewrite (bind_ok _ _ _ _ _ (print_ok _ _)).
  rewrite Hsav, (bind_ok _ _ _ _ _ (ret_ok _ _)).
  rewrite (bind_ok _ _ _ _ _ (print_ok _ _)).
  rewrite Himp, (bind_ok _ _ _ _ _ (ret_ok _ _)).
  rewrite (bind_ok _ _ _ _ _ (print_ok _ _)).
  rewrite !print_lines.
  change ([[Lit newline; Lit "[Optimizer] Running optimization..."]] ++
          [[Lit "  - Weather confidence: "; Fmt conf]] ++
          [[Lit "  - Fuel savings: $"; Fmt sav]] ++
          [[Lit "  - Network status: "; Fmt imp]])
    with (optimizer_report conf sav imp).
  eexists _, _. split; [reflexivity|].
  repeat split.
Qed.

Lemma optimizer_run (self : string) (message : AgentMessage)
    (wd rw fd nd : gmap string pyval) (conf sav imp : pyval) (w : World)
    (a : BaseAgent) :
  payload message !! "action" = Some (VStr "optimize_route") ->
  payload message !! "weather_data" = Some (VDict wd) ->
  wd !! "route_weather" = Some (VDict rw) ->
  rw !! "confidence" = Some conf ->
  payload message !! "fuel_data" = Some (VDict fd) ->
  fd !! "tankering_savings" = Some sav ->
  payload message !! "network_data" = Some (VDict nd) ->
  nd !! "network_impact" = Some imp ->
  agents (meanwhile (2 # 1)
            (set_stdout (fun out => out ++ optimizer_report conf sav imp) w))
    !! self = Some a ->
  message_bus a = true ->
  exists w' resp ev result,
    OptimizerAgent_handle_request isoformat meanwhile self message w
      = (w', Ok tt) ∧
    message_log w'
      = message_log
          (meanwhile (2 # 1)
             (set_stdout
                (fun out => out ++ optimizer_report conf sav imp) w))
        ++ [resp; ev] ∧
    envelope resp (agent_id a) (from_agent message) RESPONSE result
      (correlation_id message) ∧
    envelope ev (agent_id a) "broadcast" EVENT
      {[ "event" := VStr "optimization_complete";
         "data" := VDict result ]} VNone ∧
    heap w'
      = heap (meanwhile (2 # 1)
                (set_stdout
                   (fun out => out ++ optimizer_report conf sav imp) w)) ∧
    active_goals w'
      = active_goals
          (meanwhile (2 # 1)
             (set_stdout
                (fun out => out ++ optimizer_report conf sav imp) w)) ∧
    (forall B, agents w' !! B
               = (fun b => set_message_queue
                             (message_queue b
                              ++ filter (λ m, addressed m B = true)
                                   [resp; ev]) b)
                   <$> agents
                         (meanwhile (2 # 1)
                            (set_stdout
                               (fun out =>
                                  out ++ optimizer_report conf sav imp) w))
                       !! B).
Proof.
  set (w1 := meanwhile (2 # 1) _).
  intros Hact Hwd Hrw Hconf Hfd Hsav Hnd Himp Ha Hbus.
  unfold OptimizerAgent_handle_request. rewrite Hact, Hwd, Hfd, Hnd.
  change (py_eq_str (default VNone (Some (VStr "optimize_route")))
            "optimize_route") with true. cbv iota.
  change (default VNone (Some (VDict wd))) with (VDict wd).
  change (default VNone (Some (VDict fd))) with (VDict fd).
  change (default VNone (Some (VDict nd))) with (VDict nd).
  destruct (optimize_route_ok wd rw fd nd conf sav imp w Hrw Hconf Hsav Himp)
    as (w2 & result & E2 & A2 & L2 & H2 & G2 & _).
  fold w1 in A2, L2, H2, G2.
  rewrite (bind_ok _ _ _ _ _ E2).
  assert (Ha2 : agents w2 !! self = Some a) by (rewrite A2; exact Ha).
  destruct (send_message_logs self (from_agent message) RESPONSE result
              (correlation_id message) w2 a Ha2 Hbus)
    as (w3 & resp & E3 & L3 & V3 & H3 & G3 & A3).
  rewrite (bind_ok _ _ _ _ _ E3).
  set (a3 := if addressed resp self then receive_message resp a else a).
  assert (Ha3 : agents w3 !! self = Some a3)
    by (rewrite A3, Ha2; reflexivity).
  assert (F3 : message_bus a3 = true ∧ agent_id a3 = agent_id a)
    by (unfold a3; destruct (addressed resp self); simpl; auto).
  destruct F3 as (Hbus3 & Hid3).
  unfold broadcast_event.
  destruct (send_message_logs self "broadcast" EVENT
              {[ "event" := VStr "optimization_complete";
                 "data" := VDict result ]} VNone w3 a3 Ha3 Hbus3)
    as (w4 & ev & E4 & L4 & V4 & H4 & G4 & A4).
  rewrite Hid3 in V4.
  exists w4, resp, ev, result. split; [exact E4|].
  split; [rewrite L4, L3, L2, <- app_assoc; reflexivity|].
  split; [exact V3|]. split; [exact V4|].
  split; [rewrite H4, H3; exact H2|].
  split; [rewrite G4, G3; exact G2|].
  intros B. rewrite A4, A3, A2.
  destruct (agents w1 !! B) as [b|]; [simpl|reflexivity]. f_equal.
  rewrite !deliver_cons. rewrite filter_nil, app_nil_r.
  destruct (if addressed ev B then _ else _); reflexivity.
Qed.

(** X24. The optimizer answers, then announces. For a request whose
    three data items hold what [optimize_route] reads, the handler
    returns normally and, after its report and its pause of two seconds,
    sends exactly two messages: the result as a response to the sender of
    the request, with the request's correlation id, and then an
    ["optimization_complete"] event to everybody else whose data is that
    same result. Each inbox grows by what is addressed to it, in that
    order; the blackboards are not touched. *)
Theorem optimizer_answers_then_announces (self : string)
    (message : AgentMessage) (wd rw fd nd : gmap string pyval)
    (conf sav imp : pyval) (w : World) (a : BaseAgent) :
  let w1 := meanwhile (2 # 1)
              (set_stdout
                 (fun out => out ++ optimizer_report conf sav imp) w) in
  payload message !! "action" = Some (VStr "optimize_route") ->
  payload message !! "weather_data" = Some (VDict wd) ->
  wd !! "route_weather" = Some (VDict rw) ->
  rw !! "confidence" = Some conf ->
  payload message !! "fuel_data" = Some (VDict fd) ->
  fd !! "tankering_savings" = Some sav ->
  payload message !! "network_data" = Some (VDict nd) ->
  nd !! "network_impact" = Some imp ->
  agents w1 !! self = Some a ->
  message_bus a = true ->
  exists w' resp ev,
    OptimizerAgent_handle_request isoformat meanwhile self message w
      = (w', Ok tt) ∧
    message_log w' = message_log w1 ++ [resp; ev] ∧
    envelope resp (agent_id a) (from_agent message) RESPONSE (payload resp)
      (correlation_id message) ∧
    envelope ev (agent_id a) "broadcast" EVENT
      {[ "event" := VStr "optimization_complete";
         "data" := VDict (payload resp) ]} VNone ∧
    heap w' = heap w1 ∧
    (forall B, agents w' !! B
               = (fun b => set_message_queue
                             (message_queue b
                              ++ filter (λ m, addressed m B = true)
                                   [resp; ev]) b)
                   <$> agents w1 !! B).
Proof.
  intros w1 Hact Hwd Hrw Hconf Hfd Hsav Hnd Himp Ha Hbus.
  destruct (optimizer_run self message wd rw fd nd conf sav imp w a
              Hact Hwd Hrw Hconf Hfd Hsav Hnd Himp Ha Hbus)
    as (w' & resp & ev & result & E & L & V & Vev & H & _ & A).
  assert (Hp : payload resp = result) by apply V.
  rewrite <- Hp in V, Vev.
  exists w', resp, ev. split; [exact E|]. split; [exact L|].
  split; [exact V|]. split; [exact Vev|]. split; [exact H | exact A].
Qed.
End Optimizer.

Lemma optimizer_answers_then_announces_witness :
  exists w' resp ev,
    OptimizerAgent_handle_request sample_isoformat undisturbed "optimizer"
      optimize_request demo_world = (w', Ok tt) ∧
    message_log w' = [resp; ev] ∧
    to_agent resp = "planner" ∧ to_agent ev = "broadcast".
Proof.
  destruct (optimizer_answers_then_announces sample_isoformat undisturbed
              "optimizer" optimize_request
              {[ "route_weather" :=
                   VDict {[ "confidence" := VFloat (85 # 100) ]} ]}
              {[ "confidence" := VFloat (85 # 100) ]}
              {[ "tankering_savings" := VInt 450 ]}
              {[ "network_impact" := VStr "minimal" ]}
              (VFloat (85 # 100)) (VInt 450) (VStr "minimal")
              demo_world (set_message_bus true OptimizerAgent_init))
    as (w' & resp & ev & E & L & V & Vev & _).
  - reflexivity.
  - reflexivity.
  - reflexivity.
  - reflexivity.
  - reflexivity.
  - reflexivity.
  - reflexivity.
  - reflexivity.
  - vm_compute; reflexivity.
  - reflexivity.
  - exists w', resp, ev. split; [exact E|]. split; [exact L|].
    split; [apply V | apply Vev].
Defined.

Lemma py_getitem_pure (v : pyval) (key : string) (w : World) :
  (exists x, py_getitem v key w = (w, Ok x)) ∨
  (exists e, py_getitem v key w = (w, Raise e)).
Proof.
  destruct v as [| | | | | |d]; try (right; eexists; reflexivity).
  unfold py_getitem, dict_getitem. destruct (d !! key) as [x|].
  - left. exists x. reflexivity.
  - right. eexists. reflexivity.
Qed.

Lemma py_getitem_None (key : string) (w : World) (x : pyval) :
  py_getitem VNone key w ≠ (w, Ok x).
Proof. discriminate. Qed.

Section OptimizerFails.
Variable isoformat : Z -> string.
Variable meanwhile : Q -> World -> World.

Lemma optimize_route_raises (wd fd nd : pyval) (w : World) :
  wd = VNone ∨ fd = VNone ∨ nd = VNone ->
  exists lines e,
    optimize_route isoformat meanwhile wd fd nd w
    = (set_stdout (fun out => out ++ lines) w, Raise e).
Proof.
  intros Hnone. unfold optimize_route.
  rewrite (bind_ok _ _ _ _ _ (print_ok _ _)).
  set (w1 := set_stdout _ w).
  destruct (py_getitem_pure wd "route_weather" w1) as [[rw E1]|[e E1]];
    [rewrite (bind_ok _ _ _ _ _ E1)
    |rewrite (bind_raise _ _ _ _ _ E1); eexists _, e; reflexivity].
  destruct (py_getitem_pure rw "confidence" w1) as [[conf E2]|[e E2]];
    [rewrite (bind_ok _ _ _ _ _ E2)
    |rewrite (bind_raise _ _ _ _ _ E2); eexists _, e; reflexivity].
  rewrite (bind_ok _ _ _ _ _ (print_ok _ _)).
  set (w2 := set_stdout _ w1).
  destruct (py_getitem_pure fd "tankering_savings" w2) as [[sav E3]|[e E3]];
    [rewrite (bind_ok _ _ _ _ _ E3)
    |rewrite (bind_raise _ _ _ _ _ E3); eexists _, e; unfold w2, w1;
     rewrite print_lines; reflexivity].
  rewrite (bind_ok _ _ _ _ _ (print_ok _ _)).
  set (w3 := set_stdout _ w2).
  destruct (py_getitem_pure nd "network_impact" w3) as [[imp E4]|[e E4]];
    [|rewrite (bind_raise _ _ _ _ _ E4); eexists _, e; unfold w3, w2, w1;
      rewrite !print_lines; reflexivity].
  exfalso. destruct Hnone as [->|[->| ->]].
  - exact (py_getitem_None _ _ _ E1).
  - exact (py_getitem_None _ _ _ E3).
  - exact (py_getitem_None _ _ _ E4).
Qed.

(** X25. The optimizer needs all three answers. If the request names
    ["optimize_route"] but one of [weather_data], [fuel_data] and
    [network_data] is absent or [None], the optimizer's turn fails on the
    subscript: the failure is counted and reported after whatever part of
    the report was printed, and neither the response nor the completion
    event is sent, so the sender gets no answer. *)
Theorem optimizer_needs_all_three_answers (self : string) (w : World)
    (a : BaseAgent) (message : AgentMessage) (rest : list AgentMessage) :
  agents w !! self = Some a ->
  cls a = OptimizerAgent ->
  message_queue a = message :: rest ->
  type message = REQUEST ->
  payload message !! "action" = Some (VStr "optimize_route") ->
  default VNone (payload message !! "weather_data") = VNone ∨
  default VNone (payload message !! "fuel_data") = VNone ∨
  default VNone (payload message !! "network_data") = VNone ->
  exists w2 lines e,
    loop_iteration (route_vtable isoformat meanwhile) self w
      = Some (w2, Ok tt) ∧
    agents w2
      = <[self := set_tasks_failed (tasks_failed a + 1)
                    (set_status ERROR (set_message_queue rest a))]>
          (agents w) ∧
    message_log w2 = message_log w ∧
    heap w2 = heap w ∧
    uuid_cursor w2 = uuid_cursor w ∧
    stdout w2
      = stdout w ++ lines ++ [[Lit "["; Lit (agent_id a); Lit "] ERROR: ";
                               FmtExn e]].
Proof.
  intros Ha Hcls Hq Hty Hact Hnone.
  set (a0 := set_status WORKING (set_message_queue rest a)).
  set (w0 := at_dispatch self a rest w).
  assert (Ha0 : agents w0 !! self = Some a0) by apply lookup_insert_eq.
  destruct (optimize_route_raises
              (default VNone (payload message !! "weather_data"))
              (default VNone (payload message !! "fuel_data"))
              (default VNone (payload message !! "network_data")) w0 Hnone)
    as (lines & e & E).
  assert (Hd : dispatch (route_vtable isoformat meanwhile) self message w0
               = (set_stdout (fun out => out ++ lines) w0, Raise e)).
  { rewrite (route_dispatch isoformat meanwhile self _ a0 message Ha0), Hty.
    change (cls a0) with (cls a). rewrite Hcls. simpl.
    unfold OptimizerAgent_handle_request. rewrite Hact.
    change (py_eq_str (default VNone (Some (VStr "optimize_route")))
              "optimize_route") with true. cbv iota.
    rewrite (bind_raise _ _ _ _ _ E). reflexivity. }
  eexists _, lines, e. split.
  { exact (loop_iteration_raise _ self w _ a a0 message rest _
             Ha Hq Hd Ha0). }
  split; [simpl; apply insert_insert_eq|].
  do 3 (split; [reflexivity|]).
  simpl. rewrite <- app_assoc. reflexivity.
Qed.

Lemma critic_turn (self : string) (w : World) (a : BaseAgent)
    (ev : AgentMessage) (rest : list AgentMessage) (prediction : pyval)
    (l : loc) (c : AgentContext) :
  agents w !! self = Some a ->
  cls a = CriticAgent ->
  message_queue a = ev :: rest ->
  type ev = EVENT ->
  payload ev !! "event" = Some (VStr "optimization_complete") ->
  payload ev !! "data" = Some prediction ->
  context a = Some l ->
  heap w !! l = Some c ->
  exists w2 a2,
    loop_iteration (route_vtable isoformat meanwhile) self w
      = Some (w2, Ok tt) ∧
    agents w2 !! self = Some a2 ∧
    message_queue a2 = rest ∧
    tasks_completed a2 = tasks_completed a + 1 ∧
    tasks_failed a2 = tasks_failed a ∧
    (forall B, B ≠ self -> agents w2 !! B = agents w !! B) ∧
    message_log w2 = message_log w ∧
    active_goals w2 = active_goals w ∧
    heap w2 = <[l := AgentContext_set "last_prediction" prediction c]>
                (heap w) ∧
    stdout w2
      = stdout w ++ [[Lit "[Critic] Stored prediction for monitoring"]].
Proof.
  intros Ha Hcls Hq Hty Hev Hdata Hl Hc.
  set (a0 := set_status WORKING (set_message_queue rest a)).
  set (w0 := at_dispatch self a rest w).
  assert (Ha0 : agents w0 !! self = Some a0) by apply lookup_insert_eq.
  assert (Hc0 : heap w0 !! l = Some c) by exact Hc.
  assert (Hd : dispatch (route_vtable isoformat meanwhile) self ev w0
               = (set_stdout
                    (fun out =>
                       out ++ [[Lit "[Critic] Stored prediction for monitoring"]])
                    (set_heap
                       (<[l := AgentContext_set "last_prediction"
                                 prediction c]>) w0), Ok tt)).
  { rewrite (route_dispatch isoformat meanwhile self _ a0 ev Ha0), Hty.
    change (cls a0) with (cls a). rewrite Hcls. simpl.
    unfold CriticAgent_handle_event, dict_getitem. rewrite Hev, Hdata.
    change (py_eq_str (default VNone (Some (VStr "optimization_complete")))
              "optimization_complete") with true. cbv iota.
    rewrite (bind_ok _ _ _ _ _ (ret_ok _ _)).
    rewrite (bind_ok _ _ _ _ _ (self_get_ok _ _ _ _ Ha0)).
    change (context a0) with (context a). rewrite Hl.
    rewrite (bind_ok _ _ _ _ _ (context_set_ok _ _ _ _ _ Hc0)).
    reflexivity. }
  eexists _, _.
  split; [exact (loop_iteration_returns _ self w _ a a0 ev rest
                   Ha Hq Hd Ha0)|].
  split; [apply agents_set_agents_self|].
  do 3 (split; [reflexivity|]).
  split.
  { intros B HB. simpl.
    rewrite !lookup_insert_ne by congruence. reflexivity. }
  repeat split.
Qed.

(** X26. The critic keeps the latest prediction on the blackboard. Its
    turn on an ["optimization_complete"] event whose payload has a
    [data] entry is counted as a completed task and sends nothing. If
    the critic is bound to a context, it writes that entry under
    ["last_prediction"] there, replacing an earlier one and leaving every
    other key, the session and the goal as they were, and prints one
    line; if no goal was set yet, nothing is stored or printed. *)
Theorem critic_stores_the_prediction (self : string) (w : World)
    (a : BaseAgent) (ev : AgentMessage) (rest : list AgentMessage)
    (prediction : pyval) :
  agents w !! self = Some a ->
  cls a = CriticAgent ->
  message_queue a = ev :: rest ->
  type ev = EVENT ->
  payload ev !! "event" = Some (VStr "optimization_complete") ->
  payload ev !! "data" = Some prediction ->
  (forall l, context a = Some l -> is_Some (heap w !! l)) ->
  exists w2 a2,
    loop_iteration (route_vtable isoformat meanwhile) self w
      = Some (w2, Ok tt) ∧
    agents w2 !! self = Some a2 ∧
    message_queue a2 = rest ∧
    tasks_completed a2 = tasks_completed a + 1 ∧
    tasks_failed a2 = tasks_failed a ∧
    message_log w2 = message_log w ∧
    (forall l c, context a = Some l -> heap w !! l = Some c ->
       exists c2,
         heap w2 = <[l := c2]> (heap w) ∧
         data c2 !! "last_prediction" = Some prediction ∧
         (forall k, k ≠ "last_prediction" -> data c2 !! k = data c !! k) ∧
         session_id c2 = session_id c ∧ goal c2 = goal c ∧
         stdout w2
           = stdout w
             ++ [[Lit "[Critic] Stored prediction for monitoring"]]) ∧
    (context a = None -> heap w2 = heap w ∧ stdout w2 = stdout w).
Proof.
  intros Ha Hcls Hq Hty Hev Hdata Hctx.
  destruct (context a) as [l|] eqn:Hl.
  - destruct (Hctx l eq_refl) as [c Hc].
    destruct (critic_turn self w a ev rest prediction l c
                Ha Hcls Hq Hty Hev Hdata Hl Hc)
      as (w2 & a2 & E & Ha2 & Hq2 & Htc & Htf & _ & L & _ & H & S).
    exists w2, a2. do 6 (split; [assumption|]).
    split; [|intros Hn; discriminate Hn].
    intros l' c' Hl' Hc'. injection Hl' as <-.
    rewrite Hc in Hc'. injection Hc' as <-.
    eexists. split; [exact H|].
    split; [simpl; apply lookup_insert_eq|].
    split; [intros k Hk; simpl; apply lookup_insert_ne; congruence|].
    repeat split. exact S.
  - set (a0 := set_status WORKING (set_message_queue rest a)).
    set (w0 := at_dispatch self a rest w).
    assert (Ha0 : agents w0 !! self = Some a0) by apply lookup_insert_eq.
    assert (Hd : dispatch (route_vtable isoformat meanwhile) self ev w0
                 = (w0, Ok tt)).
    { rewrite (route_dispatch isoformat meanwhile self _ a0 ev Ha0), Hty.
      change (cls a0) with (cls a). rewrite Hcls. simpl.
      unfold CriticAgent_handle_event, dict_getitem. rewrite Hev, Hdata.
      change (py_eq_str
                (default VNone (Some (VStr "optimization_complete")))
                "optimization_complete") with true. cbv iota.
      rewrite (bind_ok _ _ _ _ _ (ret_ok _ _)).
      rewrite (bind_ok _ _ _ _ _ (self_get_ok _ _ _ _ Ha0)).
      change (context a0) with (context a). rewrite Hl. reflexivity. }
    eexists _, _.
    split; [exact (loop_iteration_returns _ self w _ a a0 ev rest
                     Ha Hq Hd Ha0)|].
    split; [apply agents_set_agents_self|].
    do 4 (split; [reflexivity|]).
    split; [intros l c Hn; discriminate Hn|].
    intros _. split; reflexivity.
Qed.

(** X27. What the progress report calls the last prediction is the
    answer the requester got. When the optimizer, registered under its
    own identifier, handles a well-formed request of another agent than
    the critic and the critic, bound
    to the context at [l] with an empty inbox, then takes its turn, the
    blackboard at [l] holds under ["last_prediction"] the payload of the
    response that was sent to the requester, and its other keys are
    unchanged; the log holds that response and the event and nothing
    else. *)
Theorem prediction_is_the_answer (self critic : string)
    (message : AgentMessage) (wd rw fd nd : gmap string pyval)
    (conf sav imp : pyval) (w : World) (a k : BaseAgent) (l : loc)
    (c : AgentContext) :
  let w1 := meanwhile (2 # 1)
              (set_stdout
                 (fun out => out ++ optimizer_report conf sav imp) w) in
  payload message !! "action" = Some (VStr "optimize_route") ->
  payload message !! "weather_data" = Some (VDict wd) ->
  wd !! "route_weather" = Some (VDict rw) ->
  rw !! "confidence" = Some conf ->
  payload message !! "fuel_data" = Some (VDict fd) ->
  fd !! "tankering_savings" = Some sav ->
  payload message !! "network_data" = Some (VDict nd) ->
  nd !! "network_impact" = Some imp ->
  agents w1 !! self = Some a ->
  message_bus a = true ->
  agent_id a = self ->
  agents w1 !! critic = Some k ->
  critic ≠ self ->
  from_agent message ≠ critic ->
  from_agent message ≠ "broadcast" ->
  cls k = CriticAgent ->
  message_queue k = [] ->
  context k = Some l ->
  heap w1 !! l = Some c ->
  exists w' w'' resp ev c'',
    OptimizerAgent_handle_request isoformat meanwhile self message w
      = (w', Ok tt) ∧
    loop_iteration (route_vtable isoformat meanwhile) critic w'
      = Some (w'', Ok tt) ∧
    message_log w'' = message_log w1 ++ [resp; ev] ∧
    to_agent resp = from_agent message ∧
    correlation_id resp = correlation_id message ∧
    heap w'' = <[l := c'']> (heap w1) ∧
    data c'' !! "last_prediction" = Some (VDict (payload resp)) ∧
    (forall key, key ≠ "last_prediction" ->
       data c'' !! key = data c !! key).
Proof.
  intros w1 Hact Hwd Hrw Hconf Hfd Hsav Hnd Himp Ha Hbus Hid Hk Hne Hfrom
         Hnb Hcls Hq Hl Hc.
  destruct (optimizer_run isoformat meanwhile self message wd rw fd nd
              conf sav imp w a Hact Hwd Hrw Hconf Hfd Hsav Hnd Himp Ha Hbus)
    as (w' & resp & ev & result & E & L & V & Vev & H & G & A).
  fold w1 in L, H, G, A.
  destruct V as (Vf & Vt & Vty & Vp & Vc).
  destruct Vev as (Ef & Et & Ety & Ep & Ec).
  assert (Hk' : agents w' !! critic
                = Some (set_message_queue [ev] k)).
  { rewrite A, Hk. simpl. rewrite Hq.
    rewrite filter_cons_False.
    - rewrite filter_cons_True; [reflexivity|].
      unfold addressed. rewrite Et, Ef, Hid. simpl.
      apply negb_true_iff, String.eqb_neq. exact Hne.
    - unfold addressed. rewrite Vt.
      apply String.eqb_neq in Hnb. rewrite Hnb.
      intros Hx. apply String.eqb_eq in Hx. congruence. }
  assert (Hc' : heap w' !! l = Some c) by (rewrite H; exact Hc).
  destruct (critic_turn critic w' (set_message_queue [ev] k) ev []
              (VDict result) l c Hk' Hcls eq_refl Ety)
    as (w'' & k2 & E2 & _ & _ & _ & _ & _ & L2 & _ & H2 & _);
    [rewrite Ep; reflexivity | rewrite Ep; reflexivity | exact Hl
    | exact Hc' |].
  exists w', w'', resp, ev,
         (AgentContext_set "last_prediction" (VDict result) c).
  split; [exact E|]. split; [exact E2|].
  split; [rewrite L2; exact L|]. split; [exact Vt|]. split; [exact Vc|].
  split; [rewrite H2, H; reflexivity|].
  split; [rewrite Vp; simpl; apply lookup_insert_eq|].
  intros key Hkey. simpl. apply lookup_insert_ne. congruence.
Qed.
End OptimizerFails.

Lemma optimizer_needs_all_three_answers_witness :
  exists w2 a2,
    loop_iteration (route_vtable sample_isoformat undisturbed) "optimizer"
      (MessageBus_send dataless_request demo_world).1 = Some (w2, Ok tt) ∧
    message_log w2 = [dataless_request] ∧
    agents w2 !! "optimizer" = Some a2 ∧ tasks_failed a2 = 1.
Proof.
  destruct (optimizer_needs_all_three_answers sample_isoformat undisturbed
              "optimizer" (MessageBus_send dataless_request demo_world).1
              (receive_message dataless_request
                 (set_message_bus true OptimizerAgent_init))
              dataless_request [])
    as (w2 & lines & e & E & A & L & _).
  - vm_compute; reflexivity.
  - reflexivity.
  - reflexivity.
  - reflexivity.
  - reflexivity.
  - left. reflexivity.
  - eexists w2, _. split; [exact E|]. split; [rewrite L; reflexivity|].
    rewrite A. split; [apply lookup_insert_eq | reflexivity].
Defined.

Lemma critic_stores_the_prediction_witness :
  exists w2 c2,
    loop_iteration (route_vtable sample_isoformat undisturbed) "critic"
      (MessageBus_send sample_broadcast scenario_world).1
      = Some (w2, Ok tt) ∧
    heap w2 !! scenario_loc = Some c2 ∧
    data c2 !! "last_prediction" = Some (VDict ∅).
Proof.
  destruct (critic_stores_the_prediction sample_isoformat undisturbed
              "critic" (MessageBus_send sample_broadcast scenario_world).1
              (receive_message sample_broadcast
                 (set_context (Some scenario_loc)
                    (set_message_bus true CriticAgent_init)))
              sample_broadcast [] (VDict ∅))
    as (w2 & a2 & E & _ & _ & _ & _ & _ & Hstore & _).
  - vm_compute; reflexivity.
  - reflexivity.
  - reflexivity.
  - reflexivity.
  - reflexivity.
  - reflexivity.
  - intros l Hl. injection Hl as <-. exists scenario_context.
    vm_compute; reflexivity.
  - destruct (Hstore scenario_loc scenario_context)
      as (c2 & H & Hd & _).
    + reflexivity.
    + vm_compute; reflexivity.
    + exists w2, c2. split; [exact E|].
      split; [rewrite H; apply lookup_insert_eq | exact Hd].
Defined.

Lemma prediction_is_the_answer_witness :
  exists w'' resp c'',
    heap w'' !! scenario_loc = Some c'' ∧
    data c'' !! "last_prediction" = Some (VDict (payload resp)) ∧
    to_agent resp = "planner".
Proof.
  destruct (prediction_is_the_answer sample_isoformat undisturbed
              "optimizer" "critic" optimize_request
              {[ "route_weather" :=
                   VDict {[ "confidence" := VFloat (85 # 100) ]} ]}
              {[ "confidence" := VFloat (85 # 100) ]}
              {[ "tankering_savings" := VInt 450 ]}
              {[ "network_impact" := VStr "minimal" ]}
              (VFloat (85 # 100)) (VInt 450) (VStr "minimal")
              scenario_world
              (set_context (Some scenario_loc)
                 (set_message_bus true OptimizerAgent_init))
              (set_context (Some scenario_loc)
                 (set_message_bus true CriticAgent_init))
              scenario_loc scenario_context)
    as (w' & w'' & resp & ev & c'' & _ & _ & _ & Vt & _ & H & Hd & _).
  - reflexivity.
  - reflexivity.
  - reflexivity.
  - reflexivity.
  - reflexivity.
  - reflexivity.
  - reflexivity.
  - reflexivity.
  - vm_compute; reflexivity.
  - reflexivity.
  - reflexivity.
  - vm_compute; reflexivity.
  - discriminate.
  - discriminate.
  - discriminate.
  - reflexivity.
  - reflexivity.
  - reflexivity.
  - vm_compute; reflexivity.
  - exists w'', resp, c''. split; [rewrite H; apply lookup_insert_eq|].
    split; [exact Hd | exact Vt].
Defined.

(** ** The log is append-only *)

Lemma grows_same {A} (c : M A) :
  (forall w, message_log (c w).1 = message_log w) -> log_grows c.
Proof. intros H w w' r E. rewrite <- (H w), E. reflexivity. Qed.

Lemma grows_bind {A B} (c : M A) (k : A -> M B) :
  log_grows c -> (forall a, log_grows (k a)) -> log_grows (bind c k).
Proof.
  intros Hc Hk w w' r E. unfold bind in E.
  destruct (c w) as [w1 [x|e|]] eqn:E1.
  - etransitivity; [exact (Hc _ _ _ E1) | exact (Hk _ _ _ _ E)].
  - injection E as <- _. exact (Hc _ _ _ E1).
  - injection E as <- _. exact (Hc _ _ _ E1).
Qed.

Lemma grows_try_except {A} (c : M A) (h : Exception -> M A) :
  log_grows c -> (forall e, log_grows (h e)) -> log_grows (try_except c h).
Proof.
  intros Hc Hh w w' r E. unfold try_except in E.
  destruct (c w) as [w1 [x|e|]] eqn:E1.
  - injection E as <- _. exact (Hc _ _ _ E1).
  - etransitivity; [exact (Hc _ _ _ E1) | exact (Hh _ _ _ _ E)].
  - injection E as <- _. exact (Hc _ _ _ E1).
Qed.

Lemma grows_ret {A} (x : A) : log_grows (ret x).
Proof. apply grows_same. reflexivity. Qed.

Lemma grows_raise {A} (e : Exception) : log_grows (@raise A e).
Proof. apply grows_same. reflexivity. Qed.

Lemma grows_gets {A} (f : World -> A) : log_grows (gets f).
Proof. apply grows_same. reflexivity. Qed.

Lemma grows_print (line : list fragment) : log_grows (print line).
Proof. apply grows_same. reflexivity. Qed.

Lemma grows_uuid4 : log_grows uuid4.
Proof. apply grows_same. reflexivity. Qed.

Lemma grows_datetime_now : log_grows datetime_now.
Proof. apply grows_same. reflexivity. Qed.

Lemma grows_self_get {A} (self : string) (f : BaseAgent -> A) :
  log_grows (self_get self f).
Proof.
  apply grows_same. intros w. unfold self_get.
  destruct (agents w !! self); reflexivity.
Qed.

Lemma grows_self_set (self : string) (f : BaseAgent -> BaseAgent) :
  log_grows (self_set self f).
Proof.
  apply grows_same. intros w. unfold self_set.
  destruct (agents w !! self); reflexivity.
Qed.

Lemma grows_context_get (l : loc) (key : string) (d : pyval) :
  log_grows (context_get l key d).
Proof.
  apply grows_same. intros w. unfold context_get.
  destruct (heap w !! l); reflexivity.
Qed.

Lemma grows_context_set (l : loc) (key : string) (v : pyval) :
  log_grows (context_set l key v).
Proof.
  apply grows_same. intros w. unfold context_set.
  destruct (heap w !! l); reflexivity.
Qed.

Lemma grows_context_field {A} (l : loc) (f : AgentContext -> A) :
  log_grows (context_field l f).
Proof.
  apply grows_same. intros w. unfold context_field.
  destruct (heap w !! l); reflexivity.
Qed.

Lemma grows_dict_getitem (d : gmap string pyval) (key : string) :
  log_grows (dict_getitem d key).
Proof.
  apply grows_same. intros w. unfold dict_getitem.
  destruct (d !! key); reflexivity.
Qed.

Lemma grows_py_getitem (v : pyval) (key : string) :
  log_grows (py_getitem v key).
Proof.
  destruct v; try (apply grows_raise). apply grows_dict_getitem.
Qed.

Lemma grows_py_in (x : string) (c : pyval) : log_grows (py_in x c).
Proof. apply grows_same. intros w. destruct c; reflexivity. Qed.

Lemma grows_py_remove (c : pyval) (x : string) :
  log_grows (py_remove c x).
Proof. apply grows_same. intros w. destruct c; reflexivity. Qed.

Lemma grows_py_len (c : pyval) : log_grows (py_len c).
Proof. apply grows_same. intros w. destruct c; reflexivity. Qed.

Lemma grows_MessageBus_send (message : AgentMessage) :
  log_grows (MessageBus_send message).
Proof.
  intros w w' r E.
  destruct (MessageBus_send_lookup message w) as (w1 & E1 & L & _).
  rewrite E1 in E. injection E as <- _. rewrite L.
  apply prefix_app_r. reflexivity.
Qed.

Create HintDb history.
#[local] Hint Resolve grows_ret grows_raise grows_gets grows_print
  grows_uuid4 grows_datetime_now grows_self_get grows_self_set
  grows_context_get grows_context_set grows_context_field
  grows_dict_getitem grows_py_getitem grows_py_in grows_py_remove
  grows_py_len grows_MessageBus_send : history.

(** Walks through a body: binds, branches, then the operations
    registered in [history]. *)
Ltac grows :=
  cbv zeta;
  repeat first
    [ solve [auto with history]
    | apply grows_bind; [|intros ?]
    | match goal with
      | |- log_grows (match ?x with _ => _ end) => destruct x
      end ].

Lemma grows_send_message (self recipient : string) (t : MessageType)
    (p : gmap string pyval) (corr : pyval) :
  log_grows (send_message self recipient t p corr).
Proof. unfold send_message, AgentMessage_new. grows. Qed.

#[local] Hint Resolve grows_send_message : history.

Lemma grows_broadcast_event (self event_type : string)
    (d : gmap string pyval) :
  log_grows (broadcast_event self event_type d).
Proof. unfold broadcast_event. grows. Qed.

Lemma grows_set_goal (goal_ : string)
    (initial_data : option (gmap string pyval)) :
  log_grows (set_goal goal_ initial_data).
Proof.
  apply grows_same. intros w. reflexivity.
Qed.

Lemma grows_start_optimization (sid : string) :
  log_grows (start_optimization sid).
Proof. unfold start_optimization, AgentMessage_new. grows. Qed.

Lemma grows_get_progress (sid : string) : log_grows (get_progress sid).
Proof. unfold get_progress. grows. Qed.

Lemma grows_planner_methods (self : string) (message : AgentMessage) :
  log_grows (PlannerAgent_handle_response self message) ∧
  log_grows (PlannerAgent_handle_command self message).
Proof.
  split.
  - unfold PlannerAgent_handle_response, trigger_optimization. grows.
  - unfold PlannerAgent_handle_command, decompose_and_delegate. grows.
Qed.

Lemma grows_critic (self : string) (message : AgentMessage) :
  log_grows (CriticAgent_handle_event self message).
Proof. unfold CriticAgent_handle_event. grows. Qed.

Section History.
Variable isoformat : Z -> string.
Variable meanwhile : Q -> World -> World.
Hypothesis meanwhile_appends :
  forall seconds w,
    message_log w `prefix_of` message_log (meanwhile seconds w).

Lemma grows_asyncio_sleep (seconds : Q) :
  log_grows (asyncio_sleep meanwhile seconds).
Proof.
  intros w w' r E. injection E as <- _. apply meanwhile_appends.
Qed.

Lemma grows_workers (self : string) (message : AgentMessage) :
  log_grows (WeatherAgent_handle_request isoformat meanwhile self message) ∧
  log_grows (FuelAgent_handle_request isoformat meanwhile self message) ∧
  log_grows (NetworkAgent_handle_request isoformat meanwhile self message) ∧
  log_grows (OptimizerAgent_handle_request isoformat meanwhile self message).
Proof.
  pose proof grows_asyncio_sleep as Hsleep.
  pose proof grows_broadcast_event as Hbc.
  repeat split.
  - unfold WeatherAgent_handle_request, get_weather_forecast. grows.
  - unfold FuelAgent_handle_request, analyze_fuel_costs. grows.
  - unfold NetworkAgent_handle_request, check_network_constraints. grows.
  - unfold OptimizerAgent_handle_request, optimize_route. grows.
Qed.

Lemma grows_dispatch (self : string) (message : AgentMessage) :
  log_grows (dispatch (route_vtable isoformat meanwhile) self message).
Proof.
  destruct (grows_workers self message) as (Hw & Hf & Hn & Ho).
  destruct (grows_planner_methods self message) as (Hr & Hc).
  pose proof (grows_critic self message) as He.
  unfold dispatch. apply grows_bind; [apply grows_self_get|].
  intros c. destruct c, (type message); simpl;
    first [assumption | apply grows_ret].
Qed.

Lemma grows_loop_iteration (self : string) (w w' : World)
    (r : outcome unit) :
  loop_iteration (route_vtable isoformat meanwhile) self w = Some (w', r) ->
  message_log w `prefix_of` message_log w'.
Proof.
  unfold loop_iteration. destruct (agents w !! self) as [a|].
  - destruct (message_queue a) as [|m rest]; [discriminate|].
    intros E. injection E as E. revert E.
    apply grows_try_except.
    + pose proof (grows_dispatch self m) as Hd.
      unfold process_one. grows.
    + intros e. unfold on_exception, handle_error. grows.
  - intros E. injection E as <- _. reflexivity.
Qed.

(** X28. Nothing that was logged is ever removed or rewritten. As long
    as what runs during an agent's pause only appends to the log, so does
    every run of [process_messages], for every agent of route_agents.py,
    whatever is in its inbox and however the run ends; and so do
    [register_agent], [MessageBus.send], [set_goal], [start_optimization]
    and [get_progress]. The log before is a prefix of the log after. *)
Theorem history_is_append_only :
  (forall fuel self w w' st,
     process_messages (route_vtable isoformat meanwhile) fuel self w
       = (w', st) ->
     message_log w `prefix_of` message_log w') ∧
  (forall a, log_grows (register_agent a)) ∧
  (forall m, log_grows (MessageBus_send m)) ∧
  (forall g d, log_grows (set_goal g d)) ∧
  (forall sid, log_grows (start_optimization sid)) ∧
  (forall sid, log_grows (get_progress sid)).
Proof.
  split; [|split; [|split; [|split; [|split]]]].
  - induction fuel as [|fuel IH]; intros self w w' st E; simpl in E.
    + injection E as <- _. reflexivity.
    + destruct (loop_iteration (route_vtable isoformat meanwhile) self w)
        as [[w1 [[]|e|]]|] eqn:E1.
      * etransitivity; [exact (grows_loop_iteration _ _ _ _ E1)|].
        exact (IH _ _ _ _ E).
      * injection E as <- _. exact (grows_loop_iteration _ _ _ _ E1).
      * injection E as <- _. exact (grows_loop_iteration _ _ _ _ E1).
      * injection E as <- _. reflexivity.
  - intros a. apply grows_same. reflexivity.
  - apply grows_MessageBus_send.
  - apply grows_set_goal.
  - apply grows_start_optimization.
  - apply grows_get_progress.
Qed.
End History.

Lemma history_is_append_only_witness :
  message_log scenario_world
    `prefix_of`
  message_log
    (process_messages (route_vtable sample_isoformat undisturbed) 3
       "planner" (start_optimization "6f1c0d1e" scenario_world).1).1.
Proof.
  destruct (history_is_append_only sample_isoformat undisturbed)
    as (Hrun & _ & _ & _ & Hstart & _).
  - intros seconds w. reflexivity.
  - etransitivity.
    + exact (Hstart "6f1c0d1e" scenario_world _ _
               (surjective_pairing _)).
    + exact (Hrun 3%nat "planner" _ _ _ (surjective_pairing _)).
Defined.

(** ** Nobody is unregistered or rebound by a turn *)

Lemma registry_kept_refl (w : World) : registry_kept w w.
Proof. intros B b H. exists b. split; [exact H|]. repeat split. Qed.

Lemma registry_kept_trans (w1 w2 w3 : World) :
  registry_kept w1 w2 -> registry_kept w2 w3 -> registry_kept w1 w3.
Proof.
  intros H12 H23 B b1 H1.
  destruct (H12 B b1 H1) as (b2 & H2 & I2).
  destruct (H23 B b2 H2) as (b3 & H3 & I3).
  exists b3. split; [exact H3|].
  destruct I2 as (? & ? & ? & ? & ?), I3 as (? & ? & ? & ? & ?).
  repeat split; congruence.
Qed.

Lemma queue_only_registry_kept (w w' : World) :
  queue_only w w' -> registry_kept w w'.
Proof.
  intros H B b HB. destruct (H B b HB) as (b' & HB' & Q).
  exists b'. split; [exact HB'|]. rewrite Q. repeat split.
Qed.

Lemma registry_kept_update (self : string) (f : BaseAgent -> BaseAgent)
    (w : World) (a : BaseAgent) :
  agents w !! self = Some a ->
  same_identity a (f a) ->
  registry_kept w (set_agents (<[self := f a]>) w).
Proof.
  intros Ha Hf B b HB. destruct (decide (B = self)) as [->|Hne].
  - rewrite Ha in HB. injection HB as <-.
    exists (f a). split; [apply lookup_insert_eq | exact Hf].
  - exists b. split; [|repeat split]. simpl.
    rewrite lookup_insert_ne by congruence. exact HB.
Qed.

Lemma keeps_py_getitem (v : pyval) (key : string) :
  keeps_agents (py_getitem v key).
Proof.
  destruct v; try (apply keeps_raise). apply keeps_dict_getitem.
Qed.

Lemma keeps_broadcast_event (self event_type : string)
    (d : gmap string pyval) :
  keeps_agents (broadcast_event self event_type d).
Proof. unfold broadcast_event. apply keeps_send_message. Qed.

Lemma keeps_critic (self : string) (message : AgentMessage) :
  keeps_agents (CriticAgent_handle_event self message).
Proof. unfold CriticAgent_handle_event. cbv zeta. keeps. Qed.

Section Registry.
Variable isoformat : Z -> string.
Variable meanwhile : Q -> World -> World.
Hypothesis meanwhile_keeps :
  forall seconds w, queue_only w (meanwhile seconds w).

Lemma keeps_asyncio_sleep (seconds : Q) :
  keeps_agents (asyncio_sleep meanwhile seconds).
Proof. intros w w' r E. injection E as <- _. apply meanwhile_keeps. Qed.

Lemma keeps_workers (self : string) (message : AgentMessage) :
  keeps_agents (WeatherAgent_handle_request isoformat meanwhile self message) ∧
  keeps_agents (FuelAgent_handle_request isoformat meanwhile self message) ∧
  keeps_agents (NetworkAgent_handle_request isoformat meanwhile self message) ∧
  keeps_agents
    (OptimizerAgent_handle_request isoformat meanwhile self message).
Proof.
  pose proof keeps_asyncio_sleep as Hsleep.
  pose proof keeps_broadcast_event as Hbc.
  pose proof keeps_py_getitem as Hget.
  repeat split.
  - unfold WeatherAgent_handle_request, get_weather_forecast.
    cbv zeta. keeps.
  - unfold FuelAgent_handle_request, analyze_fuel_costs. cbv zeta. keeps.
  - unfold NetworkAgent_handle_request, check_network_constraints.
    cbv zeta. keeps.
  - unfold OptimizerAgent_handle_request, optimize_route. cbv zeta. keeps.
Qed.

Lemma keeps_route_dispatch (self : string) (message : AgentMessage) :
  keeps_agents (dispatch (route_vtable isoformat meanwhile) self message).
Proof.
  destruct (keeps_workers self message) as (Hw & Hf & Hn & Ho).
  pose proof (keeps_critic self message) as He.
  unfold dispatch. apply keeps_bind; [apply keeps_self_get|].
  intros c. destruct c, (type message); simpl;
    first [ assumption | apply keeps_ret
          | apply keeps_PlannerAgent_handle_response
          | apply keeps_PlannerAgent_handle_command ].
Qed.

Lemma turn_keeps_registry (self : string) (w w' : World)
    (r : outcome unit) :
  loop_iteration (route_vtable isoformat meanwhile) self w = Some (w', r) ->
  registry_kept w w'.
Proof.
  unfold loop_iteration. destruct (agents w !! self) as [a|] eqn:Ha.
  - destruct (message_queue a) as [|m rest] eqn:Hq; [discriminate|].
    intros E. injection E as E.
    unfold try_except, process_one in E.
    rewrite (loop_reaches_handler self w a m rest _ Ha) in E.
    set (a0 := set_status WORKING (set_message_queue rest a)) in *.
    set (w0 := at_dispatch self a rest w) in *.
    assert (K0 : registry_kept w w0).
    { unfold w0, at_dispatch.
      intros B b HB. destruct (decide (B = self)) as [->|Hne].
      - rewrite Ha in HB. injection HB as <-. exists a0.
        split; [apply lookup_insert_eq | repeat split].
      - exists b. split; [|repeat split]. simpl.
        rewrite lookup_insert_ne by congruence. exact HB. }
    destruct (dispatch (route_vtable isoformat meanwhile) self m w0)
      as [w1 o] eqn:Hd.
    pose proof (keeps_route_dispatch self m _ _ _ Hd) as K1.
    destruct (K1 self a0) as (a1 & Ha1 & Q1); [apply lookup_insert_eq|].
    apply queue_only_registry_kept in K1.
    apply (registry_kept_trans _ _ _ K0).
    apply (registry_kept_trans _ _ _ K1).
    destruct o as [[]|e|].
    + rewrite (bind_ok _ _ _ _ _ Hd) in E.
      rewrite (bind_ok _ _ _ _ _ (datetime_now_ok w1)) in E.
      assert (Ha1' : agents (set_clock_cursor (S (clock_cursor w1)) w1)
                       !! self = Some a1) by exact Ha1.
      rewrite (bind_ok _ _ _ _ _ (self_set_ok _ _ _ _ Ha1')) in E.
      rewrite (bind_ok _ _ _ _ _
                 (self_set_ok _ _ _ _ (agents_set_agents_self _ _ _))) in E.
      rewrite (self_set_ok _ _ _ _ (agents_set_agents_self _ _ _)) in E.
      rewrite !set_agents_twice in E. injection E as <- _.
      intros B b HB. destruct (decide (B = self)) as [->|Hne].
      * rewrite Ha1 in HB. injection HB as <-. eexists.
        split; [apply lookup_insert_eq | repeat split].
      * exists b. split; [|repeat split]. simpl.
        rewrite lookup_insert_ne by congruence. exact HB.
    + rewrite (bind_raise _ _ _ _ _ Hd) in E.
      rewrite (on_exception_ok self e w1 a1 Ha1) in E.
      injection E as <- _.
      intros B b HB. destruct (decide (B = self)) as [->|Hne].
      * rewrite Ha1 in HB. injection HB as <-. eexists.
        split; [apply lookup_insert_eq | repeat split].
      * exists b. split; [|repeat split]. simpl.
        rewrite lookup_insert_ne by congruence. exact HB.
    + unfold bind in E. rewrite Hd in E. injection E as <- _.
      apply registry_kept_refl.
  - intros E. injection E as <- _. apply registry_kept_refl.
Qed.

(** X29. No turn unregisters or rebinds anybody. As long as what runs
    during an agent's pause changes agents in their inboxes only, every
    run of [process_messages], for every agent of route_agents.py and
    however it ends, keeps every registered agent registered under its
    key, with the class, identifier, capabilities, context and bus it
    had; and so do routing a message and starting a session. Only
    [register_agent] and [set_goal] bind agents. *)
Theorem turns_keep_the_registry :
  (forall fuel self w w' st,
     process_messages (route_vtable isoformat meanwhile) fuel self w
       = (w', st) ->
     registry_kept w w') ∧
  (forall m w w' r, MessageBus_send m w = (w', r) -> registry_kept w w') ∧
  (forall sid w w' r,
     start_optimization sid w = (w', r) -> registry_kept w w').
Proof.
  split; [|split].
  - induction fuel as [|fuel IH]; intros self w w' st E; simpl in E.
    + injection E as <- _. apply registry_kept_refl.
    + destruct (loop_iteration (route_vtable isoformat meanwhile) self w)
        as [[w1 [[]|e|]]|] eqn:E1.
      * eapply registry_kept_trans;
          [exact (turn_keeps_registry _ _ _ _ E1) | exact (IH _ _ _ _ E)].
      * injection E as <- _. exact (turn_keeps_registry _ _ _ _ E1).
      * injection E as <- _. exact (turn_keeps_registry _ _ _ _ E1).
      * injection E as <- _. apply registry_kept_refl.
  - intros m w w' r E. apply queue_only_registry_kept.
    exact (keeps_MessageBus_send m _ _ _ E).
  - intros sid w w' r E. apply queue_only_registry_kept. revert E.
    generalize w w' r.
    change (keeps_agents (start_optimization sid)).
    unfold start_optimization, AgentMessage_new. keeps.
Qed.
End Registry.

Lemma turns_keep_the_registry_witness :
  exists b',
    agents
      (process_messages (route_vtable sample_isoformat undisturbed) 3
         "planner" (start_optimization "6f1c0d1e" scenario_world).1).1
      !! "critic" = Some b' ∧
    context b' = Some scenario_loc.
Proof.
  destruct (turns_keep_the_registry sample_isoformat undisturbed)
    as (Hrun & _ & _).
  - intros seconds w B b HB. exists b.
    split; [exact HB | apply same_but_queue_refl].
  - destruct (Hrun 3%nat "planner"
                (start_optimization "6f1c0d1e" scenario_world).1 _ _
                (surjective_pairing _) "critic"
                (set_context (Some scenario_loc)
                   (set_message_bus true CriticAgent_init)))
      as (b' & Hb' & _ & _ & _ & Hc & _).
    + vm_compute; reflexivity.
    + exists b'. split; [exact Hb' | exact Hc].
Defined.
